(** * MoonMole: a shallow embedding of the lunar mining simulator

    The development follows [vast/MoonMole/components.py] and
    [vast/MoonMole/simulate.py].

    Conventions.
    - Python [int] is unbounded, so every integer is a [Z].
    - An exception aborts the run; a fallible function returns a [result].
    - [random.randint] is the only source of nondeterminism.  Its successive
      answers are a stream [draw : nat -> Z]; the position in the stream is
      the state threaded by the monad [M].
    - Objects that the source mutates in place (trucks, stations, the station
      list shared by all trucks) are passed in and returned explicitly.
    - An attribute that is assigned to an object after its construction
      ([inbound_travel_time] and the like) is an [option]: reading it while
      it is absent raises [AttributeError].
    - The messages printed under the verbose flags are not modelled.  Two of
      them read [station.attached_truck.name], which would raise for a busy
      station without a truck; no operation of the code produces such a
      station ([Station.invariant]).
    - A finite [float] is modelled by the rational it denotes; a floating
      point operation is the exact operation followed by a rounding
      [rnd : Q -> Q], which is a parameter of the computations, and by the
      test that the result is within the range of a binary64.  The rounding
      of the machine is [Float.binary64]: to the nearest binary64, ties to
      the even one. *)

From Stdlib Require Import ZArith QArith Qround Qabs Qpower Lia Lqa.
From stdpp Require Import gmap strings list fin_maps pretty.

Local Open Scope Z_scope.

(** ** Exceptions and the two monads *)

Inductive exn : Set :=
| ZeroDivisionError | ValueError | KeyError | AttributeError | OverflowError.

Inductive result (A : Type) : Type :=
| Ok (a : A)
| Raise (e : exn).
Arguments Ok {A} a.
Arguments Raise {A} e.

#[global] Instance result_ret : MRet result := @Ok.
#[global] Instance result_bind : MBind result :=
  fun A B (f : A -> result B) (m : result A) =>
    match m with
    | Ok a => f a
    | Raise e => Raise e
    end.

(** [M A]: a computation that may consume random draws and may raise.  The
    state is the number of draws consumed so far. *)
Definition M (A : Type) : Type := nat -> result (A * nat).

#[global] Instance M_ret : MRet M := fun A (a : A) c => Ok (a, c).
#[global] Instance M_bind : MBind M :=
  fun A B (f : A -> M B) (m : M A) c =>
    match m c with
    | Ok (a, c') => f a c'
    | Raise e => Raise e
    end.

Definition lift {A} (r : result A) : M A :=
  fun c => match r with Ok a => Ok (a, c) | Raise e => Raise e end.

(** A truth value as the integer it counts for. *)
Definition b2z (b : bool) : Z := if b then 1 else 0.

(** The line feed that ends every line of a report. *)
Definition newline : string := String (Ascii.ascii_of_nat 10) EmptyString.

(** ** Enumerations *)

Module TruckStatus.
Inductive t : Set := IDLE | MINING | UNLOADING | TRAVELING_TO_MINE | TRAVELING_TO_STATION.

#[global] Instance eq_dec : EqDecision t.
Proof. solve_decision. Defined.

Definition to_nat (s : t) : nat :=
  match s with
  | IDLE => 1 | MINING => 2 | UNLOADING => 3
  | TRAVELING_TO_MINE => 4 | TRAVELING_TO_STATION => 5
  end%nat.

Definition of_nat (n : nat) : t :=
  match n with
  | 1 => IDLE | 2 => MINING | 3 => UNLOADING | 4 => TRAVELING_TO_MINE
  | _ => TRAVELING_TO_STATION
  end%nat.

#[global] Instance countable : Countable t.
Proof. apply (inj_countable' to_nat of_nat). intros []; reflexivity. Defined.

(** The [name] attribute of an enum member. *)
Definition name (s : t) : string :=
  match s with
  | IDLE => "IDLE"
  | MINING => "MINING"
  | UNLOADING => "UNLOADING"
  | TRAVELING_TO_MINE => "TRAVELING_TO_MINE"
  | TRAVELING_TO_STATION => "TRAVELING_TO_STATION"
  end.

(** Iteration order of the enum class (definition order). *)
Definition members : list t :=
  [IDLE; MINING; UNLOADING; TRAVELING_TO_MINE; TRAVELING_TO_STATION].
End TruckStatus.

Module StationStatus.
Inductive t : Set := IDLE | BUSY.

#[global] Instance eq_dec : EqDecision t.
Proof. solve_decision. Defined.

Definition to_nat (s : t) : nat := match s with IDLE => 1 | BUSY => 2 end%nat.
Definition of_nat (n : nat) : t := match n with 1%nat => IDLE | _ => BUSY end.

#[global] Instance countable : Countable t.
Proof. apply (inj_countable' to_nat of_nat). intros []; reflexivity. Defined.

Definition name (s : t) : string :=
  match s with IDLE => "IDLE" | BUSY => "BUSY" end.
End StationStatus.

(** ** Python's [round] on a float, and [int] of a quotient *)

(** [round(x)] with one argument: nearest integer, ties to the even one. *)
Definition py_round (x : Q) : Z :=
  let f := Qfloor x in
  match Qcompare (x - inject_Z f) (1 # 2) with
  | Lt => f
  | Gt => f + 1
  | Eq => if Z.even f then f else f + 1
  end.

(** ** Floating point numbers *)

Module Float.
(** A float: a finite number, an infinity with its sign, or a NaN.  The two
    zeros are not told apart. *)
Inductive t : Set := Finite (q : Q) | Inf (negative : bool) | NaN.

(** The largest finite binary64, [(2^53 - 1) * 2^971]. *)
Definition fmax_int : Z := (2 ^ 53 - 1) * 2 ^ 971.
Definition fmax : Q := inject_Z fmax_int.

Definition negative (x : Q) : bool := negb (Qle_bool 0 x).

Section Ops.
Variable rnd : Q -> Q.

(** The float that an operation of exact value [x] delivers: [x] rounded,
    or an infinity when the rounded value lies beyond the largest float. *)
Definition nearest (x : Q) : t :=
  let y := rnd x in
  if Qle_bool (Qabs y) fmax then Finite y else Inf (negative x).

(** [float(a)], as done to the integer operand of a mixed operation. *)
Definition of_int (a : Z) : result t :=
  match nearest (inject_Z a) with
  | Finite y => Ok (Finite y)
  | _ => Raise OverflowError
  end.

(** [a / b] on two integers: the quotient is rounded once. *)
Definition int_truediv (a b : Z) : result t :=
  if b =? 0 then Raise ZeroDivisionError
  else match nearest (inject_Z a / inject_Z b) with
       | Finite y => Ok (Finite y)
       | _ => Raise OverflowError
       end.

Definition is_zero (x : t) : bool :=
  match x with
  | Finite q => Qeq_bool q 0
  | _ => false
  end.

(** [x * y] on two floats; it never raises. *)
Definition mul (x y : t) : t :=
  match x, y with
  | NaN, _ | _, NaN => NaN
  | Inf s1, Inf s2 => Inf (xorb s1 s2)
  | Inf s, Finite q | Finite q, Inf s =>
      if Qeq_bool q 0 then NaN else Inf (xorb s (negative q))
  | Finite a, Finite b => nearest (a * b)
  end.

(** [x / y] on two floats; a zero divisor raises. *)
Definition truediv (x y : t) : result t :=
  if is_zero y then Raise ZeroDivisionError
  else Ok match x, y with
          | NaN, _ | _, NaN => NaN
          | Inf _, Inf _ => NaN
          | Inf s, Finite q => Inf (xorb s (negative q))
          | Finite _, Inf _ => Finite 0
          | Finite a, Finite b => nearest (a / b)
          end.

(** [x / b] with [x] a float and [b] an integer. *)
Definition truediv_int (x : t) (b : Z) : result t :=
  y ← of_int b; truediv x y.

(** [a * x] with [a] an integer and [x] a float. *)
Definition int_mul (a : Z) (x : t) : result t :=
  y ← of_int a; mret (mul y x).

(** [x * a] with [x] a float and [a] an integer. *)
Definition mul_int (x : t) (a : Z) : result t :=
  y ← of_int a; mret (mul x y).
End Ops.

(** [round(x)] with one argument: the nearest integer, ties to the even
    one; there is none for an infinity or a NaN. *)
Definition round (x : t) : result Z :=
  match x with
  | Finite q => Ok (py_round q)
  | Inf _ => Raise OverflowError
  | NaN => Raise ValueError
  end.

(** The rounding of binary64 arithmetic.  A positive [x] lies in one binade
    [2^k <= x < 2^(k+1)], [k] being [log2_floor x]; the floats of that binade
    are the multiples of [2^(k-52)], those below the smallest normal number
    the multiples of [2^(-1074)].  [x] goes to the nearest multiple, ties to
    the even one; the range is checked afterwards, by [nearest]. *)
Definition log2_floor (x : Q) : Z :=
  let k := Z.log2 (Qnum x) - Z.log2 (Zpos (Qden x)) in
  if Qle_bool (2 ^ k) x then k else k - 1.

Definition ulp_exponent (x : Q) : Z := Z.max (log2_floor x - 52) (-1074).

Definition round_positive (x : Q) : Q :=
  let e := ulp_exponent x in
  Qred (inject_Z (py_round (x / 2 ^ e)) * 2 ^ e).

Definition binary64 (x : Q) : Q :=
  match (0 ?= x)%Q with
  | Lt => round_positive x
  | Eq => 0
  | Gt => - round_positive (- x)
  end.

(** What the properties below ask of a rounding: it is monotone, and 0, 1,
    100 and the largest float are floats. *)
Record rounding (rnd : Q -> Q) : Prop := {
  rounding_monotone : ∀ x y : Q, (x <= y)%Q -> (rnd x <= rnd y)%Q;
  rounding_0 : (rnd 0 == 0)%Q;
  rounding_1 : (rnd 1 == 1)%Q;
  rounding_100 : (rnd (inject_Z 100) == inject_Z 100)%Q;
  rounding_fmax : (rnd fmax == fmax)%Q
}.
End Float.

(** ** MiningRun *)

Module MiningRun.
(** The fourteen dataclass fields, followed by the four attributes that
    [initialize_simulation_definition] (or a test, or the front end) assigns
    afterwards: [None] as long as the object has no such attribute. *)
Record t : Set := mk {
  num_stations : Z;
  num_trucks : Z;
  run_hours : Z;
  total_loads_collected : Z;
  total_load_count : Z;
  total_idle_truck_time : Z;
  total_busy_truck_time : Z;
  total_idle_station_time : Z;
  total_busy_station_time : Z;
  verbose_trucks : bool;
  verbose_stations : bool;
  min_mining_hours : Z;
  max_mining_hours : Z;
  slice_time : Z;
  inbound_travel_time : option Z;
  outbound_travel_time : option Z;
  unloading_time : option Z;
  idle_wait_time : option Z
}.

(** Reading an attribute of the object: [AttributeError] when it has none
    of that name. *)
Definition getattr (attribute : option Z) : result Z :=
  match attribute with
  | Some v => Ok v
  | None => Raise AttributeError
  end.

(** The four later attributes have been assigned. *)
Definition has_durations (self : t) : Prop :=
  is_Some (inbound_travel_time self) ∧ is_Some (outbound_travel_time self) ∧
  is_Some (unloading_time self) ∧ is_Some (idle_wait_time self).

(** The dataclass constructor called with all fourteen fields.  The
    generated [__init__] assigns the fields and runs no check (there is no
    [__post_init__]), so it accepts any values.  The four later attributes do
    not exist yet. *)
Definition new (num_stations num_trucks run_hours total_loads_collected
    total_load_count total_idle_truck_time total_busy_truck_time
    total_idle_station_time total_busy_station_time : Z)
    (verbose_trucks verbose_stations : bool)
    (min_mining_hours max_mining_hours slice_time : Z) : result t :=
  Ok (mk num_stations num_trucks run_hours total_loads_collected
        total_load_count total_idle_truck_time total_busy_truck_time
        total_idle_station_time total_busy_station_time
        verbose_trucks verbose_stations
        min_mining_hours max_mining_hours slice_time None None None None).

(** The attribute assignments
    [self.inbound_travel_time = a; self.outbound_travel_time = b;
     self.unloading_time = c; self.idle_wait_time = d; self.slice_time = e]. *)
Definition with_times (self : t) (a b c d e : Z) : t :=
  mk (num_stations self) (num_trucks self) (run_hours self)
     (total_loads_collected self) (total_load_count self)
     (total_idle_truck_time self) (total_busy_truck_time self)
     (total_idle_station_time self) (total_busy_station_time self)
     (verbose_trucks self) (verbose_stations self)
     (min_mining_hours self) (max_mining_hours self) e
     (Some a) (Some b) (Some c) (Some d).

(** Assignment of the five totals that the summaries update. *)
Definition with_totals (self : t) (load_count idle_truck busy_truck
    idle_station busy_station : Z) : t :=
  mk (num_stations self) (num_trucks self) (run_hours self)
     (total_loads_collected self) load_count idle_truck busy_truck
     idle_station busy_station
     (verbose_trucks self) (verbose_stations self)
     (min_mining_hours self) (max_mining_hours self) (slice_time self)
     (inbound_travel_time self) (outbound_travel_time self)
     (unloading_time self) (idle_wait_time self).

Definition run_minutes (self : t) : Z := run_hours self * 60.

(** [self.run_hours * int(60/self.slice_time)].  The quotient of the two
    integers is a float, which [int] truncates towards zero.  The exact
    quotient is an integer, or is at least 1/60 away from every integer
    (slice of magnitude at most 60), or lies inside (-1,1) at a distance of
    more than 1/61 from both ends (larger slice); the rounding error of the
    division is far below that, so that the truncated float is
    [60 ÷ slice_time] whatever the slice.  A slice of 0 raises. *)
Definition run_time_slices (self : t) : result Z :=
  if slice_time self =? 0 then Raise ZeroDivisionError
  else Ok (run_hours self * (60 ÷ slice_time self)).

Section Random.
Variable draw : nat -> Z.

(** [random.randint(a, b)]: raises [ValueError] on an empty range,
    otherwise answers with the next draw. *)
Definition randint (a b : Z) : M Z :=
  fun c => if b <? a then Raise ValueError else Ok (draw c, S c).

Definition generate_mining_time (self : t) : M Z :=
  h ← randint (min_mining_hours self) (max_mining_hours self);
  mret (h * 60).
End Random.

Section Float.
Variable rnd : Q -> Q.

Definition generate_truck_efficiency (self : t) : result Z :=
  average_busy_minutes_per_truck ←
    Float.int_truediv rnd (total_busy_truck_time self) (num_trucks self);
  average_ratio_of_busy_minutes ←
    Float.truediv_int rnd average_busy_minutes_per_truck (run_minutes self);
  product ← Float.int_mul rnd 100 average_ratio_of_busy_minutes;
  percent_busy_time ← Float.round product;
  mret percent_busy_time.

Definition generate_station_efficiency (self : t) : result Z :=
  average_busy_minutes_per_station ←
    Float.int_truediv rnd (total_busy_station_time self) (num_stations self);
  average_ratio_of_busy_minutes ←
    Float.truediv_int rnd average_busy_minutes_per_station (run_minutes self);
  product ← Float.int_mul rnd 100 average_ratio_of_busy_minutes;
  percent_busy_time ← Float.round product;
  mret percent_busy_time.

Definition generate_report (self : t) : result string :=
  truck_efficiency ← generate_truck_efficiency self;
  station_efficiency ← generate_station_efficiency self;
  mret ("Results from simulated mining run." +:+ newline +:+
        pretty (run_hours self) +:+ " hour run " +:+
        pretty (total_load_count self) +:+
        " truck loads of ore delivered." +:+ newline +:+
        pretty (num_trucks self) +:+ " Trucks, " +:+
        pretty (num_stations self) +:+ " Stations." +:+ newline +:+
        "Trucks operated at " +:+ pretty truck_efficiency +:+
        " percent efficiency, measured as hours" +:+
        " spent actively mining over the full run time." +:+ newline +:+
        "Stations operated at " +:+ pretty station_efficiency +:+
        " percent efficiency, measured as hours" +:+
        " spent actively unloading ore over the full run time." +:+ newline).

Definition generate_csv_report (self : t) : result string :=
  truck_efficiency ← generate_truck_efficiency self;
  station_efficiency ← generate_station_efficiency self;
  mret ("Run Summary,Total Loads Of Ore:," +:+ pretty (total_load_count self) +:+
        ",Station Count," +:+ pretty (num_stations self) +:+
        ",Mining Truck Count," +:+ pretty (num_trucks self) +:+ newline +:+
        "Truck Efficiency," +:+ pretty truck_efficiency +:+
        ",Station Efficiency," +:+ pretty station_efficiency +:+ newline).
End Float.
End MiningRun.

(** ** Station *)

Module Station.
(** [attached_truck] holds a reference to a truck object; the model keeps
    the truck's name, [None] standing for Python's [None]. *)
Record t : Set := mk {
  name : string;
  busy_minutes : Z;
  idle_minutes : Z;
  state : StationStatus.t;
  attached_truck : option string;
  verbose : bool;
  completed_loads : Z
}.

#[global] Instance eq_dec : EqDecision t.
Proof. solve_decision. Defined.

Definition init (nm : string) (vb : bool) : t :=
  {| name := nm; busy_minutes := 0; idle_minutes := 0;
     state := StationStatus.IDLE; attached_truck := None;
     verbose := vb; completed_loads := 0 |}.

Definition attach (self : t) (truck : string) : t :=
  {| name := name self; busy_minutes := busy_minutes self;
     idle_minutes := idle_minutes self;
     state := StationStatus.BUSY; attached_truck := Some truck;
     verbose := verbose self; completed_loads := completed_loads self |}.

(** [release]: under [verbose] the source first prints the name of the
    attached truck, which is there whenever the station is busy
    ([invariant] below); the message is not modelled. *)
Definition release (self : t) : t :=
  {| name := name self; busy_minutes := busy_minutes self;
     idle_minutes := idle_minutes self;
     state := StationStatus.IDLE; attached_truck := None;
     verbose := verbose self; completed_loads := completed_loads self + 1 |}.

Definition cycle (p : MiningRun.t) (self : t) : t :=
  if decide (state self = StationStatus.BUSY) then
    release
      {| name := name self;
         busy_minutes := busy_minutes self + MiningRun.slice_time p;
         idle_minutes := idle_minutes self;
         state := state self; attached_truck := attached_truck self;
         verbose := verbose self; completed_loads := completed_loads self |}
  else
    {| name := name self; busy_minutes := busy_minutes self;
       idle_minutes := idle_minutes self + MiningRun.slice_time p;
       state := state self; attached_truck := attached_truck self;
       verbose := verbose self; completed_loads := completed_loads self |}.

(** The operations a caller may apply to a station. *)
Inductive op : Set := Attach (truck : string) | Release | Cycle.

Definition apply (p : MiningRun.t) (self : t) (o : op) : t :=
  match o with
  | Attach truck => attach self truck
  | Release => release self
  | Cycle => cycle p self
  end.

(** [attached_truck] is not [None] exactly when the station is busy. *)
Definition invariant (self : t) : Prop :=
  attached_truck self ≠ None ↔ state self = StationStatus.BUSY.

Section Float.
Variable rnd : Q -> Q.

(** The status report of a station; [p] is the run the station was
    constructed with. *)
Definition generate_report (p : MiningRun.t) (self : t) : result string :=
  ratio_of_time_unloading ←
    Float.int_truediv rnd (busy_minutes self) (MiningRun.run_minutes p);
  product ← Float.mul_int rnd ratio_of_time_unloading 100;
  percent_of_time_unloading ← Float.round product;
  hours ← Float.int_truediv rnd (busy_minutes self) 60;
  total ← Float.round hours;
  mret ("Status report for station: " +:+ name self +:+ newline +:+
        "Time spent unloading. Total: " +:+ pretty total +:+ " hours." +:+
        " Percent: " +:+ pretty percent_of_time_unloading +:+ newline +:+
        "Loads of Ore unloaded: " +:+ pretty (completed_loads self) +:+ newline).
End Float.
End Station.


(** ** Truck *)

Module Truck.
Record t : Type := mk {
  name : string;
  time_logs : gmap string Z;
  state : TruckStatus.t;
  completed_loads : Z;
  verbose : bool;
  remaining_time : Z;
  current_cycle_mining_time : Z
}.

(** [self.time_logs[key]] *)
Definition log_get (key : string) (logs : gmap string Z) : result Z :=
  match logs !! key with
  | Some v => Ok v
  | None => Raise KeyError
  end.

(** [self.time_logs[key] += minutes]: the entry is read first, so that a
    missing key raises before [minutes] is evaluated, which raises when it
    reads an attribute that is absent. *)
Definition log_add (key : string) (minutes : result Z) (logs : gmap string Z)
  : result (gmap string Z) :=
  v ← log_get key logs;
  m ← minutes;
  mret (<[key := v + m]> logs).

(** [{t.name: 0 for t in TruckStatus}] *)
Definition initial_time_logs : gmap string Z :=
  list_to_map ((fun s => (TruckStatus.name s, 0)) <$> TruckStatus.members).

(** [sum(self.time_logs[s.name] for s in TruckStatus)]: the sum, over the
    five states, of the cumulative minutes; a missing key counts as 0. *)
Definition sum_logs (logs : gmap string Z) : Z :=
  foldr Z.add 0
    ((fun s => default 0 (logs !! TruckStatus.name s)) <$> TruckStatus.members).

Definition total_logged (self : t) : Z := sum_logs (time_logs self).

Definition with_logs (self : t) (logs : gmap string Z)
    (st : TruckStatus.t) (remaining : Z) : t :=
  {| name := name self; time_logs := logs; state := st;
     completed_loads := completed_loads self; verbose := verbose self;
     remaining_time := remaining;
     current_cycle_mining_time := current_cycle_mining_time self |}.

(** First station of the list that is not busy, with its position. *)
Definition get_available_station (stations : list Station.t)
  : option (nat * Station.t) :=
  list_find (fun station => Station.state station ≠ StationStatus.BUSY) stations.

Definition transition_from_mining (p : MiningRun.t) (self : t) : result t :=
  logs ← log_add "MINING" (Ok (current_cycle_mining_time self)) (time_logs self);
  remaining ← MiningRun.getattr (MiningRun.inbound_travel_time p);
  mret (with_logs self logs TruckStatus.TRAVELING_TO_STATION remaining).

(** The station found is mutated in place by [attach]; the list with that
    station replaced is returned next to the truck. *)
Definition transition_from_inbound (p : MiningRun.t) (stations : list Station.t)
    (self : t) : result (t * list Station.t) :=
  logs ← log_add "TRAVELING_TO_STATION"
           (MiningRun.getattr (MiningRun.inbound_travel_time p)) (time_logs self);
  match get_available_station stations with
  | Some (i, station) =>
      remaining ← MiningRun.getattr (MiningRun.unloading_time p);
      mret (with_logs self logs TruckStatus.UNLOADING remaining,
            <[i := Station.attach station (name self)]> stations)
  | None =>
      remaining ← MiningRun.getattr (MiningRun.idle_wait_time p);
      mret (with_logs self logs TruckStatus.IDLE remaining, stations)
  end.

Definition transition_from_unloading (p : MiningRun.t) (self : t) : result t :=
  logs ← log_add "UNLOADING" (MiningRun.getattr (MiningRun.unloading_time p))
           (time_logs self);
  remaining ← MiningRun.getattr (MiningRun.outbound_travel_time p);
  mret {| name := name self; time_logs := logs;
          state := TruckStatus.TRAVELING_TO_MINE;
          completed_loads := completed_loads self + 1;
          verbose := verbose self;
          remaining_time := remaining;
          current_cycle_mining_time := current_cycle_mining_time self |}.

Definition transition_from_idle (p : MiningRun.t) (stations : list Station.t)
    (self : t) : result (t * list Station.t) :=
  logs ← log_add "IDLE" (MiningRun.getattr (MiningRun.idle_wait_time p))
           (time_logs self);
  transition_from_inbound p stations
    (with_logs self logs (state self) (remaining_time self)).

(** The duration with which the current state was entered: the mining time
    drawn, or the attribute of the run that configures the state. *)
Definition entered_with (p : MiningRun.t) (self : t) : option Z :=
  match state self with
  | TruckStatus.MINING => Some (current_cycle_mining_time self)
  | TruckStatus.TRAVELING_TO_STATION => MiningRun.inbound_travel_time p
  | TruckStatus.UNLOADING => MiningRun.unloading_time p
  | TruckStatus.IDLE => MiningRun.idle_wait_time p
  | TruckStatus.TRAVELING_TO_MINE => MiningRun.outbound_travel_time p
  end.

Section Random.
Variable draw : nat -> Z.

(** [Truck(simulation_parameters, name)] *)
Definition init (p : MiningRun.t) (nm : string) : M t :=
  remaining ← MiningRun.generate_mining_time draw p;
  mret {| name := nm; time_logs := initial_time_logs;
          state := TruckStatus.MINING; completed_loads := 0;
          verbose := MiningRun.verbose_trucks p;
          remaining_time := remaining;
          current_cycle_mining_time := remaining |}.

Definition transition_from_outbound (p : MiningRun.t) (self : t) : M t :=
  logs ← lift (log_add "TRAVELING_TO_MINE"
                 (MiningRun.getattr (MiningRun.outbound_travel_time p))
                 (time_logs self));
  remaining ← MiningRun.generate_mining_time draw p;
  mret {| name := name self; time_logs := logs; state := TruckStatus.MINING;
          completed_loads := completed_loads self; verbose := verbose self;
          remaining_time := remaining;
          current_cycle_mining_time := remaining |}.

(** One call of [cycle]; the truthiness test [if self.remaining_time:] is
    the test that the counter is not zero. *)
Definition cycle (p : MiningRun.t) (stations : list Station.t) (self : t)
  : M (t * list Station.t) :=
  if negb (remaining_time self =? 0) then
    mret (with_logs self (time_logs self) (state self)
            (remaining_time self - MiningRun.slice_time p),
          stations)
  else
    match state self with
    | TruckStatus.MINING =>
        self' ← lift (transition_from_mining p self); mret (self', stations)
    | TruckStatus.TRAVELING_TO_STATION =>
        lift (transition_from_inbound p stations self)
    | TruckStatus.UNLOADING =>
        self' ← lift (transition_from_unloading p self); mret (self', stations)
    | TruckStatus.IDLE =>
        lift (transition_from_idle p stations self)
    | TruckStatus.TRAVELING_TO_MINE =>
        self' ← transition_from_outbound p self; mret (self', stations)
    end.
(** The transition table of the specification (section 4.1), in its words:
    a positive counter loses one slice and nothing else changes; at zero the
    state just left is credited with the duration it was entered with, and
    the truck moves on as the table says. *)
Definition table_cycle (p : MiningRun.t) (stations : list Station.t) (self : t)
  : M (t * list Station.t) :=
  if 0 <? remaining_time self then
    mret (with_logs self (time_logs self) (state self)
            (remaining_time self - MiningRun.slice_time p),
          stations)
  else
    logs ← lift (log_add (TruckStatus.name (state self))
                   (MiningRun.getattr (entered_with p self)) (time_logs self));
    match state self with
    | TruckStatus.MINING =>
        remaining ← lift (MiningRun.getattr (MiningRun.inbound_travel_time p));
        mret (with_logs self logs TruckStatus.TRAVELING_TO_STATION remaining,
              stations)
    | TruckStatus.TRAVELING_TO_STATION | TruckStatus.IDLE =>
        match get_available_station stations with
        | Some (i, station) =>
            remaining ← lift (MiningRun.getattr (MiningRun.unloading_time p));
            mret (with_logs self logs TruckStatus.UNLOADING remaining,
                  <[i := Station.attach station (name self)]> stations)
        | None =>
            remaining ← lift (MiningRun.getattr (MiningRun.idle_wait_time p));
            mret (with_logs self logs TruckStatus.IDLE remaining, stations)
        end
    | TruckStatus.UNLOADING =>
        remaining ← lift (MiningRun.getattr (MiningRun.outbound_travel_time p));
        mret ({| name := name self; time_logs := logs;
                 state := TruckStatus.TRAVELING_TO_MINE;
                 completed_loads := completed_loads self + 1;
                 verbose := verbose self;
                 remaining_time := remaining;
                 current_cycle_mining_time := current_cycle_mining_time self |},
              stations)
    | TruckStatus.TRAVELING_TO_MINE =>
        remaining ← MiningRun.generate_mining_time draw p;
        mret ({| name := name self; time_logs := logs;
                 state := TruckStatus.MINING;
                 completed_loads := completed_loads self;
                 verbose := verbose self;
                 remaining_time := remaining;
                 current_cycle_mining_time := remaining |},
              stations)
    end.
End Random.

(** All five keys of [time_logs] are present. *)
Definition logs_wf (self : t) : Prop :=
  ∀ s, is_Some (time_logs self !! TruckStatus.name s).

(** A truck as the constructor leaves it. *)
Definition fresh (self : t) : Prop :=
  time_logs self = initial_time_logs ∧ state self = TruckStatus.MINING ∧
  current_cycle_mining_time self = remaining_time self.

(** [d] is a non-negative integer multiple of the slice duration. *)
Definition nonneg_multiple (p : MiningRun.t) (d : Z) : Prop :=
  0 ≤ d ∧ (MiningRun.slice_time p | d).

(** Every configured duration is a non-negative multiple of the slice. *)
Definition durations_ok (p : MiningRun.t) : Prop :=
  ∀ d, Some d ∈ [MiningRun.inbound_travel_time p; MiningRun.outbound_travel_time p;
                 MiningRun.unloading_time p; MiningRun.idle_wait_time p] ->
       nonneg_multiple p d.

(** [stepped draw p t t']: some successful [cycle] call takes [t] to [t']. *)
Definition stepped (draw : nat -> Z) (p : MiningRun.t) (self self' : t) : Prop :=
  ∃ sts c sts' c', cycle draw p sts self c = Ok (self', sts', c').

(** [cycled draw p t t']: [t'] is [t] after some sequence of successful
    [cycle] calls, each against an arbitrary station list. *)
Inductive cycled (draw : nat -> Z) (p : MiningRun.t) : t -> t -> Prop :=
| cycled_refl self : cycled draw p self self
| cycled_step self self' self'' sts sts' c c' :
    cycled draw p self self' ->
    cycle draw p sts self' c = Ok (self'', sts', c') ->
    cycled draw p self self''.

(** Minutes accounted for: what is logged, plus what has elapsed of the
    state the truck is in. *)
Definition accounted (p : MiningRun.t) (self : t) : Z :=
  total_logged self + (default 0 (entered_with p self) - remaining_time self).

(** The truck will change state at its next [cycle]. *)
Definition at_zero (self : t) : bool := remaining_time self =? 0.

(** The truck has waited out an idle time: at its next [cycle] it attaches
    to a station or starts another wait. *)
Definition idle_wait_over (self : t) : bool :=
  at_zero self && bool_decide (state self = TruckStatus.IDLE).

Section Float.
Variable rnd : Q -> Q.

(** The status report of a truck; [p] is the run the truck was constructed
    with. *)
Definition generate_report (p : MiningRun.t) (self : t) : result string :=
  mining ← log_get "MINING" (time_logs self);
  ratio_of_time_mining ← Float.int_truediv rnd mining (MiningRun.run_minutes p);
  product ← Float.mul_int rnd ratio_of_time_mining 100;
  percent_of_time_mining ← Float.round product;
  mining ← log_get "MINING" (time_logs self);
  hours ← Float.int_truediv rnd mining 60;
  total ← Float.round hours;
  mret ("Status report for truck: " +:+ name self +:+ newline +:+
        "Time spent mining. Total: " +:+ pretty total +:+ " hours. Percent: " +:+
        pretty percent_of_time_mining +:+ newline +:+
        "Loads of Ore delivered: " +:+ pretty (completed_loads self) +:+ newline).
End Float.
End Truck.

(** ** The scheduler ([simulate.py]) *)

Module Simulate.
(** A cell of the time-series table: header text or a number. *)
Inductive cell : Set := CStr (s : string) | CInt (n : Z).

#[global] Instance cell_eq_dec : EqDecision cell.
Proof. solve_decision. Defined.

(** Keys of the per-slice [Counter]: members of either enum class. *)
Definition activity : Set := (TruckStatus.t + StationStatus.t)%type.

Definition activity_name (a : activity) : string :=
  match a with
  | inl s => TruckStatus.name s
  | inr s => StationStatus.name s
  end.

Definition TIME_SLICE_REPORT_ORDER : list activity :=
  [inl TruckStatus.MINING; inl TruckStatus.TRAVELING_TO_STATION;
   inl TruckStatus.IDLE; inl TruckStatus.UNLOADING;
   inl TruckStatus.TRAVELING_TO_MINE;
   inr StationStatus.BUSY; inr StationStatus.IDLE].

Definition initialize_time_slice_report : list (list cell) :=
  [ CStr <$> [""; "Mining Truck"; ""; ""; ""; ""; ""; "Unloading Station"];
    CStr "Slice Count" :: (CStr ∘ activity_name <$> TIME_SLICE_REPORT_ORDER) ].

(** [collections.Counter]: a missing key reads as 0. *)
Definition counter_get (k : activity) (c : gmap activity Z) : Z :=
  default 0 (c !! k).

Definition counter_incr (k : activity) (c : gmap activity Z) : gmap activity Z :=
  <[k := counter_get k c + 1]> c.

(** The command line arguments read by [initialize_simulation_definition]. *)
Record args : Set := mk_args {
  arg_run_hours : Z;
  arg_truck_count : Z;
  arg_station_count : Z;
  arg_verbose_trucks : bool;
  arg_verbose_stations : bool
}.

(** The two attributes of the global [ARGS] that the summaries read. *)
Record detail : Set := mk_detail {
  detail_report_trucks : bool;
  detail_report_stations : bool
}.

(** [ARGS] as the module defines it; [main] replaces it by the parsed
    command line before it calls [simulation], the front end and the tests
    leave it as it is. *)
Definition ARGS : detail :=
  {| detail_report_trucks := false; detail_report_stations := false |}.

(** The run is built from the command line arguments, the other fields at
    their defaults; then the customer's constants are assigned. *)
Definition initialize_simulation_definition (a : args) : result MiningRun.t :=
  simulation_parameters ←
    MiningRun.new (arg_station_count a) (arg_truck_count a) (arg_run_hours a)
      0 0 0 0 0 0 (arg_verbose_trucks a) (arg_verbose_stations a) 1 5 5;
  mret (MiningRun.with_times simulation_parameters 30 30 5 5 5).

(** [range(n)] as the list of its items. *)
Definition range (n : Z) : list Z := Z.of_nat <$> seq 0 (Z.to_nat n).

Definition initialize_unloading_stations (p : MiningRun.t) : list Station.t :=
  (fun station_num =>
     Station.init ("station " +:+ pretty station_num) (MiningRun.verbose_stations p))
  <$> range (MiningRun.num_stations p).

(** The state the scheduler owns: both entity lists and the table. *)
Record world : Type := mk_world {
  stations : list Station.t;
  trucks : list Truck.t;
  time_slice_report : list (list cell)
}.

Section Summaries.
Variable rnd : Q -> Q.
Variable ARGS : detail.

(** [summarize_truck_results]: the loads and the idle and mining minutes of
    every truck are added to the totals; under [--detail_report_trucks] the
    report of the truck is made, to be printed.  The entities are those of
    the run summarised, as in [simulation]: the run that their report reads
    is the very object whose totals have just been updated. *)
Fixpoint summarize_truck_results (p : MiningRun.t) (ts : list Truck.t)
  : result MiningRun.t :=
  match ts with
  | [] => mret p
  | truck :: rest =>
      idle ← Truck.log_get "IDLE" (Truck.time_logs truck);
      mining ← Truck.log_get "MINING" (Truck.time_logs truck);
      let p' :=
        MiningRun.with_totals p
          (MiningRun.total_load_count p + Truck.completed_loads truck)
          (MiningRun.total_idle_truck_time p + idle)
          (MiningRun.total_busy_truck_time p + mining)
          (MiningRun.total_idle_station_time p)
          (MiningRun.total_busy_station_time p) in
      _ ← (if detail_report_trucks ARGS
           then Truck.generate_report rnd p' truck else mret "");
      summarize_truck_results p' rest
  end.

Fixpoint summarize_station_results (p : MiningRun.t) (sts : list Station.t)
  : result MiningRun.t :=
  match sts with
  | [] => mret p
  | station :: rest =>
      let p' :=
        MiningRun.with_totals p
          (MiningRun.total_load_count p)
          (MiningRun.total_idle_truck_time p)
          (MiningRun.total_busy_truck_time p)
          (MiningRun.total_idle_station_time p + Station.idle_minutes station)
          (MiningRun.total_busy_station_time p + Station.busy_minutes station) in
      _ ← (if detail_report_stations ARGS
           then Station.generate_report rnd p' station else mret "");
      summarize_station_results p' rest
  end.
End Summaries.

Section Random.
Variable draw : nat -> Z.

Fixpoint initialize_trucks_from (p : MiningRun.t) (nums : list Z)
  : M (list Truck.t) :=
  match nums with
  | [] => mret []
  | truck_num :: rest =>
      truck ← Truck.init draw p ("truck " +:+ pretty truck_num);
      trucks ← initialize_trucks_from p rest;
      mret (truck :: trucks)
  end.

Definition initialize_trucks (p : MiningRun.t) : M (list Truck.t) :=
  initialize_trucks_from p (range (MiningRun.num_trucks p)).

(** The second loop of a slice: every truck is cycled, in list order, against
    the station list as the trucks before it left it, and counted. *)
Fixpoint cycle_trucks (p : MiningRun.t) (sts : list Station.t)
    (slice_report : gmap activity Z) (ts : list Truck.t)
  : M (list Truck.t * list Station.t * gmap activity Z) :=
  match ts with
  | [] => mret ([], sts, slice_report)
  | truck :: rest =>
      '(truck', sts') ← Truck.cycle draw p sts truck;
      '(rest', sts'', slice_report') ←
        cycle_trucks p sts' (counter_incr (inl (Truck.state truck')) slice_report) rest;
      mret (truck' :: rest', sts'', slice_report')
  end.

Definition count_stations (sts : list Station.t) (slice_report : gmap activity Z)
  : gmap activity Z :=
  foldl (fun c station => counter_incr (inr (Station.state station)) c)
    slice_report sts.

Definition report_line (time_slice : Z) (slice_report : gmap activity Z)
  : list cell :=
  CInt time_slice ::
  ((fun reportable_activity =>
      let activity_count := counter_get reportable_activity slice_report in
      if negb (activity_count =? 0) then CInt activity_count else CInt 0)
   <$> TIME_SLICE_REPORT_ORDER).

(** The body of the loop of [run_simulation] for one [time_slice]. *)
Definition tick (p : MiningRun.t) (time_slice : Z) (w : world) : M world :=
  let sts := Station.cycle p <$> stations w in
  '(ts', sts', slice_report) ← cycle_trucks p sts ∅ (trucks w);
  let slice_report' := count_stations sts' slice_report in
  mret {| stations := sts'; trucks := ts';
          time_slice_report :=
            time_slice_report w ++ [report_line time_slice slice_report'] |}.

(** The first [n] iterations of the loop, [time_slice] running from 0. *)
Fixpoint run_ticks (p : MiningRun.t) (n : nat) (w : world) : M world :=
  match n with
  | O => mret w
  | S n' => w' ← run_ticks p n' w; tick p (Z.of_nat n') w'
  end.

Definition run_simulation (p : MiningRun.t) (sts : list Station.t)
    (ts : list Truck.t) : M world :=
  slices ← lift (MiningRun.run_time_slices p);
  run_ticks p (Z.to_nat slices)
    {| stations := sts; trucks := ts;
       time_slice_report := initialize_time_slice_report |}.

(** [simulation] up to the end of the run: entities are created, trucks
    first, and the loop is run. *)
Definition simulation_run (p : MiningRun.t) : M world :=
  ts ← initialize_trucks p;
  let sts := initialize_unloading_stations p in
  run_simulation p sts ts.

Variable rnd : Q -> Q.
Variable ARGS : detail.

(** [simulation]: the run, the two summaries, then the report whose text is
    written to the CSV file before the table.  The parameters with their
    totals are returned, here together with the table written. *)
Definition simulation (p : MiningRun.t) : M (MiningRun.t * list (list cell)) :=
  w ← simulation_run p;
  p1 ← lift (summarize_truck_results rnd ARGS p (trucks w));
  p2 ← lift (summarize_station_results rnd ARGS p1 (stations w));
  _ ← lift (MiningRun.generate_csv_report rnd p2);
  mret (p2, time_slice_report w).
End Random.

(** Number of data rows of a table (the two header rows excluded). *)
Definition data_rows (w : world) : nat := (length (time_slice_report w) - 2)%nat.

Section History.
Variable draw : nat -> Z.
Variable p : MiningRun.t.
Variable w0 : world.
Variable c0 : nat.

(** The [i]-th truck as it stands after the first [k] ticks. *)
Definition truck_after (i : nat) (k : nat) : option Truck.t :=
  match run_ticks draw p k w0 c0 with
  | Ok (w, _) => trucks w !! i
  | Raise _ => None
  end.

(** Among the first [n] ticks, the number of those the [i]-th truck entered
    in a condition satisfying [test]. *)
Fixpoint count_ticks (test : Truck.t -> bool) (i : nat) (n : nat) : nat :=
  match n with
  | O => O
  | S n' =>
      (count_ticks test i n' +
       match truck_after i n' with
       | Some truck => if test truck then 1 else 0
       | None => 0
       end)%nat
  end.

(** Ticks on which the truck changed state: it entered them with its
    counter at zero. *)
Definition transitions : nat -> nat -> nat := count_ticks Truck.at_zero.

(** Ticks that found the truck at the end of an idle wait. *)
Definition idle_waits_over : nat -> nat -> nat :=
  count_ticks Truck.idle_wait_over.
End History.

(** What [run_simulation] returns to its caller: the table alone. *)
Definition table_of (r : result (world * nat)) : result (list (list cell)) :=
  '(w, _) ← r; mret (time_slice_report w).
End Simulate.

(** ** Concrete runs used in examples *)

Module Example.
(** Every draw of the generator answers one hour. *)
Definition one_hour : nat -> Z := fun _ => 1.

(** [--run_hours 2 --truck_count 2 --station_count 1] *)
Definition cli : Simulate.args :=
  {| Simulate.arg_run_hours := 2; Simulate.arg_truck_count := 2;
     Simulate.arg_station_count := 1; Simulate.arg_verbose_trucks := false;
     Simulate.arg_verbose_stations := false |}.

(** The run that [initialize_simulation_definition] builds from [cli]. *)
Definition run : MiningRun.t :=
  MiningRun.mk 1 2 2 0 0 0 0 0 0 false false 1 5 5
    (Some 30) (Some 30) (Some 5) (Some 5).

(** The world at the start of that run. *)
Definition start : Simulate.world :=
  {| Simulate.stations := Simulate.initialize_unloading_stations run;
     Simulate.trucks :=
       match Simulate.initialize_trucks one_hour run 0%nat with
       | Ok (ts, _) => ts
       | Raise _ => []
       end;
     Simulate.time_slice_report := Simulate.initialize_time_slice_report |}.

(** A station that a caller has marked busy. *)
Definition busy_station : Station.t :=
  Station.attach (Station.init "unnamed" false) "other".

(** A truck that has waited out its idle time. *)
Definition idle_truck : Truck.t :=
  {| Truck.name := "unnamed"; Truck.time_logs := Truck.initial_time_logs;
     Truck.state := TruckStatus.IDLE; Truck.completed_loads := 0;
     Truck.verbose := false; Truck.remaining_time := 0;
     Truck.current_cycle_mining_time := 60 |}.

(** A truck as constructed, with one hour of mining ahead. *)
Definition new_truck : Truck.t :=
  {| Truck.name := "unnamed"; Truck.time_logs := Truck.initial_time_logs;
     Truck.state := TruckStatus.MINING; Truck.completed_loads := 0;
     Truck.verbose := false; Truck.remaining_time := 60;
     Truck.current_cycle_mining_time := 60 |}.


(** [--run_hours 0 --truck_count 1 --station_count 1], after a run: no
    minute was logged. *)
Definition run_zero_hours : MiningRun.t :=
  MiningRun.mk 1 1 0 0 0 0 0 0 0 false false 1 5 5
    (Some 30) (Some 30) (Some 5) (Some 5).

(** A run too long for a float to hold its minutes: [run_hours = 10**399],
    one truck and one station, and [10**400] busy minutes for either. *)
Definition run_too_long : MiningRun.t :=
  MiningRun.mk 1 1 (10 ^ 399) 0 0 0 (10 ^ 400) 0 (10 ^ 400) false false 1 5 5
    None None None None.

(** [MiningRun(num_stations=1, num_trucks=1, run_hours=2,
    min_mining_hours=1, max_mining_hours=1)]: a run as the constructor
    leaves it, with none of the four durations. *)
Definition bare_run : MiningRun.t :=
  MiningRun.mk 1 1 2 0 0 0 0 0 0 false false 1 1 5 None None None None.


(** The totals of the two-hour example run once summarised: both trucks
    mined one hour, the station unloaded twice. *)
Definition summary : MiningRun.t :=
  MiningRun.mk 1 2 2 0 2 5 120 110 10 false false 1 5 5
    (Some 30) (Some 30) (Some 5) (Some 5).

(** Scenario A of the specification: one truck, one station, one hour, each
    busy for the sixty minutes. *)
Definition scenario_a : MiningRun.t :=
  MiningRun.mk 1 1 1 0 0 0 60 0 60 false false 1 5 5 None None None None.

(** [--run_hours -1 --truck_count -3 --station_count -2] *)
Definition negative_cli : Simulate.args :=
  {| Simulate.arg_run_hours := -1; Simulate.arg_truck_count := -3;
     Simulate.arg_station_count := -2; Simulate.arg_verbose_trucks := false;
     Simulate.arg_verbose_stations := false |}.

(** [MiningRun(num_trucks=1, min_mining_hours=5, max_mining_hours=1)] *)
Definition reversed_range : MiningRun.t :=
  MiningRun.mk 0 1 0 0 0 0 0 0 0 false false 5 1 5 None None None None.


(** [--run_hours 0 --truck_count 1 --station_count 1] *)
Definition cli_zero_hours : Simulate.args :=
  {| Simulate.arg_run_hours := 0; Simulate.arg_truck_count := 1;
     Simulate.arg_station_count := 1; Simulate.arg_verbose_trucks := false;
     Simulate.arg_verbose_stations := false |}.

(** [MiningRun()] with the attributes a test assigns:
    [inbound_travel_time = 11], [outbound_travel_time = 13],
    [unloading_time = 12], [idle_wait_time = 9]. *)
Definition test_run : MiningRun.t :=
  MiningRun.mk 0 0 0 0 0 0 0 0 0 false false 1 5 5
    (Some 11) (Some 13) (Some 12) (Some 9).

(** A truck as the tests prepare it: constructed, then
    [truck.remaining_time = 0]. *)
Definition test_truck : Truck.t :=
  {| Truck.name := "unnamed"; Truck.time_logs := Truck.initial_time_logs;
     Truck.state := TruckStatus.MINING; Truck.completed_loads := 0;
     Truck.verbose := false; Truck.remaining_time := 0;
     Truck.current_cycle_mining_time := 60 |}.

End Example.

(** ** The census, stated on the entity lists *)

Module Census.
(** Number of trucks of a list that are in state [s]. *)
Definition trucks_in (s : TruckStatus.t) (ts : list Truck.t) : Z :=
  Z.of_nat (length (filter (fun t => Truck.state t = s) ts)).

(** Number of stations of a list that are in state [s]. *)
Definition stations_in (s : StationStatus.t) (sts : list Station.t) : Z :=
  Z.of_nat (length (filter (fun st => Station.state st = s) sts)).

(** Number of entities counted under a key of the [Counter]. *)
Definition count (ts : list Truck.t) (sts : list Station.t)
    (a : Simulate.activity) : Z :=
  match a with
  | inl s => trucks_in s ts
  | inr s => stations_in s sts
  end.

(** The row that counts the entities of two lists, in report order. *)
Definition row (time_slice : Z) (ts : list Truck.t) (sts : list Station.t)
  : list Simulate.cell :=
  Simulate.CInt time_slice ::
  (Simulate.CInt ∘ count ts sts <$> Simulate.TIME_SLICE_REPORT_ORDER).

(** The numbers of a row, header text counting for nothing. *)
Definition cell_value (c : Simulate.cell) : Z :=
  match c with
  | Simulate.CInt n => n
  | Simulate.CStr _ => 0
  end.
End Census.

(** ** Quantities followed along a run *)

Module Ledger.
(** What a station keeps apart from its state and its attached truck. *)
Definition station_books (st : Station.t) : string * Z * Z * bool * Z :=
  (Station.name st, Station.busy_minutes st, Station.idle_minutes st,
   Station.verbose st, Station.completed_loads st).

(** The minutes a truck has logged under a state. *)
Definition logged (s : TruckStatus.t) (t : Truck.t) : Z :=
  default 0 (Truck.time_logs t !! TruckStatus.name s).

(** Mining minutes, those of the current mining stay included. *)
Definition mining_so_far (t : Truck.t) : Z :=
  logged TruckStatus.MINING t +
  (if decide (Truck.state t = TruckStatus.MINING)
   then Truck.current_cycle_mining_time t - Truck.remaining_time t
   else 0).

(** Sum of a quantity over a list of entities. *)
Definition total {A} (f : A -> Z) (l : list A) : Z := foldr Z.add 0 (f <$> l).
End Ledger.

(** ** The web front end ([frontend.py]) *)

Module Frontend.
(** [RunReport]: a [MiningRun] with the limits and options of the form. *)
Record RunReport : Set := mk_RunReport {
  base : MiningRun.t;
  max_trucks : Z;
  max_stations : Z;
  max_hours : Z;
  report_as_percent : bool;
  columns_to_exclude : list string
}.

Section Request.
(** [form_int key] is the outcome of [int(r.form[key])], which raises when
    the key is missing or its text is no number; [form_has key] is
    [key in r.form]. *)
Variable form_int : string -> result Z.
Variable form_has : string -> bool.

(** [RunReport.__init__]: the inherited constructor with its defaults, then
    the assignments from the form, in the order of the source. *)
Definition RunReport_init : result RunReport :=
  self ← MiningRun.new 0 0 0 0 0 0 0 0 0 false false 1 5 5;
  let max_trucks := 1000 in
  let max_stations := 100 in
  let max_hours := 1000 in
  v ← form_int "num_trucks";
  let num_trucks := Z.min (Z.max v 0) max_trucks in
  v ← form_int "num_stations";
  let num_stations := Z.min (Z.max v 0) max_stations in
  v ← form_int "run_hours";
  let run_hours := Z.min (Z.max v 0) max_hours in
  min_mining_hours ← form_int "min_mining_hours";
  max_mining_hours ← form_int "max_mining_hours";
  unloading_time ← form_int "unloading_time";
  idle_wait_time ← form_int "unloading_time";
  inbound_travel_time ← form_int "transit_time";
  outbound_travel_time ← form_int "transit_time";
  mret {| base :=
            MiningRun.mk num_stations num_trucks run_hours
              (MiningRun.total_loads_collected self)
              (MiningRun.total_load_count self)
              (MiningRun.total_idle_truck_time self)
              (MiningRun.total_busy_truck_time self)
              (MiningRun.total_idle_station_time self)
              (MiningRun.total_busy_station_time self)
              (MiningRun.verbose_trucks self) (MiningRun.verbose_stations self)
              min_mining_hours max_mining_hours (MiningRun.slice_time self)
              (Some inbound_travel_time) (Some outbound_travel_time)
              (Some unloading_time) (Some idle_wait_time);
          max_trucks := max_trucks;
          max_stations := max_stations;
          max_hours := max_hours;
          report_as_percent := form_has "report_as_percent";
          columns_to_exclude := [] |}.
End Request.
End Frontend.

(** ** Further concrete inputs *)

Module Sample.
(** A form asking for no truck, three stations and one hour. *)
Definition form_no_truck (key : string) : result Z :=
  if decide (key = "num_trucks") then Ok (-4)
  else if decide (key = "num_stations") then Ok 3
  else if decide (key = "run_hours") then Ok 1
  else if decide (key = "min_mining_hours") then Ok 1
  else if decide (key = "max_mining_hours") then Ok 5
  else if decide (key = "unloading_time") then Ok 5
  else if decide (key = "transit_time") then Ok 30
  else Raise KeyError.

(** A truck sent on a travel of 7 minutes, which slices of 5 do not divide. *)
Definition off_beat_truck : Truck.t :=
  {| Truck.name := "unnamed"; Truck.time_logs := Truck.initial_time_logs;
     Truck.state := TruckStatus.TRAVELING_TO_STATION;
     Truck.completed_loads := 0; Truck.verbose := false;
     Truck.remaining_time := 7; Truck.current_cycle_mining_time := 60 |}.

(** Draws in the range of the default configuration: 1, 2, ..., 5, 1, ... *)
Definition rolling : nat -> Z := fun i => Z.of_nat (i mod 5) + 1.

(** The first truck of the example run, as constructed. *)
Definition truck0 : Truck.t :=
  {| Truck.name := "truck 0"; Truck.time_logs := Truck.initial_time_logs;
     Truck.state := TruckStatus.MINING; Truck.completed_loads := 0;
     Truck.verbose := false; Truck.remaining_time := 60;
     Truck.current_cycle_mining_time := 60 |}.

(** The example run as its first [n] ticks leave it. *)
Definition after (n : nat) : Simulate.world :=
  match Simulate.run_ticks Example.one_hour Example.run n Example.start 2%nat with
  | Ok (w, _) => w
  | Raise _ => Example.start
  end.

Definition after20 : Simulate.world := Eval vm_compute in after 20.

(** The example run at its end, after the 24 ticks of its two hours. *)
Definition finished : Simulate.world := Eval vm_compute in after 24.
End Sample.

(** * Properties *)

(** ** Reasoning about the monads *)

Lemma result_bind_Ok {A B} (m : result A) (f : A -> result B) (b : B) :
  m ≫= f = Ok b ↔ ∃ a, m = Ok a ∧ f a = Ok b.
Proof.
  unfold mbind, result_bind. destruct m as [a|e]; split.
  - intros H. exists a. auto.
  - intros (a' & Ha & Hf). congruence.
  - discriminate.
  - intros (a' & Ha & _). discriminate.
Qed.

Lemma M_bind_Ok {A B} (m : M A) (f : A -> M B) (c : nat) (r : B * nat) :
  (m ≫= f) c = Ok r ↔ ∃ a c1, m c = Ok (a, c1) ∧ f a c1 = Ok r.
Proof.
  unfold mbind, M_bind. destruct (m c) as [[a c1]|e]; split.
  - intros H. exists a, c1. auto.
  - intros (a' & c' & Ha & Hf). congruence.
  - discriminate.
  - intros (a' & c' & Ha & _). discriminate.
Qed.

Lemma M_ret_Ok {A} (a : A) (c : nat) (r : A * nat) :
  mret (M := M) a c = Ok r ↔ r = (a, c).
Proof. unfold mret, M_ret. split; congruence. Qed.

Lemma lift_Ok {A} (m : result A) (c : nat) (r : A * nat) :
  lift m c = Ok r ↔ ∃ a, m = Ok a ∧ r = (a, c).
Proof.
  unfold lift. destruct m as [a|e]; split.
  - intros H. exists a. split; congruence.
  - intros (a' & Ha & Hr). congruence.
  - discriminate.
  - intros (a' & Ha & _). discriminate.
Qed.

(** Break a successful monadic computation into its successful steps. *)
Ltac inv_ok :=
  repeat match goal with
  | H : (_ ≫= _) _ = Ok _ |- _ =>
      apply M_bind_Ok in H; destruct H as (? & ? & ? & H)
  | H : _ ≫= _ = Ok _ |- _ =>
      apply result_bind_Ok in H; destruct H as (? & ? & H)
  | H : lift _ _ = Ok _ |- _ =>
      apply lift_Ok in H; destruct H as (? & ? & H)
  | H : mret _ _ = Ok _ |- _ => apply M_ret_Ok in H
  | H : mret _ = Ok _ |- _ => unfold mret, result_ret in H
  | H : Ok _ = Ok _ |- _ => injection H as H
  | H : (_, _) = (_, _) |- _ => injection H as ? H
  | H : Raise _ = Ok _ |- _ => discriminate H
  end; subst.

(** ** Stations *)

Lemma Station_init_invariant nm vb : Station.invariant (Station.init nm vb).
Proof. unfold Station.invariant; simpl. split; [congruence | discriminate]. Qed.

Lemma Station_attach_invariant s truck : Station.invariant (Station.attach s truck).
Proof. unfold Station.invariant; simpl. split; [reflexivity | discriminate]. Qed.

Lemma Station_release_invariant s : Station.invariant (Station.release s).
Proof. unfold Station.invariant; simpl. split; [congruence | discriminate]. Qed.

Lemma Station_cycle_invariant p s :
  Station.invariant s -> Station.invariant (Station.cycle p s).
Proof.
  intros Hs. unfold Station.cycle.
  destruct (decide (Station.state s = StationStatus.BUSY)) as [Hb|Hb].
  - apply Station_release_invariant.
  - exact Hs.
Qed.

Lemma Station_apply_invariant p s o :
  Station.invariant s -> Station.invariant (Station.apply p s o).
Proof.
  destruct o; simpl; intros Hs.
  - apply Station_attach_invariant.
  - apply Station_release_invariant.
  - by apply Station_cycle_invariant.
Qed.

Lemma Station_ops_invariant p ops s :
  Station.invariant s -> Station.invariant (foldl (Station.apply p) s ops).
Proof.
  revert s. induction ops as [|o ops IH]; simpl; intros s Hs; [done|].
  apply IH. by apply Station_apply_invariant.
Qed.

Lemma Station_cycle_busy p s :
  Station.state s = StationStatus.BUSY ->
  Station.cycle p s =
    {| Station.name := Station.name s;
       Station.busy_minutes := Station.busy_minutes s + MiningRun.slice_time p;
       Station.idle_minutes := Station.idle_minutes s;
       Station.state := StationStatus.IDLE;
       Station.attached_truck := None;
       Station.verbose := Station.verbose s;
       Station.completed_loads := Station.completed_loads s + 1 |}.
Proof. intros Hb. unfold Station.cycle. by rewrite decide_True. Qed.

Lemma Station_cycle_idle p s :
  Station.state s = StationStatus.IDLE ->
  Station.cycle p s =
    {| Station.name := Station.name s;
       Station.busy_minutes := Station.busy_minutes s;
       Station.idle_minutes := Station.idle_minutes s + MiningRun.slice_time p;
       Station.state := StationStatus.IDLE;
       Station.attached_truck := Station.attached_truck s;
       Station.verbose := Station.verbose s;
       Station.completed_loads := Station.completed_loads s |}.
Proof.
  intros Hi. unfold Station.cycle. rewrite decide_False by congruence.
  by rewrite Hi.
Qed.

(** ** Trucks: the time logs *)

Lemma TruckStatus_name_inj s1 s2 :
  TruckStatus.name s1 = TruckStatus.name s2 -> s1 = s2.
Proof. destruct s1, s2; simpl; intros H; first [reflexivity | discriminate H]. Qed.

Lemma getattr_Ok attribute d :
  MiningRun.getattr attribute = Ok d ↔ attribute = Some d.
Proof. destruct attribute; simpl; split; congruence. Qed.

Lemma log_add_Ok key minutes logs logs' :
  Truck.log_add key minutes logs = Ok logs' ↔
  ∃ v d, logs !! key = Some v ∧ minutes = Ok d ∧ logs' = <[key := v + d]> logs.
Proof.
  unfold Truck.log_add, Truck.log_get, mbind, result_bind, mret, result_ret.
  destruct (logs !! key) as [v|], minutes as [d|e]; split; intros H.
  all: try discriminate H.
  all: try (destruct H as (v' & d' & Hv & Hd & Hl); congruence).
  exists v, d. repeat split; congruence.
Qed.

Lemma sum_logs_insert s v d (logs : gmap string Z) :
  logs !! TruckStatus.name s = Some v ->
  Truck.sum_logs (<[TruckStatus.name s := v + d]> logs) = Truck.sum_logs logs + d.
Proof.
  intros Hv. unfold Truck.sum_logs.
  destruct s; simpl in *;
    rewrite lookup_insert_eq, !lookup_insert_ne by discriminate;
    rewrite Hv; simpl; lia.
Qed.

Lemma sum_logs_initial : Truck.sum_logs Truck.initial_time_logs = 0.
Proof. reflexivity. Qed.

Lemma initial_logs_wf s :
  is_Some (Truck.initial_time_logs !! TruckStatus.name s).
Proof. destruct s; by eexists. Qed.

Lemma insert_logs_wf (logs : gmap string Z) key v :
  (∀ s, is_Some (logs !! TruckStatus.name s)) ->
  ∀ s, is_Some (<[key := v]> logs !! TruckStatus.name s).
Proof.
  intros Hwf s. rewrite lookup_insert. case_decide; [by eexists | apply Hwf].
Qed.

Lemma log_add_total s d (logs : gmap string Z) :
  (∀ s, is_Some (logs !! TruckStatus.name s)) ->
  ∃ v, Truck.log_add (TruckStatus.name s) (Ok d) logs
       = Ok (<[TruckStatus.name s := v + d]> logs) ∧
       logs !! TruckStatus.name s = Some v.
Proof.
  intros Hwf. destruct (Hwf s) as [v Hv]. exists v.
  unfold Truck.log_add, Truck.log_get. by rewrite Hv.
Qed.

(** ** Trucks: one call of [cycle] *)

(** Case analysis on a successful [cycle]: the counter is zero or not, then
    the state, then the outcome of the station scan. *)
Ltac cycle_cases H :=
  unfold Truck.cycle in H;
  match type of H with
  | context [negb (?r =? 0)] => destruct (Z.eqb_spec r 0) as [Hz|Hz]
  end; simpl in H;
  [ match type of H with
    | context [match Truck.state ?t with _ => _ end] =>
        destruct (Truck.state t) eqn:Hst
    end;
    unfold Truck.transition_from_idle, Truck.transition_from_inbound,
      Truck.transition_from_mining, Truck.transition_from_unloading,
      Truck.transition_from_outbound, MiningRun.generate_mining_time,
      MiningRun.randint in H
  | ];
  inv_ok;
  repeat (match goal with
  | H : Truck.log_add _ _ _ = Ok _ |- _ =>
      apply log_add_Ok in H; destruct H as (? & ? & ? & ? & ->)
  | H : match Truck.get_available_station ?s with _ => _ end = Ok _ |- _ =>
      destruct (Truck.get_available_station s) as [[? ?]|] eqn:?
  | H : (if ?b <? ?a then _ else _) = Ok _ |- _ =>
      destruct (Z.ltb_spec b a)
  | H : MiningRun.getattr _ = Ok _ |- _ => apply getattr_Ok in H
  end; inv_ok);
  simpl in *.

(** The four durations, once they are known to be set. *)
Ltac rewrite_durations :=
  repeat match goal with
  | Hx : MiningRun.inbound_travel_time _ = Some _ |- _ => rewrite Hx in *; clear Hx
  | Hx : MiningRun.outbound_travel_time _ = Some _ |- _ => rewrite Hx in *; clear Hx
  | Hx : MiningRun.unloading_time _ = Some _ |- _ => rewrite Hx in *; clear Hx
  | Hx : MiningRun.idle_wait_time _ = Some _ |- _ => rewrite Hx in *; clear Hx
  end.

Ltac rewrite_sum_logs :=
  repeat first
    [ rewrite (sum_logs_insert TruckStatus.IDLE) by done
    | rewrite (sum_logs_insert TruckStatus.MINING) by done
    | rewrite (sum_logs_insert TruckStatus.UNLOADING) by done
    | rewrite (sum_logs_insert TruckStatus.TRAVELING_TO_MINE) by done
    | rewrite (sum_logs_insert TruckStatus.TRAVELING_TO_STATION) by done ].

(** A tick adds one slice to the minutes accounted for, except that a
    transition tick adds nothing, and that the end of an idle wait also logs
    one inbound travel.  The duration of the state a truck is in is one that
    the run defines. *)
Lemma cycle_accounted draw p sts t c t' sts' c' :
  Truck.cycle draw p sts t c = Ok (t', sts', c') ->
  is_Some (Truck.entered_with p t) ->
  is_Some (Truck.entered_with p t') ∧
  Truck.accounted p t' + MiningRun.slice_time p * b2z (Truck.at_zero t)
  = Truck.accounted p t + MiningRun.slice_time p
    + default 0 (MiningRun.inbound_travel_time p)
      * b2z (Truck.idle_wait_over t).
Proof.
  intros H [d Hd]. unfold Truck.accounted, Truck.idle_wait_over, Truck.at_zero,
    Truck.total_logged, Truck.entered_with in *.
  cycle_cases H.
  all: try rewrite Hz; try rewrite Hst in *; simpl.
  all: rewrite_durations; simpl; simplify_eq.
  all: split; [by eexists|].
  all: rewrite_sum_logs.
  all: unfold b2z; simpl; lia.
Qed.

Lemma get_available_station_Some sts i st :
  Truck.get_available_station sts = Some (i, st) ->
  sts !! i = Some st ∧ Station.state st ≠ StationStatus.BUSY ∧
  ∀ j st', sts !! j = Some st' -> (j < i)%nat ->
           Station.state st' = StationStatus.BUSY.
Proof.
  unfold Truck.get_available_station. intros H.
  apply list_find_Some in H as (Hi & Hst & Hbefore).
  split; [done|]. split; [done|].
  intros j st' Hj Hlt. specialize (Hbefore j st' Hj Hlt).
  destruct (decide (Station.state st' = StationStatus.BUSY)); [done|].
  by destruct Hbefore.
Qed.


(** A [cycle] leaves the station list alone or attaches the truck to the
    first station that is not busy. *)
Lemma cycle_stations draw p sts t c t' sts' c' :
  Truck.cycle draw p sts t c = Ok (t', sts', c') ->
  sts' = sts ∨
  ∃ i st, Truck.get_available_station sts = Some (i, st) ∧
          sts' = <[i := Station.attach st (Truck.name t)]> sts.
Proof.
  intros H. cycle_cases H; eauto.
Qed.

Lemma cycle_logs_wf draw p sts t c t' sts' c' :
  Truck.cycle draw p sts t c = Ok (t', sts', c') ->
  Truck.logs_wf t -> Truck.logs_wf t'.
Proof.
  unfold Truck.logs_wf. intros H Hwf.
  cycle_cases H; auto using insert_logs_wf.
Qed.

(** [cycle] returns whenever the five log keys are present, the four
    durations are set and the mining range is not empty. *)
Lemma cycle_total draw p sts t c :
  Truck.logs_wf t ->
  MiningRun.has_durations p ->
  MiningRun.min_mining_hours p ≤ MiningRun.max_mining_hours p ->
  ∃ r, Truck.cycle draw p sts t c = Ok r.
Proof.
  unfold Truck.logs_wf.
  intros Hwf ([din Hin] & [dout Hout] & [dun Hun] & [did Hid]) Hrange.
  unfold Truck.cycle.
  destruct (Z.eqb_spec (Truck.remaining_time t) 0) as [Hz|Hz]; simpl;
    [|by eexists].
  destruct (Truck.state t).
  - unfold Truck.transition_from_idle, Truck.transition_from_inbound.
    rewrite Hid, Hin, Hun. cbn [MiningRun.getattr].
    destruct (log_add_total TruckStatus.IDLE did _ Hwf) as (v & Hadd & _).
    simpl in Hadd. rewrite Hadd. simpl.
    destruct (log_add_total TruckStatus.TRAVELING_TO_STATION din _
                (insert_logs_wf _ "IDLE" (v + did) Hwf))
      as (v' & Hadd' & _).
    simpl in Hadd'. rewrite Hadd'. simpl.
    destruct (Truck.get_available_station sts) as [[i st]|]; by eexists.
  - unfold Truck.transition_from_mining. rewrite Hin.
    destruct (log_add_total TruckStatus.MINING
                (Truck.current_cycle_mining_time t) _ Hwf) as (v & Hadd & _).
    simpl in Hadd. unfold mbind at 1, M_bind. rewrite Hadd. simpl. by eexists.
  - unfold Truck.transition_from_unloading. rewrite Hun, Hout.
    cbn [MiningRun.getattr].
    destruct (log_add_total TruckStatus.UNLOADING dun _ Hwf) as (v & Hadd & _).
    simpl in Hadd. unfold mbind at 1, M_bind. rewrite Hadd. simpl. by eexists.
  - unfold Truck.transition_from_outbound, MiningRun.generate_mining_time,
      MiningRun.randint. rewrite Hout. cbn [MiningRun.getattr].
    destruct (log_add_total TruckStatus.TRAVELING_TO_MINE dout _ Hwf)
      as (v & Hadd & _).
    simpl in Hadd. unfold mbind, M_bind. rewrite Hadd. simpl.
    destruct (Z.ltb_spec (MiningRun.max_mining_hours p)
                (MiningRun.min_mining_hours p)); [lia|]. by eexists.
  - unfold Truck.transition_from_inbound. rewrite Hin, Hun, Hid.
    cbn [MiningRun.getattr].
    destruct (log_add_total TruckStatus.TRAVELING_TO_STATION din _ Hwf)
      as (v & Hadd & _).
    simpl in Hadd. rewrite Hadd. simpl.
    destruct (Truck.get_available_station sts) as [[i st]|]; by eexists.
Qed.

(** ** The scheduler: one tick *)

Lemma cycle_trucks_stepped draw p ts :
  ∀ sts rep c ts' sts' rep' c',
    Simulate.cycle_trucks draw p sts rep ts c = Ok (ts', sts', rep', c') ->
    Forall2 (Truck.stepped draw p) ts ts'.
Proof.
  induction ts as [|t ts IH]; simpl; intros sts rep c ts' sts' rep' c' H.
  - inv_ok. constructor.
  - apply M_bind_Ok in H as ([t1 sts1] & c1 & Hc & H).
    apply M_bind_Ok in H as ([[rest1 sts2] rep2] & c2 & Hrest & H).
    inv_ok. constructor.
    + by exists sts, c, sts1, c1.
    + eapply IH, Hrest.
Qed.

Lemma cycle_trucks_stations (P : Station.t -> Prop) draw p ts :
  (∀ st truck, P (Station.attach st truck)) ->
  ∀ sts rep c ts' sts' rep' c',
    Simulate.cycle_trucks draw p sts rep ts c = Ok (ts', sts', rep', c') ->
    Forall P sts -> Forall P sts'.
Proof.
  intros Hattach.
  induction ts as [|t ts IH]; simpl; intros sts rep c ts' sts' rep' c' H Hsts.
  - by inv_ok.
  - apply M_bind_Ok in H as ([t1 sts1] & c1 & Hc & H).
    apply M_bind_Ok in H as ([[rest1 sts2] rep2] & c2 & Hrest & H).
    inv_ok. eapply IH; [exact Hrest|].
    apply cycle_stations in Hc as [->|(i & st & _ & ->)]; [done|].
    apply Forall_insert; auto.
Qed.

Lemma cycle_trucks_total draw p ts :
  MiningRun.has_durations p ->
  MiningRun.min_mining_hours p ≤ MiningRun.max_mining_hours p ->
  Forall Truck.logs_wf ts ->
  ∀ sts rep c, ∃ r, Simulate.cycle_trucks draw p sts rep ts c = Ok r.
Proof.
  intros Hp Hrange. induction 1 as [|t ts Ht Hts IH]; simpl; intros sts rep c.
  - by eexists.
  - destruct (cycle_total draw p sts t c Ht Hp Hrange) as ([[t1 sts1] c1] & Hc).
    unfold mbind at 1, M_bind. rewrite Hc.
    destruct (IH sts1 (Simulate.counter_incr (inl (Truck.state t1)) rep) c1)
      as ([[[rest1 sts2] rep2] c2] & Hrest).
    unfold mbind, M_bind. rewrite Hrest. by eexists.
Qed.

Lemma Forall2_stepped_logs_wf draw p ts ts' :
  Forall2 (Truck.stepped draw p) ts ts' ->
  Forall Truck.logs_wf ts -> Forall Truck.logs_wf ts'.
Proof.
  induction 1 as [|t t' ts ts' (sts & c & sts' & c' & Hc) _ IH];
    intros Hwf; [constructor|].
  apply Forall_cons in Hwf as [Ht Hts]. constructor; [|by apply IH].
  eapply cycle_logs_wf; eauto.
Qed.

Lemma tick_Ok draw p k w c w' c' :
  Simulate.tick draw p k w c = Ok (w', c') ->
  ∃ rep,
    Simulate.cycle_trucks draw p (Station.cycle p <$> Simulate.stations w) ∅
      (Simulate.trucks w) c
    = Ok (Simulate.trucks w', Simulate.stations w', rep, c') ∧
    Simulate.time_slice_report w' =
      Simulate.time_slice_report w ++
      [Simulate.report_line k (Simulate.count_stations (Simulate.stations w') rep)].
Proof.
  unfold Simulate.tick. intros H.
  apply M_bind_Ok in H as ([[ts1 sts1] rep] & c1 & Hc & H).
  inv_ok. exists rep. simpl. by split.
Qed.

Lemma tick_stepped draw p k w c w' c' :
  Simulate.tick draw p k w c = Ok (w', c') ->
  Forall2 (Truck.stepped draw p) (Simulate.trucks w) (Simulate.trucks w').
Proof.
  intros H. apply tick_Ok in H as (rep & Hc & _).
  eapply cycle_trucks_stepped, Hc.
Qed.

Lemma tick_stations_invariant draw p k w c w' c' :
  Simulate.tick draw p k w c = Ok (w', c') ->
  Forall Station.invariant (Simulate.stations w) ->
  Forall Station.invariant (Simulate.stations w').
Proof.
  intros H Hinv. apply tick_Ok in H as (rep & Hc & _).
  eapply (cycle_trucks_stations Station.invariant); [|exact Hc|].
  - apply Station_attach_invariant.
  - apply Forall_fmap. eapply Forall_impl; [exact Hinv|].
    intros st. apply Station_cycle_invariant.
Qed.

Lemma tick_total draw p k w c :
  MiningRun.has_durations p ->
  MiningRun.min_mining_hours p ≤ MiningRun.max_mining_hours p ->
  Forall Truck.logs_wf (Simulate.trucks w) ->
  ∃ w' c', Simulate.tick draw p k w c = Ok (w', c').
Proof.
  intros Hp Hrange Hwf. unfold Simulate.tick.
  destruct (cycle_trucks_total draw p _ Hp Hrange Hwf
              (Station.cycle p <$> Simulate.stations w) ∅ c)
    as ([[[ts1 sts1] rep] c1] & Hc).
  unfold mbind, M_bind. rewrite Hc. by eexists _, _.
Qed.

(** ** The scheduler: a run of [n] ticks *)

Lemma run_ticks_S draw p n w c w' c' :
  Simulate.run_ticks draw p (S n) w c = Ok (w', c') ↔
  ∃ w1 c1, Simulate.run_ticks draw p n w c = Ok (w1, c1) ∧
           Simulate.tick draw p (Z.of_nat n) w1 c1 = Ok (w', c').
Proof.
  simpl. rewrite M_bind_Ok. split.
  - intros (w1 & c1 & H1 & H2). eauto.
  - intros (w1 & c1 & H1 & H2). eauto.
Qed.

Lemma run_ticks_logs_wf draw p n w c w' c' :
  Simulate.run_ticks draw p n w c = Ok (w', c') ->
  Forall Truck.logs_wf (Simulate.trucks w) ->
  Forall Truck.logs_wf (Simulate.trucks w').
Proof.
  revert w' c'. induction n as [|n IH]; intros w' c' H Hwf.
  - simpl in H. by inv_ok.
  - apply run_ticks_S in H as (w1 & c1 & H1 & H2).
    eapply Forall2_stepped_logs_wf; [eapply tick_stepped, H2|]. eauto.
Qed.

(** The loop returns, whatever the number of ticks. *)
Lemma run_ticks_total draw p n w c :
  MiningRun.has_durations p ->
  MiningRun.min_mining_hours p ≤ MiningRun.max_mining_hours p ->
  Forall Truck.logs_wf (Simulate.trucks w) ->
  ∃ w' c', Simulate.run_ticks draw p n w c = Ok (w', c').
Proof.
  intros Hp Hrange Hwf. induction n as [|n (w1 & c1 & IH)].
  - by eexists _, _.
  - destruct (tick_total draw p (Z.of_nat n) w1 c1 Hp Hrange) as (w' & c' & Ht).
    { eapply run_ticks_logs_wf; eauto. }
    exists w', c'. apply run_ticks_S. eauto.
Qed.

Lemma run_ticks_rows draw p n w c w' c' :
  Simulate.run_ticks draw p n w c = Ok (w', c') ->
  length (Simulate.time_slice_report w') =
  (length (Simulate.time_slice_report w) + n)%nat.
Proof.
  revert w' c'. induction n as [|n IH]; intros w' c' H.
  - simpl in H. inv_ok. lia.
  - apply run_ticks_S in H as (w1 & c1 & H1 & H2).
    apply tick_Ok in H2 as (rep & _ & ->).
    rewrite length_app, (IH _ _ H1). simpl. lia.
Qed.

Lemma run_ticks_stations_invariant draw p n w c w' c' :
  Simulate.run_ticks draw p n w c = Ok (w', c') ->
  Forall Station.invariant (Simulate.stations w) ->
  Forall Station.invariant (Simulate.stations w').
Proof.
  revert w' c'. induction n as [|n IH]; intros w' c' H Hinv.
  - simpl in H. by inv_ok.
  - apply run_ticks_S in H as (w1 & c1 & H1 & H2).
    eapply tick_stations_invariant; eauto.
Qed.

(** ** Accounting of a truck's minutes over a run *)

Lemma count_ticks_S draw p w0 c0 test i n w c t :
  Simulate.run_ticks draw p n w0 c0 = Ok (w, c) ->
  Simulate.trucks w !! i = Some t ->
  Z.of_nat (Simulate.count_ticks draw p w0 c0 test i (S n)) =
  Z.of_nat (Simulate.count_ticks draw p w0 c0 test i n) + b2z (test t).
Proof.
  intros Hrun Ht. simpl. unfold Simulate.truck_after. rewrite Hrun, Ht.
  unfold b2z. destruct (test t); lia.
Qed.

(** After [n] ticks: every tick contributed one slice, either to the minutes
    accounted for or to a transition; every end of an idle wait logged one
    inbound travel on top. *)
Lemma run_ticks_accounted draw p w0 c0 i t0 :
  Simulate.trucks w0 !! i = Some t0 ->
  is_Some (Truck.entered_with p t0) ->
  ∀ n wn cn,
    Simulate.run_ticks draw p n w0 c0 = Ok (wn, cn) ->
    ∃ tn, Simulate.trucks wn !! i = Some tn ∧
      is_Some (Truck.entered_with p tn) ∧
      Truck.accounted p tn
      + MiningRun.slice_time p * Z.of_nat (Simulate.transitions draw p w0 c0 i n)
      = Truck.accounted p t0 + Z.of_nat n * MiningRun.slice_time p
        + default 0 (MiningRun.inbound_travel_time p)
          * Z.of_nat (Simulate.idle_waits_over draw p w0 c0 i n).
Proof.
  intros Ht0 Hd0. induction n as [|n IH]; intros wn cn Hrun.
  - simpl in Hrun. inv_ok. exists t0. split; [done|]. split; [done|].
    unfold Simulate.transitions, Simulate.idle_waits_over. simpl. lia.
  - apply run_ticks_S in Hrun as (w1 & c1 & H1 & H2).
    destruct (IH _ _ H1) as (t1 & Ht1 & Hd1 & Heq).
    pose proof (tick_stepped _ _ _ _ _ _ _ H2) as Hstep.
    destruct (Forall2_lookup_l _ _ _ _ _ Hstep Ht1)
      as (tn & Htn & (sts & c & sts' & c' & Hc)).
    exists tn. split; [done|].
    apply cycle_accounted in Hc as [Hdn Hc]; [|done]. split; [done|].
    unfold Simulate.transitions, Simulate.idle_waits_over in *.
    rewrite (count_ticks_S _ _ _ _ _ _ _ _ _ _ H1 Ht1).
    rewrite (count_ticks_S _ _ _ _ _ _ _ _ _ _ H1 Ht1).
    lia.
Qed.

Lemma fresh_accounted p t :
  Truck.fresh t ->
  Truck.entered_with p t = Some (Truck.remaining_time t) ∧ Truck.accounted p t = 0.
Proof.
  intros (Hlogs & Hst & Hcur).
  unfold Truck.accounted, Truck.total_logged, Truck.entered_with.
  rewrite Hlogs, Hst, Hcur, sum_logs_initial. simpl. split; [done|lia].
Qed.

Lemma Truck_init_Ok draw p nm c t c' :
  Truck.init draw p nm c = Ok (t, c') ->
  Truck.fresh t ∧ Truck.logs_wf t ∧ Truck.name t = nm ∧
  Truck.remaining_time t = draw c * 60 ∧ c' = S c ∧
  MiningRun.min_mining_hours p ≤ MiningRun.max_mining_hours p.
Proof.
  unfold Truck.init, MiningRun.generate_mining_time, MiningRun.randint.
  intros H. inv_ok.
  destruct (Z.ltb_spec (MiningRun.max_mining_hours p)
              (MiningRun.min_mining_hours p)); inv_ok.
  repeat split; try done. intros s. apply initial_logs_wf.
Qed.

Lemma Example_run_from_cli :
  Simulate.initialize_simulation_definition Example.cli = Ok Example.run.
Proof. reflexivity. Qed.

Lemma Example_start_trucks :
  Simulate.initialize_trucks Example.one_hour Example.run 0%nat
  = Ok (Simulate.trucks Example.start, 2%nat).
Proof. reflexivity. Qed.

(** Close [e = ?r] or [e = v] for a closed [e] by evaluating it. *)
Ltac by_evaluation :=
  match goal with
  | |- ?l = ?r => let v := eval vm_compute in l in unify r v; vm_compute; reflexivity
  end.

(** C1, as stated, fails: after the first tick of the example run the first
    truck has logged nothing, while one slice of five minutes has passed. *)
Lemma truck_minutes_sum_counterexample :
  ∃ w c t,
    Simulate.run_ticks Example.one_hour Example.run 1 Example.start 2%nat
    = Ok (w, c) ∧
    Simulate.trucks w !! 0%nat = Some t ∧
    Truck.total_logged t = 0 ∧
    Truck.total_logged t ≠ 1 * MiningRun.slice_time Example.run.
Proof.
  eexists _, _, _. split; [by_evaluation|]. split; [by_evaluation|].
  split; [by_evaluation|]. vm_compute. discriminate.
Qed.

(** C1 (amended).  For a truck as constructed and a run of [n] ticks none
    of which finds it at the end of an idle wait (IDLE with its counter at
    zero), the duration its current state was entered with is defined, and
    the minutes logged over the five states, plus the minutes already
    elapsed in the current state (that duration less the remaining time),
    plus one slice for every tick that found the counter at zero, make [n]
    slices. *)
Theorem truck_minutes_accounting draw p w0 c0 i t0 n wn cn tn :
  Simulate.trucks w0 !! i = Some t0 ->
  Truck.fresh t0 ->
  Simulate.run_ticks draw p n w0 c0 = Ok (wn, cn) ->
  Simulate.trucks wn !! i = Some tn ->
  Simulate.idle_waits_over draw p w0 c0 i n = 0%nat ->
  ∃ entered,
    Truck.entered_with p tn = Some entered ∧
    Truck.total_logged tn
    + (entered - Truck.remaining_time tn)
    + MiningRun.slice_time p * Z.of_nat (Simulate.transitions draw p w0 c0 i n)
    = Z.of_nat n * MiningRun.slice_time p.
Proof.
  intros Ht0 Hfresh Hrun Htn Hidle.
  destruct (fresh_accounted p t0 Hfresh) as [Hd0 Hacc0].
  destruct (run_ticks_accounted draw p w0 c0 i t0 Ht0 (mk_is_Some _ _ Hd0)
              n wn cn Hrun) as (tn' & Htn' & [entered Hdn] & Heq).
  assert (tn' = tn) as -> by congruence.
  exists entered. split; [done|].
  rewrite Hidle, Hacc0 in Heq.
  unfold Truck.accounted in Heq. rewrite Hdn in Heq. simpl in Heq. lia.
Qed.

Lemma truck_minutes_accounting_witness :
  ∃ wn cn tn,
    Simulate.run_ticks Example.one_hour Example.run 20 Example.start 2%nat
    = Ok (wn, cn) ∧
    Simulate.trucks wn !! 0%nat = Some tn ∧
    Truck.total_logged tn = 90 ∧
    Simulate.transitions Example.one_hour Example.run Example.start 2 0 20 = 2%nat ∧
    ∃ entered,
      Truck.entered_with Example.run tn = Some entered ∧
      Truck.total_logged tn
      + (entered - Truck.remaining_time tn)
      + MiningRun.slice_time Example.run
        * Z.of_nat (Simulate.transitions Example.one_hour Example.run
                      Example.start 2 0 20)
      = Z.of_nat 20 * MiningRun.slice_time Example.run.
Proof.
  eexists _, _, _. split; [by_evaluation|]. split; [by_evaluation|].
  split; [by_evaluation|]. split; [by_evaluation|].
  eapply (truck_minutes_accounting Example.one_hour Example.run Example.start
            2%nat 0%nat).
  - by_evaluation.
  - repeat split.
  - by_evaluation.
  - by_evaluation.
  - by_evaluation.
Defined.

(** ** Claims about stations *)



(** C4.  From its initial state, whatever sequence of [attach], [release]
    and [cycle] calls a station receives, its attached truck is not [None]
    exactly when its state is BUSY; and when that holds of every station
    handed to the scheduler, it holds of every station after each tick. *)
Theorem station_attached_iff_busy :
  (∀ p nm vb ops,
     Station.invariant (foldl (Station.apply p) (Station.init nm vb) ops)) ∧
  (∀ draw p n w c w' c',
     Forall Station.invariant (Simulate.stations w) ->
     Simulate.run_ticks draw p n w c = Ok (w', c') ->
     Forall Station.invariant (Simulate.stations w')).
Proof.
  split.
  - intros p nm vb ops. apply Station_ops_invariant, Station_init_invariant.
  - intros draw p n w c w' c' Hinv Hrun.
    eapply run_ticks_stations_invariant; eauto.
Qed.

Lemma initial_stations_invariant p :
  Forall Station.invariant (Simulate.initialize_unloading_stations p).
Proof.
  unfold Simulate.initialize_unloading_stations. apply Forall_fmap, Forall_true.
  intros k. apply Station_init_invariant.
Qed.

Lemma station_attached_iff_busy_witness :
  ∃ w c,
    Simulate.run_ticks Example.one_hour Example.run 20 Example.start 2%nat
    = Ok (w, c) ∧
    Forall Station.invariant (Simulate.stations w) ∧
    Forall (fun st => Station.state st = StationStatus.BUSY) (Simulate.stations w).
Proof.
  eexists _, _. split; [by_evaluation|]. split.
  - eapply (proj2 station_attached_iff_busy Example.one_hour Example.run 20%nat
              Example.start 2%nat).
    + apply initial_stations_invariant.
    + by_evaluation.
  - repeat constructor.
Defined.

(** ** The remaining-time counter *)

Lemma nonneg_multiple_decrement p r :
  Truck.nonneg_multiple p r -> r ≠ 0 ->
  Truck.nonneg_multiple p (r - MiningRun.slice_time p).
Proof.
  intros [Hr [k Hk]] Hnz. split.
  - destruct (Z.le_gt_cases (MiningRun.slice_time p) 0) as [Hs|Hs]; [lia|].
    assert (1 ≤ k) by nia. nia.
  - exists (k - 1). lia.
Qed.

Lemma cycle_nonneg_multiple draw p sts t c t' sts' c' :
  Truck.durations_ok p ->
  (∀ i, Truck.nonneg_multiple p (draw i * 60)) ->
  Truck.cycle draw p sts t c = Ok (t', sts', c') ->
  Truck.nonneg_multiple p (Truck.remaining_time t) ->
  Truck.nonneg_multiple p (Truck.remaining_time t').
Proof.
  intros Hp Hdraw H Hrem.
  cycle_cases H; auto using nonneg_multiple_decrement.
  all: apply Hp.
  all: match goal with
       | Hx : _ = Some ?x |- Some ?x ∈ _ => rewrite <- Hx
       end; set_solver.
Qed.

Lemma cycled_nonneg_multiple draw p t t' :
  Truck.durations_ok p ->
  (∀ i, Truck.nonneg_multiple p (draw i * 60)) ->
  Truck.cycled draw p t t' ->
  Truck.nonneg_multiple p (Truck.remaining_time t) ->
  Truck.nonneg_multiple p (Truck.remaining_time t').
Proof.
  intros Hp Hdraw. induction 1 as [t|t t1 t2 sts sts' c c' _ IH Hc]; [done|].
  intros Ht. eapply cycle_nonneg_multiple; eauto.
Qed.

(** A truck as constructed starts with such a counter. *)
Lemma init_nonneg_multiple draw p nm c t c' :
  (∀ i, Truck.nonneg_multiple p (draw i * 60)) ->
  Truck.init draw p nm c = Ok (t, c') ->
  Truck.nonneg_multiple p (Truck.remaining_time t).
Proof.
  intros Hdraw H. apply Truck_init_Ok in H as (_ & _ & _ & -> & _). apply Hdraw.
Qed.

(** C10.  When the four configured durations and every drawn mining
    duration are non-negative multiples of the slice duration, the counter of
    a truck, from its construction on and after any sequence of [cycle]
    calls, is a non-negative multiple of the slice duration; it is never
    negative, and the test the code makes, that the counter is not zero,
    agrees with the test that it is positive. *)
Theorem remaining_time_nonneg_multiple draw p nm c c1 t t' :
  Truck.durations_ok p ->
  (∀ i, Truck.nonneg_multiple p (draw i * 60)) ->
  Truck.init draw p nm c = Ok (t, c1) ->
  Truck.cycled draw p t t' ->
  Truck.nonneg_multiple p (Truck.remaining_time t') ∧
  0 ≤ Truck.remaining_time t' ∧
  negb (Truck.remaining_time t' =? 0) = (0 <? Truck.remaining_time t').
Proof.
  intros Hp Hdraw Hinit Hcycled.
  pose proof (init_nonneg_multiple draw p nm c t c1 Hdraw Hinit) as Ht.
  pose proof (cycled_nonneg_multiple draw p t t' Hp Hdraw Hcycled Ht) as Hm.
  split; [done|]. destruct Hm as [Hnn _]. split; [done|].
  destruct (Z.eqb_spec (Truck.remaining_time t') 0),
    (Z.ltb_spec 0 (Truck.remaining_time t')); simpl; first [reflexivity | lia].
Qed.

Lemma Example_one_hour_multiple i :
  Truck.nonneg_multiple Example.run (Example.one_hour i * 60).
Proof. split; [done|]. by exists 12. Qed.

Lemma Example_durations_ok : Truck.durations_ok Example.run.
Proof.
  intros d Hd. simpl in Hd.
  repeat (apply elem_of_cons in Hd as [Hd|Hd]; [injection Hd as ->|]).
  5: by apply elem_of_nil in Hd.
  all: split; [done|]; first [by exists 6 | by exists 1].
Qed.


Lemma remaining_time_nonneg_multiple_witness :
  ∃ t', Truck.cycled Example.one_hour Example.run Example.new_truck t' ∧
        Truck.remaining_time t' = 55 ∧
        (Truck.nonneg_multiple Example.run (Truck.remaining_time t') ∧
         0 ≤ Truck.remaining_time t' ∧
         negb (Truck.remaining_time t' =? 0) = (0 <? Truck.remaining_time t')).
Proof.
  assert (Truck.cycled Example.one_hour Example.run Example.new_truck
            (Truck.with_logs Example.new_truck Truck.initial_time_logs
               TruckStatus.MINING 55)) as Hc.
  { eapply (Truck.cycled_step _ _ _ _ _ [] [] 0%nat 0%nat);
      [apply Truck.cycled_refl | reflexivity]. }
  eexists. split; [exact Hc|]. split; [reflexivity|].
  apply (remaining_time_nonneg_multiple Example.one_hour Example.run
           "unnamed" 0%nat 1%nat Example.new_truck).
  - apply Example_durations_ok.
  - apply Example_one_hour_multiple.
  - reflexivity.
  - exact Hc.
Defined.

(** ** The number of ticks *)

(** What the code does: [run_hours * int(60/slice_time)] ticks, none when
    that number is negative. *)
Lemma run_simulation_rows draw p sts ts c :
  MiningRun.slice_time p ≠ 0 ->
  MiningRun.has_durations p ->
  MiningRun.min_mining_hours p ≤ MiningRun.max_mining_hours p ->
  Forall Truck.logs_wf ts ->
  ∃ w c',
    Simulate.run_simulation draw p sts ts c = Ok (w, c') ∧
    Simulate.data_rows w
    = Z.to_nat (MiningRun.run_hours p * (60 ÷ MiningRun.slice_time p)).
Proof.
  intros Hslice Hp Hrange Hwf.
  unfold Simulate.run_simulation, MiningRun.run_time_slices.
  destruct (Z.eqb_spec (MiningRun.slice_time p) 0) as [|_]; [done|].
  set (n := Z.to_nat _).
  set (w0 := Simulate.mk_world _ _ _).
  destruct (run_ticks_total draw p n w0 c Hp Hrange Hwf) as (w & c' & Hrun).
  exists w, c'. split.
  - unfold mbind, M_bind. simpl. exact Hrun.
  - unfold Simulate.data_rows. rewrite (run_ticks_rows _ _ _ _ _ _ _ Hrun).
    simpl. lia.
Qed.

Lemma run_simulation_zero_slice draw p sts ts c :
  MiningRun.slice_time p = 0 ->
  Simulate.run_simulation draw p sts ts c = Raise ZeroDivisionError.
Proof.
  intros Hslice. unfold Simulate.run_simulation, MiningRun.run_time_slices.
  by rewrite Hslice.
Qed.




(** ** Efficiency percentages *)

Lemma py_round_lower (n : Z) (x : Q) : (inject_Z n <= x)%Q -> n ≤ py_round x.
Proof.
  intros Hx. apply Qfloor_resp_le in Hx. rewrite Qfloor_Z in Hx.
  unfold py_round.
  destruct (x - inject_Z (Qfloor x) ?= 1 # 2)%Q; [destruct (Z.even _)| |]; lia.
Qed.

Lemma py_round_upper (n : Z) (x : Q) : (x <= inject_Z n)%Q -> py_round x ≤ n.
Proof.
  intros Hx. pose proof (Qfloor_resp_le _ _ Hx) as Hf. rewrite Qfloor_Z in Hf.
  unfold py_round.
  destruct (Z.eq_dec (Qfloor x) n) as [Heq|Hne].
  - pose proof (Qfloor_le x) as Hfl. rewrite Heq in *.
    destruct (Qcompare_spec (x - inject_Z n) (1 # 2)) as [H|H|H];
      first [lia | exfalso; lra].
  - destruct (x - inject_Z (Qfloor x) ?= 1 # 2)%Q; [destruct (Z.even _)| |]; lia.
Qed.

Lemma fmax_ge_100 : (inject_Z 100 <= Float.fmax)%Q.
Proof. unfold Float.fmax. rewrite <- Zle_Qle. apply Z.leb_le. by vm_compute. Qed.

Lemma fmax_ge_1 : (1 <= Float.fmax)%Q.
Proof. pose proof fmax_ge_100. change 1%Q with (inject_Z 1). 
  assert (inject_Z 1 <= inject_Z 100)%Q by (rewrite <- Zle_Qle; lia). lra. Qed.

Section Rounding.
Variable rnd : Q -> Q.
Hypothesis rnd_rounding : Float.rounding rnd.

Lemma rnd_proper (x y : Q) : (x == y)%Q -> (rnd x == rnd y)%Q.
Proof.
  intros H. apply Qle_antisym; apply (Float.rounding_monotone rnd rnd_rounding); lra.
Qed.

Lemma rnd_between (lo hi x : Q) :
  (rnd lo == lo)%Q -> (rnd hi == hi)%Q ->
  (lo <= x)%Q -> (x <= hi)%Q -> (lo <= rnd x)%Q ∧ (rnd x <= hi)%Q.
Proof.
  intros Hlo Hhi H1 H2. split.
  - rewrite <- Hlo. by apply (Float.rounding_monotone rnd rnd_rounding).
  - rewrite <- Hhi. by apply (Float.rounding_monotone rnd rnd_rounding).
Qed.

(** An operation whose exact value lies between 0 and the largest float
    delivers the rounded value. *)
Lemma nearest_in_range (x : Q) :
  (0 <= x)%Q -> (x <= Float.fmax)%Q ->
  Float.nearest rnd x = Float.Finite (rnd x) ∧
  (0 <= rnd x)%Q ∧ (rnd x <= Float.fmax)%Q.
Proof.
  intros H0 H1.
  destruct (rnd_between 0 Float.fmax x) as [Ha Hb];
    [apply rnd_rounding | apply rnd_rounding | done | done |].
  split; [|done]. unfold Float.nearest.
  destruct (Qle_bool (Qabs (rnd x)) Float.fmax) eqn:E; [done|].
  exfalso. apply not_true_iff_false in E. apply E, Qle_bool_iff.
  by rewrite Qabs_pos.
Qed.

Lemma of_int_in_range (a : Z) :
  0 ≤ a ≤ Float.fmax_int ->
  Float.of_int rnd a = Ok (Float.Finite (rnd (inject_Z a))) ∧
  (0 <= rnd (inject_Z a))%Q ∧ (rnd (inject_Z a) <= Float.fmax)%Q.
Proof.
  intros [H0 H1]. unfold Float.of_int.
  destruct (nearest_in_range (inject_Z a)) as (-> & Ha).
  - by rewrite (Zle_Qle 0 a) in H0.
  - unfold Float.fmax. by rewrite <- Zle_Qle.
  - done.
Qed.

(** The percentage [round(100 * ((busy / count) / minutes))], computed as
    the efficiencies and the status reports do. *)
Lemma percent_in_range (busy count minutes : Z) :
  0 < count -> 0 < minutes -> minutes ≤ Float.fmax_int ->
  0 ≤ busy ≤ count * minutes ->
  ∃ v,
    (average ← Float.int_truediv rnd busy count;
     ratio ← Float.truediv_int rnd average minutes;
     product ← Float.int_mul rnd 100 ratio;
     percent ← Float.round product;
     mret percent) = Ok v ∧
    0 ≤ v ≤ 100.
Proof.
  intros Hcount Hminutes Hmax [Hbusy0 Hbusy].
  set (B := inject_Z busy). set (N := inject_Z count).
  set (M := inject_Z minutes).
  assert (0 <= B)%Q as HB0 by (rewrite (Zle_Qle 0 busy) in Hbusy0; exact Hbusy0).
  assert (0 < N)%Q as HN by (rewrite (Zlt_Qlt 0 count) in Hcount; exact Hcount).
  assert (1 <= M)%Q as HM.
  { assert (1 ≤ minutes) as H1 by lia. rewrite Zle_Qle in H1. exact H1. }
  assert (M <= Float.fmax)%Q as HMmax by (unfold M, Float.fmax; by rewrite <- Zle_Qle).
  assert (B <= M * N)%Q as HB.
  { unfold B, N, M. rewrite <- inject_Z_mult, <- Zle_Qle. lia. }
  assert (0 <= B / N)%Q as Hq0 by (apply Qle_shift_div_l; [done|lra]).
  assert (B / N <= M)%Q as Hq1 by (by apply Qle_shift_div_r).
  destruct (nearest_in_range (B / N)) as (Ha & Ha0 & _); [done|lra|].
  destruct (of_int_in_range minutes) as (Hy & _ & Hy1); [lia|].
  fold M in Hy, Hy1.
  assert (1 <= rnd M)%Q as HR.
  { rewrite <- (Float.rounding_1 rnd rnd_rounding).
    by apply (Float.rounding_monotone rnd rnd_rounding). }
  assert (rnd (B / N) <= rnd M)%Q as HaR
    by (by apply (Float.rounding_monotone rnd rnd_rounding)).
  destruct (rnd_between 0 1 (rnd (B / N) / rnd M)) as [Hb0 Hb1];
    [apply rnd_rounding | apply rnd_rounding | | |].
  { apply Qle_shift_div_l; lra. }
  { apply Qle_shift_div_r; lra. }
  pose proof fmax_ge_1 as Hf1. pose proof fmax_ge_100 as Hf100.
  destruct (nearest_in_range (rnd (B / N) / rnd M)) as (Hb & _).
  { apply Qle_shift_div_l; lra. }
  { apply Qle_trans with 1%Q; [apply Qle_shift_div_r; lra | done]. }
  destruct (of_int_in_range 100) as (H100 & _).
  { split; [lia|]. apply Z.leb_le. by vm_compute. }
  set (b := rnd (rnd (B / N) / rnd M)) in *.
  pose proof (Float.rounding_100 rnd rnd_rounding) as Hr100.
  destruct (rnd_between (inject_Z 0) (inject_Z 100) (rnd (inject_Z 100) * b))
    as [Hc0 Hc1]; [apply rnd_rounding | apply rnd_rounding | | |].
  { rewrite Hr100. change (0 <= 100 * b)%Q. lra. }
  { rewrite Hr100. change (100 * b <= 100)%Q. lra. }
  destruct (nearest_in_range (rnd (inject_Z 100) * b)) as (Hc & _).
  { rewrite Hr100. change (0 <= 100 * b)%Q. lra. }
  { rewrite Hr100. change (100 * b <= Float.fmax)%Q.
    change (inject_Z 100) with 100%Q in Hf100. lra. }
  exists (py_round (rnd (rnd (inject_Z 100) * b))). split.
  - unfold Float.int_truediv. destruct (Z.eqb_spec count 0) as [|_]; [lia|].
    fold B N. rewrite Ha. cbn [mbind result_bind].
    unfold Float.truediv_int. rewrite Hy. cbn [mbind result_bind].
    unfold Float.truediv, Float.is_zero.
    destruct (Qeq_bool (rnd M) 0) eqn:E;
      [apply Qeq_bool_iff in E; lra|].
    rewrite Hb. fold b. cbn [mbind result_bind].
    unfold Float.int_mul. rewrite H100. cbn [mbind result_bind mret result_ret].
    unfold Float.mul. rewrite Hc. reflexivity.
  - split; [by apply py_round_lower | by apply py_round_upper].
Qed.

(** The same computation for a run of zero minutes: the division by the
    run minutes raises. *)
Lemma percent_zero_minutes (busy count : Z) :
  0 < count -> 0 ≤ busy ≤ count * Float.fmax_int ->
  (average ← Float.int_truediv rnd busy count;
   ratio ← Float.truediv_int rnd average 0;
   product ← Float.int_mul rnd 100 ratio;
   percent ← Float.round product;
   mret percent) = Raise ZeroDivisionError.
Proof.
  intros Hcount [Hbusy0 Hbusy].
  set (B := inject_Z busy). set (N := inject_Z count).
  assert (0 <= B)%Q as HB0 by (rewrite (Zle_Qle 0 busy) in Hbusy0; exact Hbusy0).
  assert (0 < N)%Q as HN by (rewrite (Zlt_Qlt 0 count) in Hcount; exact Hcount).
  assert (B <= Float.fmax * N)%Q as HB.
  { unfold B, N, Float.fmax. rewrite <- inject_Z_mult, <- Zle_Qle. lia. }
  destruct (nearest_in_range (B / N)) as (Ha & _).
  { apply Qle_shift_div_l; [done|lra]. }
  { by apply Qle_shift_div_r. }
  destruct (of_int_in_range 0) as (Hy & _).
  { split; [lia|]. apply Z.leb_le. by vm_compute. }
  unfold Float.int_truediv. destruct (Z.eqb_spec count 0) as [|_]; [lia|].
  fold B N. rewrite Ha. cbn [mbind result_bind].
  unfold Float.truediv_int. rewrite Hy. cbn [mbind result_bind].
  unfold Float.truediv, Float.is_zero.
  destruct (Qeq_bool (rnd (inject_Z 0)) 0) eqn:E; [done|].
  apply not_true_iff_false in E. destruct E. apply Qeq_bool_iff.
  apply rnd_rounding.
Qed.
End Rounding.

(** ** Powers of two *)

Lemma pow2_pos (e : Z) : (0 < 2 ^ e)%Q.
Proof. by apply Qpower_0_lt. Qed.

Lemma pow2_plus (a b : Z) : (2 ^ (a + b) == 2 ^ a * 2 ^ b)%Q.
Proof. apply Qpower_plus. discriminate. Qed.

Lemma pow2_le (a b : Z) : a ≤ b -> (2 ^ a <= 2 ^ b)%Q.
Proof. intros H. apply Qpower_le_compat_l; [done|discriminate]. Qed.

Lemma pow2_Z (n : Z) : 0 ≤ n -> (inject_Z (2 ^ n) == 2 ^ n)%Q.
Proof. intros H. by rewrite Zpower_Qpower. Qed.

Lemma pow2_succ (a : Z) : (2 ^ (a + 1) == 2 * 2 ^ a)%Q.
Proof. rewrite pow2_plus. change (2 ^ 1)%Q with 2%Q. ring. Qed.

(** ** The binary logarithm of a positive rational *)

Lemma log2_floor_spec (x : Q) :
  (0 < x)%Q ->
  (2 ^ Float.log2_floor x <= x)%Q ∧ (x < 2 ^ (Float.log2_floor x + 1))%Q.
Proof.
  intros Hx. destruct x as [n d].
  assert (0 < n) as Hn by (unfold Qlt in Hx; simpl in Hx; lia).
  unfold Float.log2_floor. simpl Qnum. simpl Qden.
  set (ln := Z.log2 n). set (ld := Z.log2 (Z.pos d)). set (x := (n # d)%Q) in *.
  destruct (Z.log2_spec n Hn) as [Hn1 Hn2]. fold ln in Hn1, Hn2.
  destruct (Z.log2_spec (Z.pos d) ltac:(done)) as [Hd1 Hd2]. fold ld in Hd1, Hd2.
  assert (0 ≤ ln) as Hln by apply Z.log2_nonneg.
  assert (0 ≤ ld) as Hld by apply Z.log2_nonneg.
  assert (x * inject_Z (Z.pos d) == inject_Z n)%Q as Hxd.
  { unfold x, Qeq, inject_Z. simpl. lia. }
  rewrite Zle_Qle, pow2_Z in Hn1 by done.
  rewrite Zlt_Qlt, pow2_Z in Hn2 by lia.
  rewrite Zle_Qle, pow2_Z in Hd1 by done.
  rewrite Zlt_Qlt, pow2_Z in Hd2 by lia.
  replace (Z.succ ln) with (ln + 1) in Hn2 by lia.
  replace (Z.succ ld) with (ld + 1) in Hd2 by lia.
  set (D := inject_Z (Z.pos d)) in *. set (N := inject_Z n) in *.
  pose proof (pow2_pos ld) as HA. pose proof (pow2_pos (ln - ld)) as HK.
  pose proof (pow2_pos (ln - ld - 1)) as HK1.
  assert (2 ^ ln == 2 ^ (ln - ld) * 2 ^ ld)%Q as E1
    by (rewrite <- pow2_plus; by replace (ln - ld + ld) with ln by lia).
  assert (2 ^ (ln - ld + 1) == 2 * 2 ^ (ln - ld))%Q as E2 by apply pow2_succ.
  assert (2 ^ (ln - ld) == 2 * 2 ^ (ln - ld - 1))%Q as E3.
  { rewrite <- pow2_succ. by replace (ln - ld - 1 + 1) with (ln - ld) by lia. }
  rewrite pow2_succ in Hn2, Hd2.
  destruct (Qle_bool (2 ^ (ln - ld)) x) eqn:E.
  - apply Qle_bool_iff in E. split; [done|]. rewrite E2.
    apply Qnot_le_lt. intros Hc. nra.
  - assert (x < 2 ^ (ln - ld))%Q as Hlt.
    { apply Qnot_le_lt. intros Hc. apply Qle_bool_iff in Hc. congruence. }
    replace (ln - ld - 1 + 1) with (ln - ld) by lia. split; [|done].
    apply Qnot_lt_le. intros Hc. nra.
Qed.

Lemma log2_floor_le (x y : Q) :
  (0 < x)%Q -> (x <= y)%Q -> Float.log2_floor x ≤ Float.log2_floor y.
Proof.
  intros Hx Hxy.
  destruct (log2_floor_spec x Hx) as [Hx1 _].
  destruct (log2_floor_spec y ltac:(lra)) as [_ Hy2].
  destruct (Z.le_gt_cases (Float.log2_floor x) (Float.log2_floor y)) as [|Hgt]; [done|].
  pose proof (pow2_le (Float.log2_floor y + 1) (Float.log2_floor x) ltac:(lia)). lra.
Qed.

(** ** Rounding to the nearest integer *)

Lemma py_round_proper (x y : Q) : (x == y)%Q -> py_round x = py_round y.
Proof.
  intros H. unfold py_round. rewrite (Qfloor_comp x y H).
  assert (x - inject_Z (Qfloor y) == y - inject_Z (Qfloor y))%Q as H'
    by (by rewrite H).
  by rewrite (Qcompare_comp _ _ H' (1 # 2)%Q (1 # 2)%Q (Qeq_refl _)).
Qed.

Lemma py_round_near (x : Q) :
  (inject_Z (py_round x) - (1 # 2) <= x)%Q ∧
  (x <= inject_Z (py_round x) + (1 # 2))%Q.
Proof.
  pose proof (Qfloor_le x) as H1. pose proof (Qlt_floor x) as H2.
  rewrite inject_Z_plus in H2. change (inject_Z 1) with 1%Q in H2.
  unfold py_round.
  destruct (Qcompare_spec (x - inject_Z (Qfloor x)) (1 # 2)) as [H|H|H].
  - destruct (Z.even (Qfloor x)); rewrite ?inject_Z_plus;
      change (inject_Z 1) with 1%Q; split; lra.
  - split; lra.
  - rewrite inject_Z_plus. change (inject_Z 1) with 1%Q. split; lra.
Qed.

Lemma py_round_le (x y : Q) : (x <= y)%Q -> py_round x ≤ py_round y.
Proof.
  intros Hxy. destruct (py_round_near x) as [Hx _].
  destruct (Qlt_le_dec y (inject_Z (py_round x))) as [Hlt|Hge];
    [|by apply py_round_lower].
  assert (Qfloor y = py_round x - 1) as Hf.
  { apply Z.le_antisymm.
    - assert (Qfloor y < py_round x); [|lia].
      rewrite Zlt_Qlt. pose proof (Qfloor_le y). lra.
    - rewrite <- (Qfloor_Z (py_round x - 1)). apply Qfloor_resp_le.
      unfold Z.sub. rewrite inject_Z_plus, inject_Z_opp.
      change (inject_Z 1) with 1%Q. lra. }
  assert (inject_Z (Qfloor y) == inject_Z (py_round x) - 1)%Q as Hf'.
  { rewrite Hf. unfold Z.sub. rewrite inject_Z_plus, inject_Z_opp.
    change (inject_Z 1) with 1%Q. ring. }
  destruct (Qlt_le_dec (inject_Z (py_round x) - (1 # 2)) y) as [Hgt|Hle].
  - unfold py_round at 2.
    destruct (Qcompare_spec (y - inject_Z (Qfloor y)) (1 # 2)) as [H|H|H].
    + exfalso. lra.
    + exfalso. lra.
    + lia.
  - rewrite (py_round_proper x y) by lra. lia.
Qed.

(** ** The rounding of a positive number *)

Lemma round_positive_eq (x : Q) :
  (Float.round_positive x
   == inject_Z (py_round (x / 2 ^ Float.ulp_exponent x)) * 2 ^ Float.ulp_exponent x)%Q.
Proof. unfold Float.round_positive. apply Qred_correct. Qed.

(** A number below a point of the grid it is rounded on stays below it, and
    one above stays above. *)
Lemma round_positive_below (x : Q) (k : Z) :
  (x <= inject_Z k * 2 ^ Float.ulp_exponent x)%Q ->
  (Float.round_positive x <= inject_Z k * 2 ^ Float.ulp_exponent x)%Q.
Proof.
  intros H. rewrite round_positive_eq.
  pose proof (pow2_pos (Float.ulp_exponent x)) as Hg.
  apply Qmult_le_compat_r; [|lra]. rewrite <- Zle_Qle.
  apply py_round_upper. by apply Qle_shift_div_r.
Qed.

Lemma round_positive_above (x : Q) (k : Z) :
  (inject_Z k * 2 ^ Float.ulp_exponent x <= x)%Q ->
  (inject_Z k * 2 ^ Float.ulp_exponent x <= Float.round_positive x)%Q.
Proof.
  intros H. rewrite round_positive_eq.
  pose proof (pow2_pos (Float.ulp_exponent x)) as Hg.
  apply Qmult_le_compat_r; [|lra]. rewrite <- Zle_Qle.
  apply py_round_lower. by apply Qle_shift_div_l.
Qed.

Lemma round_positive_nonneg (x : Q) : (0 <= x)%Q -> (0 <= Float.round_positive x)%Q.
Proof.
  intros H. pose proof (round_positive_above x 0) as H0.
  rewrite Qmult_0_l in H0. by apply H0.
Qed.

Lemma round_positive_le (x y : Q) :
  (0 < x)%Q -> (x <= y)%Q -> (Float.round_positive x <= Float.round_positive y)%Q.
Proof.
  intros Hx Hxy.
  pose proof (log2_floor_le x y Hx Hxy) as Hfl.
  destruct (Z.eq_dec (Float.ulp_exponent x) (Float.ulp_exponent y)) as [He|He].
  - rewrite !round_positive_eq, <- He.
    pose proof (pow2_pos (Float.ulp_exponent x)) as Hg.
    apply Qmult_le_compat_r; [|lra]. rewrite <- Zle_Qle. apply py_round_le.
    apply Qle_shift_div_l; [done|].
    unfold Qdiv. rewrite <- Qmult_assoc, (Qmult_comm (/ _)), Qmult_inv_r by lra.
    lra.
  - set (k := Float.log2_floor y).
    assert (Float.ulp_exponent y = k - 52 ∧ Float.ulp_exponent x < k - 52
            ∧ Float.log2_floor x + 1 ≤ k) as (Hey & Hex & Hk).
    { unfold Float.ulp_exponent in *. fold k in Hfl |- *. lia. }
    destruct (log2_floor_spec x Hx) as [_ Hx2].
    destruct (log2_floor_spec y ltac:(lra)) as [Hy1 _]. fold k in Hy1.
    pose proof (pow2_le _ _ Hk) as Hle.
    apply Qle_trans with (2 ^ k)%Q.
    + assert (2 ^ k == inject_Z (2 ^ (k - Float.ulp_exponent x))
                       * 2 ^ Float.ulp_exponent x)%Q as ->.
      { rewrite pow2_Z by lia. rewrite <- pow2_plus.
        by replace (k - Float.ulp_exponent x + Float.ulp_exponent x) with k by lia. }
      apply round_positive_below.
      rewrite pow2_Z by lia. rewrite <- pow2_plus.
      replace (k - Float.ulp_exponent x + Float.ulp_exponent x) with k by lia. lra.
    + assert (2 ^ k == inject_Z (2 ^ 52) * 2 ^ Float.ulp_exponent y)%Q as ->.
      { rewrite pow2_Z by lia. rewrite <- pow2_plus, Hey.
        by replace (52 + (k - 52)) with k by lia. }
      apply round_positive_above.
      rewrite pow2_Z by lia. rewrite <- pow2_plus, Hey.
      by replace (52 + (k - 52)) with k by lia.
Qed.

(** ** The rounding of binary64 arithmetic is a rounding *)

Lemma binary64_le (x y : Q) : (x <= y)%Q -> (Float.binary64 x <= Float.binary64 y)%Q.
Proof.
  intros Hxy. unfold Float.binary64.
  destruct (Qcompare_spec 0 x) as [Hx|Hx|Hx],
    (Qcompare_spec 0 y) as [Hy|Hy|Hy]; try lra.
  - apply round_positive_nonneg. lra.
  - by apply round_positive_le.
  - pose proof (round_positive_nonneg (- x) ltac:(lra)). lra.
  - pose proof (round_positive_nonneg (- x) ltac:(lra)).
    pose proof (round_positive_nonneg y ltac:(lra)). lra.
  - pose proof (round_positive_le (- y) (- x) ltac:(lra) ltac:(lra)). lra.
Qed.

Lemma binary64_rounding : Float.rounding Float.binary64.
Proof.
  split.
  - apply binary64_le.
  - reflexivity.
  - by vm_compute.
  - by vm_compute.
  - by vm_compute.
Qed.

Lemma scenario_a_efficiency :
  MiningRun.generate_truck_efficiency Float.binary64 Example.scenario_a = Ok 100 ∧
  MiningRun.generate_station_efficiency Float.binary64 Example.scenario_a = Ok 100.
Proof. split; by_evaluation. Qed.

(** C9, as stated, fails: with a run of zero hours the counts are not zero
    and the busy minutes (none) do not exceed count times run minutes, yet
    neither percentage is computed: the division by the run minutes raises,
    and so does the simulation started with [--run_hours 0].  Nor is a
    percentage computed when the averages are beyond the range of a float:
    the first division raises OverflowError. *)
Lemma efficiency_range_counterexample :
  (MiningRun.num_trucks Example.run_zero_hours ≠ 0 ∧
   MiningRun.num_stations Example.run_zero_hours ≠ 0 ∧
   MiningRun.total_busy_truck_time Example.run_zero_hours
     ≤ MiningRun.num_trucks Example.run_zero_hours
       * MiningRun.run_minutes Example.run_zero_hours ∧
   MiningRun.total_busy_station_time Example.run_zero_hours
     ≤ MiningRun.num_stations Example.run_zero_hours
       * MiningRun.run_minutes Example.run_zero_hours ∧
   (∀ rnd, Float.rounding rnd ->
           MiningRun.generate_truck_efficiency rnd Example.run_zero_hours
           = Raise ZeroDivisionError) ∧
   (∀ rnd, Float.rounding rnd ->
           MiningRun.generate_station_efficiency rnd Example.run_zero_hours
           = Raise ZeroDivisionError) ∧
   Simulate.initialize_simulation_definition Example.cli_zero_hours
   = Ok Example.run_zero_hours ∧
   Simulate.simulation Example.one_hour Float.binary64 Simulate.ARGS
     Example.run_zero_hours 0%nat
   = Raise ZeroDivisionError) ∧
  (MiningRun.num_trucks Example.run_too_long ≠ 0 ∧
   MiningRun.num_stations Example.run_too_long ≠ 0 ∧
   MiningRun.total_busy_truck_time Example.run_too_long
     ≤ MiningRun.num_trucks Example.run_too_long
       * MiningRun.run_minutes Example.run_too_long ∧
   MiningRun.total_busy_station_time Example.run_too_long
     ≤ MiningRun.num_stations Example.run_too_long
       * MiningRun.run_minutes Example.run_too_long ∧
   MiningRun.generate_truck_efficiency Float.binary64 Example.run_too_long
   = Raise OverflowError ∧
   MiningRun.generate_station_efficiency Float.binary64 Example.run_too_long
   = Raise OverflowError).
Proof.
  split.
  - split; [done|]. split; [done|]. split; [done|]. split; [done|].
    split; [|split; [|split; [reflexivity|by_evaluation]]].
    + intros rnd Hrnd. apply (percent_zero_minutes rnd Hrnd 0 1); [lia|].
      split; [lia|]. by vm_compute.
    + intros rnd Hrnd. apply (percent_zero_minutes rnd Hrnd 0 1); [lia|].
      split; [lia|]. by vm_compute.
  - split; [done|]. split; [done|].
    split; [apply Z.leb_le; by vm_compute|].
    split; [apply Z.leb_le; by vm_compute|].
    split; by_evaluation.
Qed.

(** C9 (amended).  When the truck count, the station count and the run
    minutes are positive, the run minutes do not exceed the largest float,
    and the busy minutes of each class lie between 0 and count times run
    minutes, both percentages are returned and lie in [0,100]; this for
    every floating point arithmetic whose rounding is monotone and leaves 0,
    1, 100 and the largest float as they are. *)
Theorem efficiency_in_range (rnd : Q -> Q) (p : MiningRun.t) :
  Float.rounding rnd ->
  0 < MiningRun.num_trucks p ->
  0 < MiningRun.num_stations p ->
  0 < MiningRun.run_minutes p ≤ Float.fmax_int ->
  0 ≤ MiningRun.total_busy_truck_time p
    ≤ MiningRun.num_trucks p * MiningRun.run_minutes p ->
  0 ≤ MiningRun.total_busy_station_time p
    ≤ MiningRun.num_stations p * MiningRun.run_minutes p ->
  ∃ truck_percent station_percent,
    MiningRun.generate_truck_efficiency rnd p = Ok truck_percent ∧
    MiningRun.generate_station_efficiency rnd p = Ok station_percent ∧
    0 ≤ truck_percent ≤ 100 ∧ 0 ≤ station_percent ≤ 100.
Proof.
  intros Hrnd Htrucks Hstations [Hminutes Hmax] Hbt Hbs.
  destruct (percent_in_range rnd Hrnd _ _ _ Htrucks Hminutes Hmax Hbt)
    as (tp & Htp & Htr).
  destruct (percent_in_range rnd Hrnd _ _ _ Hstations Hminutes Hmax Hbs)
    as (sp & Hsp & Hsr).
  exists tp, sp. done.
Qed.

Lemma efficiency_in_range_witness :
  ∃ truck_percent station_percent,
    MiningRun.generate_truck_efficiency Float.binary64 Example.summary
    = Ok truck_percent ∧
    MiningRun.generate_station_efficiency Float.binary64 Example.summary
    = Ok station_percent ∧
    0 ≤ truck_percent ≤ 100 ∧ 0 ≤ station_percent ≤ 100.
Proof.
  apply (efficiency_in_range Float.binary64 Example.summary).
  - apply binary64_rounding.
  - reflexivity.
  - reflexivity.
  - split; [reflexivity|]. by vm_compute.
  - unfold Example.summary, MiningRun.run_minutes. simpl. lia.
  - unfold Example.summary, MiningRun.run_minutes. simpl. lia.
Defined.

Lemma summary_efficiency :
  MiningRun.generate_truck_efficiency Float.binary64 Example.summary = Ok 50 ∧
  MiningRun.generate_station_efficiency Float.binary64 Example.summary = Ok 8.
Proof. split; by_evaluation. Qed.




(** ** One call of [cycle] against the transition table *)

(** Outside the exit from IDLE, and for a counter that is not negative, the
    code does what the table says. *)
Lemma cycle_follows_table draw p sts t c :
  0 ≤ Truck.remaining_time t ->
  Truck.remaining_time t ≠ 0 ∨ Truck.state t ≠ TruckStatus.IDLE ->
  Truck.cycle draw p sts t c = Truck.table_cycle draw p sts t c.
Proof.
  intros Hnn Hcase. unfold Truck.cycle, Truck.table_cycle.
  destruct (Z.eqb_spec (Truck.remaining_time t) 0) as [Hz|Hz],
    (Z.ltb_spec 0 (Truck.remaining_time t)) as [Hlt|Hlt];
    simpl; try lia; [|reflexivity].
  unfold Truck.entered_with, Truck.transition_from_mining,
    Truck.transition_from_inbound, Truck.transition_from_unloading,
    Truck.transition_from_outbound.
  destruct (Truck.state t) eqn:Hst; simpl.
  - destruct Hcase; [lia|done].
  - unfold mbind, M_bind, lift, result_bind.
    destruct (Truck.log_add _ _ _); [|done].
    by destruct (MiningRun.getattr _).
  - unfold mbind, M_bind, lift, result_bind.
    destruct (Truck.log_add _ _ _); [|done].
    by destruct (MiningRun.getattr _).
  - unfold mbind, M_bind, lift.
    destruct (Truck.log_add _ _ _); [|done].
    by destruct (MiningRun.generate_mining_time draw p c) as [[r c1]|e].
  - unfold mbind, M_bind, lift, result_bind.
    destruct (Truck.log_add _ _ _); [|done].
    destruct (Truck.get_available_station sts) as [[i st]|];
      by destruct (MiningRun.getattr _).
Qed.

(** C2, the failing case.  A truck leaving IDLE (here with the only station
    busy) is credited its idle wait, as the table says, and also one inbound
    travel of 30 minutes on the TRAVELING_TO_STATION log, which the table
    does not say: [transition_from_idle] goes through
    [transition_from_inbound], which credits the state it was written for. *)
Theorem idle_exit_credits_inbound_travel :
  ∃ t_code t_table,
    Truck.cycle Example.one_hour Example.run [Example.busy_station]
      Example.idle_truck 0%nat
    = Ok (t_code, [Example.busy_station], 0%nat) ∧
    Truck.table_cycle Example.one_hour Example.run [Example.busy_station]
      Example.idle_truck 0%nat
    = Ok (t_table, [Example.busy_station], 0%nat) ∧
    Truck.state t_code = TruckStatus.IDLE ∧
    Truck.remaining_time t_code = 5 ∧
    Truck.time_logs t_code !! "IDLE" = Some 5 ∧
    Truck.time_logs t_code !! "TRAVELING_TO_STATION" = Some 30 ∧
    Truck.state t_table = TruckStatus.IDLE ∧
    Truck.remaining_time t_table = 5 ∧
    Truck.time_logs t_table !! "IDLE" = Some 5 ∧
    Truck.time_logs t_table !! "TRAVELING_TO_STATION" = Some 0.
Proof.
  eexists _, _. split; [by_evaluation|]. split; [by_evaluation|].
  repeat split; by_evaluation.
Qed.

(** ** Validation of the configuration *)

Lemma initialize_trucks_empty_range draw p c :
  MiningRun.max_mining_hours p < MiningRun.min_mining_hours p ->
  1 ≤ MiningRun.num_trucks p ->
  Simulate.initialize_trucks draw p c = Raise ValueError.
Proof.
  intros Hrange Hn. unfold Simulate.initialize_trucks, Simulate.range.
  destruct (Z.to_nat (MiningRun.num_trucks p)) as [|k] eqn:Hk; [lia|].
  simpl. unfold Truck.init, MiningRun.generate_mining_time, MiningRun.randint,
    mbind, M_bind.
  destruct (Z.ltb_spec (MiningRun.max_mining_hours p)
              (MiningRun.min_mining_hours p)); [done|lia].
Qed.

Lemma initialize_trucks_none draw p c :
  MiningRun.num_trucks p ≤ 0 ->
  Simulate.initialize_trucks draw p c = Ok ([], c).
Proof.
  intros Hn. unfold Simulate.initialize_trucks, Simulate.range.
  replace (Z.to_nat (MiningRun.num_trucks p)) with 0%nat by lia. reflexivity.
Qed.

(** C7, as stated, fails: negative counts and a negative run length, an
    empty mining range, and a slice duration that does not divide the hour
    are all accepted by the constructor; the run built from negative command
    line arguments completes without any error; and the slice count for
    the 7-minute slice is silently truncated to 8. *)
Lemma configuration_validation_counterexample :
  (∃ p, MiningRun.new (-2) (-3) (-1) 0 0 0 0 0 0 false false 1 5 5 = Ok p ∧
        MiningRun.num_stations p = -2 ∧ MiningRun.num_trucks p = -3 ∧
        MiningRun.run_hours p = -1) ∧
  (∃ p, MiningRun.new 0 1 0 0 0 0 0 0 0 false false 5 1 5 = Ok p ∧
        MiningRun.max_mining_hours p < MiningRun.min_mining_hours p) ∧
  (∃ p, MiningRun.new 1 1 1 0 0 0 0 0 0 false false 1 5 7 = Ok p ∧
        ¬ (MiningRun.slice_time p | 60) ∧
        MiningRun.run_time_slices p = Ok 8) ∧
  (∃ p w c,
     Simulate.initialize_simulation_definition Example.negative_cli = Ok p ∧
     MiningRun.run_hours p = -1 ∧
     Simulate.simulation Example.one_hour Float.binary64 Simulate.ARGS p 0%nat
     = Ok (w, c)).
Proof.
  split; [|split; [|split]].
  - eexists. split; [reflexivity|]. done.
  - eexists. split; [reflexivity|]. simpl. lia.
  - eexists. split; [reflexivity|]. split; [|reflexivity].
    intros [k Hk]. simpl in Hk. lia.
  - eexists _, _, _. split; [reflexivity|]. split; [reflexivity|]. by_evaluation.
Qed.

(** C7 (amended).  Constructing a configuration checks nothing and cannot
    fail: the constructor stores the fourteen values it is given, and the run
    built from the command line holds the given run length and counts.  An
    empty mining range is reported only by the first random draw, when the
    first truck is constructed, hence before any tick; with no truck to
    construct it is not reported. *)
Theorem configuration_not_validated :
  (∀ ns nt rh tlc tl it bt ist bst vt vs mn mx sl,
     MiningRun.new ns nt rh tlc tl it bt ist bst vt vs mn mx sl
     = Ok (MiningRun.mk ns nt rh tlc tl it bt ist bst vt vs mn mx sl
             None None None None)) ∧
  (∀ a, ∃ p,
     Simulate.initialize_simulation_definition a = Ok p ∧
     MiningRun.run_hours p = Simulate.arg_run_hours a ∧
     MiningRun.num_trucks p = Simulate.arg_truck_count a ∧
     MiningRun.num_stations p = Simulate.arg_station_count a) ∧
  (∀ draw p c,
     MiningRun.max_mining_hours p < MiningRun.min_mining_hours p ->
     1 ≤ MiningRun.num_trucks p ->
     Simulate.initialize_trucks draw p c = Raise ValueError ∧
     Simulate.simulation_run draw p c = Raise ValueError) ∧
  (∀ draw p c,
     MiningRun.max_mining_hours p < MiningRun.min_mining_hours p ->
     MiningRun.num_trucks p ≤ 0 ->
     Simulate.initialize_trucks draw p c = Ok ([], c)).
Proof.
  split; [reflexivity|]. split; [|split].
  - intros a. eexists. split; [reflexivity|]. done.
  - intros draw p c Hrange Hn.
    pose proof (initialize_trucks_empty_range draw p c Hrange Hn) as Hinit.
    split; [done|]. unfold Simulate.simulation_run, mbind, M_bind. by rewrite Hinit.
  - intros draw p c _ Hn. by apply initialize_trucks_none.
Qed.

Lemma configuration_not_validated_witness :
  Simulate.initialize_trucks Example.one_hour Example.reversed_range 0%nat
  = Raise ValueError ∧
  Simulate.simulation_run Example.one_hour Example.reversed_range 0%nat
  = Raise ValueError.
Proof.
  apply (proj1 (proj2 (proj2 configuration_not_validated))
           Example.one_hour Example.reversed_range 0%nat).
  - reflexivity.
  - simpl. lia.
Defined.

(** ** The repository's unit tests, replayed on the model *)

Lemma test_MiningRun_RunTime :
  MiningRun.run_minutes Example.scenario_a = 60 ∧
  MiningRun.run_time_slices Example.scenario_a = Ok 12.
Proof. split; reflexivity. Qed.

Lemma test_MiningRun_generate_csv_report :
  MiningRun.generate_csv_report Float.binary64 Example.scenario_a =
  Ok ("Run Summary,Total Loads Of Ore:,0,Station Count,1,Mining Truck Count,1"
      +:+ newline +:+
      "Truck Efficiency,100,Station Efficiency,100" +:+ newline).
Proof. reflexivity. Qed.

Lemma test_MiningRun_generate_report :
  MiningRun.generate_report Float.binary64 Example.scenario_a =
  Ok ("Results from simulated mining run." +:+ newline +:+
      "1 hour run 0 truck loads of ore delivered." +:+ newline +:+
      "1 Trucks, 1 Stations." +:+ newline +:+
      "Trucks operated at 100 percent efficiency, measured as hours spent actively mining over the full run time."
      +:+ newline +:+
      "Stations operated at 100 percent efficiency, measured as hours spent actively unloading ore over the full run time."
      +:+ newline).
Proof. reflexivity. Qed.

Lemma test_Truck_get_available_stations :
  Truck.get_available_station [Station.init "unnamed" false]
  = Some (0%nat, Station.init "unnamed" false) ∧
  Truck.get_available_station [Example.busy_station] = None.
Proof. split; reflexivity. Qed.

(** Scenario C of the specification. *)
Lemma test_Truck_transition_from_mining :
  ∃ t, Truck.cycle Example.one_hour Example.test_run [] Example.test_truck 0%nat
       = Ok (t, [], 0%nat) ∧
       Truck.state t = TruckStatus.TRAVELING_TO_STATION ∧
       Truck.remaining_time t = 11.
Proof. eexists. split; [by_evaluation|]. split; reflexivity. Qed.

Lemma test_Truck_transition_from_inbound_to_unloading :
  ∃ t sts,
    Truck.transition_from_inbound Example.test_run
      [Station.init "unnamed" false] Example.test_truck = Ok (t, sts) ∧
    Truck.state t = TruckStatus.UNLOADING ∧ Truck.remaining_time t = 12 ∧
    sts = [Station.attach (Station.init "unnamed" false) "unnamed"].
Proof. eexists _, _. split; [by_evaluation|]. repeat split. Qed.

(** Scenario D of the specification. *)
Lemma test_Truck_transition_from_inbound_to_idle :
  ∃ t,
    Truck.transition_from_inbound Example.test_run [Example.busy_station]
      Example.test_truck = Ok (t, [Example.busy_station]) ∧
    Truck.state t = TruckStatus.IDLE ∧ Truck.remaining_time t = 9.
Proof. eexists. split; [by_evaluation|]. split; reflexivity. Qed.

Lemma test_Truck_transition_from_unloading :
  ∃ t, Truck.transition_from_unloading Example.test_run Example.test_truck = Ok t ∧
       Truck.state t = TruckStatus.TRAVELING_TO_MINE ∧
       Truck.remaining_time t = 13.
Proof. eexists. split; [by_evaluation|]. split; reflexivity. Qed.

(** Scenario B of the specification. *)
Lemma test_Station_attach_then_cycle :
  let attached := Station.attach (Station.init "unnamed" false) "unnamed" in
  Station.state attached = StationStatus.BUSY ∧
  Station.attached_truck attached = Some "unnamed" ∧
  Station.state (Station.cycle Example.test_run attached) = StationStatus.IDLE ∧
  Station.completed_loads (Station.cycle Example.test_run attached) = 1.
Proof. repeat split. Qed.

Lemma test_initialize_time_slice_report :
  Simulate.initialize_time_slice_report =
  [ [Simulate.CStr ""; Simulate.CStr "Mining Truck"; Simulate.CStr "";
     Simulate.CStr ""; Simulate.CStr ""; Simulate.CStr ""; Simulate.CStr "";
     Simulate.CStr "Unloading Station"];
    [Simulate.CStr "Slice Count"; Simulate.CStr "MINING";
     Simulate.CStr "TRAVELING_TO_STATION"; Simulate.CStr "IDLE";
     Simulate.CStr "UNLOADING"; Simulate.CStr "TRAVELING_TO_MINE";
     Simulate.CStr "BUSY"; Simulate.CStr "IDLE"] ].
Proof. reflexivity. Qed.

(** [test_run_simulation]: the default run lasts zero hours, so that the
    table holds its two header rows only. *)
Lemma test_run_simulation :
  Simulate.table_of
    (Simulate.run_simulation Example.one_hour Example.test_run
       [Station.init "unnamed" false] [Example.new_truck] 1%nat)
  = Ok Simulate.initialize_time_slice_report.
Proof. by_evaluation. Qed.

(** The two-hour example run, end to end. *)
Lemma Example_simulation_summary :
  ∃ table,
    Simulate.simulation Example.one_hour Float.binary64 Simulate.ARGS
      Example.run 0%nat
    = Ok (Example.summary, table, 2%nat) ∧
    length table = 26%nat.
Proof. eexists. split; by_evaluation. Qed.

(** * Further properties *)

(** ** The census *)

Lemma counter_get_incr (k k' : Simulate.activity) (c : gmap Simulate.activity Z) :
  Simulate.counter_get k (Simulate.counter_incr k' c)
  = Simulate.counter_get k c + (if decide (k = k') then 1 else 0).
Proof.
  unfold Simulate.counter_incr, Simulate.counter_get.
  rewrite lookup_insert. destruct (decide (k' = k)) as [->|Hne].
  - rewrite decide_True by done. simpl. lia.
  - rewrite decide_False by done. lia.
Qed.

Lemma trucks_in_cons s t ts :
  Census.trucks_in s (t :: ts)
  = (if decide (Truck.state t = s) then 1 else 0) + Census.trucks_in s ts.
Proof.
  unfold Census.trucks_in. rewrite filter_cons.
  destruct (decide (Truck.state t = s)); simpl; lia.
Qed.

Lemma stations_in_cons s st sts :
  Census.stations_in s (st :: sts)
  = (if decide (Station.state st = s) then 1 else 0) + Census.stations_in s sts.
Proof.
  unfold Census.stations_in. rewrite filter_cons.
  destruct (decide (Station.state st = s)); simpl; lia.
Qed.

(** The counter that the truck loop returns has grown, under every truck
    state, by the number of trucks it left in that state, and under no
    station state. *)
Lemma cycle_trucks_counter draw p ts :
  ∀ sts rep c ts' sts' rep' c',
    Simulate.cycle_trucks draw p sts rep ts c = Ok (ts', sts', rep', c') ->
    ∀ a, Simulate.counter_get a rep'
         = Simulate.counter_get a rep
           + match a with inl s => Census.trucks_in s ts' | inr _ => 0 end.
Proof.
  induction ts as [|t ts IH]; simpl; intros sts rep c ts' sts' rep' c' H a.
  - inv_ok. destruct a; unfold Census.trucks_in; simpl; lia.
  - apply M_bind_Ok in H as ([t1 sts1] & c1 & Hc & H).
    apply M_bind_Ok in H as ([[rest1 sts2] rep2] & c2 & Hrest & H).
    inv_ok. rewrite (IH _ _ _ _ _ _ _ Hrest a), counter_get_incr.
    destruct a as [s|s].
    + rewrite trucks_in_cons.
      repeat (match goal with |- context [decide ?P] => destruct (decide P) end);
        try lia; congruence.
    + rewrite decide_False by discriminate. lia.
Qed.

Lemma count_stations_counter (sts : list Station.t) :
  ∀ rep a,
    Simulate.counter_get a (Simulate.count_stations sts rep)
    = Simulate.counter_get a rep
      + match a with inl _ => 0 | inr s => Census.stations_in s sts end.
Proof.
  unfold Simulate.count_stations.
  induction sts as [|st sts IH]; simpl; intros rep a.
  - destruct a; unfold Census.stations_in; simpl; lia.
  - rewrite IH, counter_get_incr. destruct a as [s|s].
    + rewrite decide_False by discriminate. lia.
    + rewrite stations_in_cons.
      repeat (match goal with |- context [decide ?P] => destruct (decide P) end);
        try lia; congruence.
Qed.

Lemma report_line_census (k : Z) (ts : list Truck.t) (sts : list Station.t)
    (rep : gmap Simulate.activity Z) :
  (∀ a, Simulate.counter_get a rep = Census.count ts sts a) ->
  Simulate.report_line k rep = Census.row k ts sts.
Proof.
  intros Hrep. unfold Simulate.report_line, Census.row. f_equal.
  apply list_fmap_ext. intros _ a _. simpl. rewrite Hrep.
  by destruct (Z.eqb_spec (Census.count ts sts a) 0) as [->|].
Qed.

Lemma trucks_in_total ts :
  Census.trucks_in TruckStatus.MINING ts
  + Census.trucks_in TruckStatus.TRAVELING_TO_STATION ts
  + Census.trucks_in TruckStatus.IDLE ts
  + Census.trucks_in TruckStatus.UNLOADING ts
  + Census.trucks_in TruckStatus.TRAVELING_TO_MINE ts
  = Z.of_nat (length ts).
Proof.
  induction ts as [|t ts IH]; [reflexivity|].
  rewrite !trucks_in_cons. simpl length.
  destruct (Truck.state t); repeat case_decide; first [congruence | lia].
Qed.

Lemma stations_in_total sts :
  Census.stations_in StationStatus.BUSY sts
  + Census.stations_in StationStatus.IDLE sts
  = Z.of_nat (length sts).
Proof.
  induction sts as [|st sts IH]; [reflexivity|].
  rewrite !stations_in_cons. simpl length.
  destruct (Station.state st); repeat case_decide; first [congruence | lia].
Qed.

(** The row appended by a tick counts the trucks and the stations as the
    tick leaves them. *)
Lemma tick_row draw p k w c w' c' :
  Simulate.tick draw p k w c = Ok (w', c') ->
  Simulate.time_slice_report w' =
  Simulate.time_slice_report w
  ++ [Census.row k (Simulate.trucks w') (Simulate.stations w')].
Proof.
  intros H. apply tick_Ok in H as (rep & Hc & ->). f_equal. f_equal.
  apply report_line_census. intros a.
  rewrite count_stations_counter, (cycle_trucks_counter _ _ _ _ _ _ _ _ _ _ Hc).
  unfold Simulate.counter_get. rewrite lookup_empty. simpl.
  destruct a; simpl; lia.
Qed.

(** ** What a truck's [cycle] does to the stations *)

Lemma Station_cycle_state p st :
  Station.state (Station.cycle p st) = StationStatus.IDLE.
Proof.
  destruct (Station.state st) eqn:Hst.
  - by rewrite Station_cycle_idle.
  - by rewrite Station_cycle_busy.
Qed.

Lemma cycle_station_effect draw p sts t c t' sts' c' :
  Truck.cycle draw p sts t c = Ok (t', sts', c') ->
  (sts' = sts ∧ (Truck.state t' = TruckStatus.UNLOADING ->
                 Truck.state t = TruckStatus.UNLOADING ∧
                 Truck.remaining_time t ≠ 0)) ∨
  (∃ i st,
     Truck.get_available_station sts = Some (i, st) ∧
     sts' = <[i := Station.attach st (Truck.name t)]> sts ∧
     Truck.state t' = TruckStatus.UNLOADING ∧
     Truck.remaining_time t = 0 ∧
     (Truck.state t = TruckStatus.TRAVELING_TO_STATION ∨
      Truck.state t = TruckStatus.IDLE)).
Proof.
  intros H. cycle_cases H.
  all: try (right; eexists _, _; repeat split; eauto; fail).
  all: left; split; [reflexivity|]; intros Hu.
  all: first [discriminate Hu | by split].
Qed.

Lemma stations_in_busy_attach (sts : list Station.t) i st truck :
  sts !! i = Some st ->
  Station.state st ≠ StationStatus.BUSY ->
  Census.stations_in StationStatus.BUSY (<[i := Station.attach st truck]> sts)
  = Census.stations_in StationStatus.BUSY sts + 1.
Proof.
  revert i. induction sts as [|s0 sts IH]; intros [|i] Hi Hst;
    simpl in Hi; try discriminate.
  - injection Hi as ->. simpl insert. rewrite !stations_in_cons.
    rewrite (decide_True (P := Station.state (Station.attach st truck) = _))
      by reflexivity.
    rewrite decide_False by done. lia.
  - simpl. rewrite !stations_in_cons, (IH i Hi Hst). lia.
Qed.

Lemma stations_in_busy_after_pass p (sts : list Station.t) :
  Census.stations_in StationStatus.BUSY (Station.cycle p <$> sts) = 0.
Proof.
  induction sts as [|st sts IH]; [reflexivity|].
  rewrite fmap_cons, stations_in_cons, IH, Station_cycle_state.
  by rewrite decide_False.
Qed.

Lemma cycle_trucks_busy draw p ts :
  ∀ sts rep c ts' sts' rep' c',
    Simulate.cycle_trucks draw p sts rep ts c = Ok (ts', sts', rep', c') ->
    Census.stations_in StationStatus.BUSY sts'
    ≤ Census.stations_in StationStatus.BUSY sts
      + Census.trucks_in TruckStatus.UNLOADING ts'.
Proof.
  induction ts as [|t ts IH]; simpl; intros sts rep c ts' sts' rep' c' H.
  - inv_ok. unfold Census.trucks_in. simpl. lia.
  - apply M_bind_Ok in H as ([t1 sts1] & c1 & Hc & H).
    apply M_bind_Ok in H as ([[rest1 sts2] rep2] & c2 & Hrest & H).
    inv_ok. specialize (IH _ _ _ _ _ _ _ Hrest). rewrite trucks_in_cons.
    apply cycle_station_effect in Hc
      as [[-> _]|(i & st & Hfind & -> & Hu & _)].
    + case_decide; lia.
    + apply get_available_station_Some in Hfind as (Hi & Hst & _).
      rewrite (stations_in_busy_attach _ _ _ _ Hi Hst) in IH.
      rewrite decide_True by done. lia.
Qed.

Lemma tick_busy_le_unloading draw p k w c w' c' :
  Simulate.tick draw p k w c = Ok (w', c') ->
  Census.stations_in StationStatus.BUSY (Simulate.stations w')
  ≤ Census.trucks_in TruckStatus.UNLOADING (Simulate.trucks w').
Proof.
  intros H. apply tick_Ok in H as (rep & Hc & _).
  apply cycle_trucks_busy in Hc.
  by rewrite stations_in_busy_after_pass in Hc.
Qed.

(** ** What the run keeps of its entities *)

Lemma attach_books st truck :
  Ledger.station_books (Station.attach st truck) = Ledger.station_books st.
Proof. reflexivity. Qed.

Lemma cycle_trucks_books draw p ts :
  ∀ sts rep c ts' sts' rep' c',
    Simulate.cycle_trucks draw p sts rep ts c = Ok (ts', sts', rep', c') ->
    Ledger.station_books <$> sts' = Ledger.station_books <$> sts.
Proof.
  induction ts as [|t ts IH]; simpl; intros sts rep c ts' sts' rep' c' H.
  - by inv_ok.
  - apply M_bind_Ok in H as ([t1 sts1] & c1 & Hc & H).
    apply M_bind_Ok in H as ([[rest1 sts2] rep2] & c2 & Hrest & H).
    inv_ok. rewrite (IH _ _ _ _ _ _ _ Hrest).
    apply cycle_stations in Hc as [->|(i & st & Hfind & ->)]; [done|].
    apply get_available_station_Some in Hfind as (Hi & _).
    rewrite list_fmap_insert, attach_books.
    apply list_insert_id. by rewrite list_lookup_fmap, Hi.
Qed.

Lemma tick_books draw p k w c w' c' :
  Simulate.tick draw p k w c = Ok (w', c') ->
  Ledger.station_books <$> Simulate.stations w'
  = Ledger.station_books ∘ Station.cycle p <$> Simulate.stations w.
Proof.
  intros H. apply tick_Ok in H as (rep & Hc & _).
  rewrite (cycle_trucks_books _ _ _ _ _ _ _ _ _ _ Hc).
  by rewrite <- list_fmap_compose.
Qed.

Lemma tick_lengths draw p k w c w' c' :
  Simulate.tick draw p k w c = Ok (w', c') ->
  length (Simulate.trucks w') = length (Simulate.trucks w) ∧
  length (Simulate.stations w') = length (Simulate.stations w).
Proof.
  intros H. split.
  - symmetry. eapply Forall2_length, tick_stepped, H.
  - apply tick_books in H. apply (f_equal length) in H.
    by rewrite !length_fmap in H.
Qed.

Lemma run_ticks_lengths draw p n w c w' c' :
  Simulate.run_ticks draw p n w c = Ok (w', c') ->
  length (Simulate.trucks w') = length (Simulate.trucks w) ∧
  length (Simulate.stations w') = length (Simulate.stations w).
Proof.
  revert w' c'. induction n as [|n IH]; intros w' c' H.
  - simpl in H. by inv_ok.
  - apply run_ticks_S in H as (w1 & c1 & H1 & H2).
    destruct (IH _ _ H1) as [Ht Hs]. apply tick_lengths in H2 as [Ht' Hs'].
    split; congruence.
Qed.

(** ** The rows of the table *)

Lemma run_ticks_prefix draw p n w c wn cn k :
  Simulate.run_ticks draw p n w c = Ok (wn, cn) ->
  (k ≤ n)%nat ->
  ∃ wk ck rest,
    Simulate.run_ticks draw p k w c = Ok (wk, ck) ∧
    Simulate.time_slice_report wn = Simulate.time_slice_report wk ++ rest.
Proof.
  revert wn cn. induction n as [|n IH]; intros wn cn Hrun Hk.
  - replace k with 0%nat by lia. exists wn, cn, []. by rewrite app_nil_r.
  - destruct (decide (k = S n)) as [->|Hne].
    + exists wn, cn, []. by rewrite app_nil_r.
    + apply run_ticks_S in Hrun as (w1 & c1 & H1 & H2).
      destruct (IH _ _ H1) as (wk & ck & rest & Hk1 & Hrep); [lia|].
      apply tick_row in H2. exists wk, ck. eexists. split; [done|].
      by rewrite H2, Hrep, <- app_assoc.
Qed.

(** X1.  The data row of index [k] of the table carries the number [k] and
    counts, in report order, the trucks and the stations as the tick of that
    index left them. *)
Theorem table_row_is_census draw p n w0 c0 wn cn k :
  Simulate.run_ticks draw p n w0 c0 = Ok (wn, cn) ->
  (k < n)%nat ->
  ∃ wk ck,
    Simulate.run_ticks draw p (S k) w0 c0 = Ok (wk, ck) ∧
    Simulate.time_slice_report wn
      !! (length (Simulate.time_slice_report w0) + k)%nat
    = Some (Census.row (Z.of_nat k) (Simulate.trucks wk) (Simulate.stations wk)).
Proof.
  intros Hrun Hk.
  destruct (run_ticks_prefix _ _ _ _ _ _ _ (S k) Hrun)
    as (wk & ck & rest & Hrunk & Hrep); [lia|].
  exists wk, ck. split; [done|].
  apply run_ticks_S in Hrunk as (w1 & c1 & H1 & H2).
  pose proof (run_ticks_rows _ _ _ _ _ _ _ H1) as Hlen.
  apply tick_row in H2. rewrite Hrep, H2, <- app_assoc.
  rewrite lookup_app_r by lia.
  replace (_ + k - _)%nat with 0%nat by lia. reflexivity.
Qed.

Lemma table_row_is_census_witness :
  ∃ wk ck,
    Simulate.run_ticks Example.one_hour Example.run 20 Example.start 2%nat
    = Ok (wk, ck) ∧
    Simulate.time_slice_report Sample.after20 !! (2 + 19)%nat
    = Some (Census.row 19 (Simulate.trucks wk) (Simulate.stations wk)).
Proof.
  apply (table_row_is_census Example.one_hour Example.run 20 Example.start
           2%nat Sample.after20 2%nat 19%nat).
  - vm_compute. reflexivity.
  - lia.
Defined.

(** The rows a run appends all count lists of the lengths the run started
    with, and count no more busy stations than unloading trucks. *)
Lemma run_ticks_rows_census draw p n w0 c0 wn cn :
  Simulate.run_ticks draw p n w0 c0 = Ok (wn, cn) ->
  Forall (fun row =>
            ∃ k ts sts,
              row = Census.row k ts sts ∧
              length ts = length (Simulate.trucks w0) ∧
              length sts = length (Simulate.stations w0) ∧
              Census.stations_in StationStatus.BUSY sts
              ≤ Census.trucks_in TruckStatus.UNLOADING ts)
         (drop (length (Simulate.time_slice_report w0))
               (Simulate.time_slice_report wn)).
Proof.
  revert wn cn. induction n as [|n IH]; intros wn cn Hrun.
  - simpl in Hrun. inv_ok. by rewrite drop_all.
  - apply run_ticks_S in Hrun as (w1 & c1 & H1 & H2).
    pose proof (run_ticks_rows _ _ _ _ _ _ _ H1) as Hlen.
    pose proof (run_ticks_lengths _ _ _ _ _ _ _ H1) as [Ht1 Hs1].
    pose proof (tick_lengths _ _ _ _ _ _ _ H2) as [Ht2 Hs2].
    pose proof (tick_busy_le_unloading _ _ _ _ _ _ _ H2) as Hbusy.
    rewrite (tick_row _ _ _ _ _ _ _ H2), drop_app_le by lia.
    apply Forall_app. split; [eauto|].
    constructor; [|constructor].
    eexists _, _, _. split; [reflexivity|]. repeat split; [congruence..|done].
Qed.

Lemma run_simulation_Ok draw p sts ts c w c' :
  Simulate.run_simulation draw p sts ts c = Ok (w, c') ->
  MiningRun.slice_time p ≠ 0 ∧
  Simulate.run_ticks draw p
    (Z.to_nat (MiningRun.run_hours p * (60 ÷ MiningRun.slice_time p)))
    (Simulate.mk_world sts ts Simulate.initialize_time_slice_report) c
  = Ok (w, c').
Proof.
  unfold Simulate.run_simulation, MiningRun.run_time_slices. intros H.
  destruct (Z.eqb_spec (MiningRun.slice_time p) 0) as [Hz|Hz].
  - apply M_bind_Ok in H as (? & ? & H & _). discriminate H.
  - split; [done|]. apply M_bind_Ok in H as (n & c1 & Hl & H).
    unfold lift in Hl. by inv_ok.
Qed.

(** X2.  In every data row of the table that [run_simulation] returns, the
    five truck counts are not negative and add up to the number of trucks
    handed in, and the two station counts to the number of stations: no
    entity is missed or counted twice. *)
Theorem census_counts_every_entity draw p sts ts c w c' :
  Simulate.run_simulation draw p sts ts c = Ok (w, c') ->
  Forall (fun row =>
            ∃ k m s i u o b f,
              row = Simulate.CInt <$> [k; m; s; i; u; o; b; f] ∧
              (0 ≤ m ∧ 0 ≤ s ∧ 0 ≤ i ∧ 0 ≤ u ∧ 0 ≤ o ∧ 0 ≤ b ∧ 0 ≤ f) ∧
              m + s + i + u + o = Z.of_nat (length ts) ∧
              b + f = Z.of_nat (length sts))
         (drop 2 (Simulate.time_slice_report w)).
Proof.
  intros H. apply run_simulation_Ok in H as [_ H].
  apply run_ticks_rows_census in H. simpl in H.
  eapply Forall_impl; [exact H|]. clear H.
  intros row (k & ts' & sts' & -> & Hts & Hsts & _).
  exists k, (Census.trucks_in TruckStatus.MINING ts'),
    (Census.trucks_in TruckStatus.TRAVELING_TO_STATION ts'),
    (Census.trucks_in TruckStatus.IDLE ts'),
    (Census.trucks_in TruckStatus.UNLOADING ts'),
    (Census.trucks_in TruckStatus.TRAVELING_TO_MINE ts'),
    (Census.stations_in StationStatus.BUSY sts'),
    (Census.stations_in StationStatus.IDLE sts').
  split; [reflexivity|].
  pose proof (trucks_in_total ts') as Htotal.
  pose proof (stations_in_total sts') as Hstotal.
  unfold Census.trucks_in, Census.stations_in in *. repeat split; lia.
Qed.

Lemma census_counts_every_entity_witness :
  Forall (fun row =>
            ∃ k m s i u o b f,
              row = Simulate.CInt <$> [k; m; s; i; u; o; b; f] ∧
              (0 ≤ m ∧ 0 ≤ s ∧ 0 ≤ i ∧ 0 ≤ u ∧ 0 ≤ o ∧ 0 ≤ b ∧ 0 ≤ f) ∧
              m + s + i + u + o = Z.of_nat (length (Simulate.trucks Example.start)) ∧
              b + f = Z.of_nat (length (Simulate.stations Example.start)))
         (drop 2 (Simulate.time_slice_report Sample.finished)).
Proof.
  apply (census_counts_every_entity Example.one_hour Example.run
           (Simulate.stations Example.start) (Simulate.trucks Example.start)
           2%nat Sample.finished 2%nat).
  vm_compute. reflexivity.
Defined.

(** X3.  In every data row the count of busy stations does not exceed the
    count of unloading trucks: a station is busy only in the tick in which a
    truck attached to it, and that truck is then unloading. *)
Theorem busy_stations_le_unloading_trucks draw p sts ts c w c' :
  Simulate.run_simulation draw p sts ts c = Ok (w, c') ->
  Forall (fun row =>
            ∃ k m s i u o b f,
              row = Simulate.CInt <$> [k; m; s; i; u; o; b; f] ∧ b ≤ u)
         (drop 2 (Simulate.time_slice_report w)).
Proof.
  intros H. apply run_simulation_Ok in H as [_ H].
  apply run_ticks_rows_census in H. simpl in H.
  eapply Forall_impl; [exact H|]. clear H.
  intros row (k & ts' & sts' & -> & _ & _ & Hle).
  exists k, (Census.trucks_in TruckStatus.MINING ts'),
    (Census.trucks_in TruckStatus.TRAVELING_TO_STATION ts'),
    (Census.trucks_in TruckStatus.IDLE ts'),
    (Census.trucks_in TruckStatus.UNLOADING ts'),
    (Census.trucks_in TruckStatus.TRAVELING_TO_MINE ts'),
    (Census.stations_in StationStatus.BUSY sts'),
    (Census.stations_in StationStatus.IDLE sts').
  split; [reflexivity|]. exact Hle.
Qed.

Lemma busy_stations_le_unloading_trucks_witness :
  Forall (fun row =>
            ∃ k m s i u o b f,
              row = Simulate.CInt <$> [k; m; s; i; u; o; b; f] ∧ b ≤ u)
         (drop 2 (Simulate.time_slice_report Sample.finished)).
Proof.
  apply (busy_stations_le_unloading_trucks Example.one_hour Example.run
           (Simulate.stations Example.start) (Simulate.trucks Example.start)
           2%nat Sample.finished 2%nat).
  vm_compute. reflexivity.
Defined.

(** ** The books of a station *)

Lemma Station_cycle_books p st :
  Ledger.station_books (Station.cycle p st) =
  (Station.name st,
   Station.busy_minutes st
   + (if decide (Station.state st = StationStatus.BUSY)
      then MiningRun.slice_time p else 0),
   Station.idle_minutes st
   + (if decide (Station.state st = StationStatus.BUSY)
      then 0 else MiningRun.slice_time p),
   Station.verbose st,
   Station.completed_loads st
   + (if decide (Station.state st = StationStatus.BUSY) then 1 else 0)).
Proof.
  unfold Station.cycle, Ledger.station_books.
  case_decide; simpl; by rewrite ?Z.add_0_r.
Qed.

Lemma tick_station draw p k w c w' c' i st :
  Simulate.tick draw p k w c = Ok (w', c') ->
  Simulate.stations w !! i = Some st ->
  ∃ st', Simulate.stations w' !! i = Some st' ∧
         Ledger.station_books st' = Ledger.station_books (Station.cycle p st).
Proof.
  intros H Hi. apply tick_books in H.
  apply (f_equal (fun l => l !! i)) in H.
  rewrite !list_lookup_fmap, Hi in H. simpl in H.
  destruct (Simulate.stations w' !! i) as [st'|]; [|discriminate].
  exists st'. split; [done|]. simpl in H. congruence.
Qed.

Lemma run_ticks_station_ledger draw p n w0 c0 wn cn i s0 :
  Simulate.run_ticks draw p n w0 c0 = Ok (wn, cn) ->
  Simulate.stations w0 !! i = Some s0 ->
  ∃ sn,
    Simulate.stations wn !! i = Some sn ∧
    Station.name sn = Station.name s0 ∧
    Station.busy_minutes sn + Station.idle_minutes sn
    = Station.busy_minutes s0 + Station.idle_minutes s0
      + Z.of_nat n * MiningRun.slice_time p ∧
    Station.busy_minutes sn - Station.busy_minutes s0
    = MiningRun.slice_time p
      * (Station.completed_loads sn - Station.completed_loads s0).
Proof.
  revert wn cn. induction n as [|n IH]; intros wn cn Hrun Hi.
  - simpl in Hrun. inv_ok. exists s0. repeat split; [done|lia..].
  - apply run_ticks_S in Hrun as (w1 & c1 & H1 & H2).
    destruct (IH _ _ H1 Hi) as (s1 & Hi1 & Hname & Hsum & Hbusy).
    destruct (tick_station _ _ _ _ _ _ _ _ _ H2 Hi1) as (sn & Hin & Hbooks).
    rewrite Station_cycle_books in Hbooks. unfold Ledger.station_books in Hbooks.
    injection Hbooks as Hn Hb Hidle _ Hl.
    exists sn. split; [done|]. split; [congruence|].
    case_decide; split; lia.
Qed.

(** X4.  Over a run of [n] ticks a station keeps its name, and every tick
    adds one slice to its busy minutes or to its idle minutes: the two
    together have grown by [n] slices.  Its busy minutes have grown by one
    slice for every unload it completed. *)
Theorem station_minutes_account_for_every_tick draw p n w0 c0 wn cn i s0 :
  Simulate.run_ticks draw p n w0 c0 = Ok (wn, cn) ->
  Simulate.stations w0 !! i = Some s0 ->
  ∃ sn,
    Simulate.stations wn !! i = Some sn ∧
    Station.name sn = Station.name s0 ∧
    Station.busy_minutes sn + Station.idle_minutes sn
    = Station.busy_minutes s0 + Station.idle_minutes s0
      + Z.of_nat n * MiningRun.slice_time p ∧
    Station.busy_minutes sn - Station.busy_minutes s0
    = MiningRun.slice_time p
      * (Station.completed_loads sn - Station.completed_loads s0).
Proof. exact (run_ticks_station_ledger draw p n w0 c0 wn cn i s0). Qed.

Lemma station_minutes_account_for_every_tick_witness :
  ∃ sn,
    Simulate.stations Sample.after20 !! 0%nat = Some sn ∧
    Station.name sn = Station.name (Station.init "station 0" false) ∧
    Station.busy_minutes sn + Station.idle_minutes sn
    = Station.busy_minutes (Station.init "station 0" false)
      + Station.idle_minutes (Station.init "station 0" false)
      + Z.of_nat 20 * MiningRun.slice_time Example.run ∧
    Station.busy_minutes sn
    - Station.busy_minutes (Station.init "station 0" false)
    = MiningRun.slice_time Example.run
      * (Station.completed_loads sn
         - Station.completed_loads (Station.init "station 0" false)).
Proof.
  apply (station_minutes_account_for_every_tick Example.one_hour Example.run
           20 Example.start 2%nat Sample.after20 2%nat 0%nat).
  - vm_compute. reflexivity.
  - reflexivity.
Defined.

(** ** A truck along a run *)

Lemma run_ticks_cycled draw p n w0 c0 wn cn i t0 :
  Simulate.run_ticks draw p n w0 c0 = Ok (wn, cn) ->
  Simulate.trucks w0 !! i = Some t0 ->
  ∃ tn, Simulate.trucks wn !! i = Some tn ∧ Truck.cycled draw p t0 tn.
Proof.
  revert wn cn. induction n as [|n IH]; intros wn cn Hrun Hi.
  - simpl in Hrun. inv_ok. exists t0. split; [done|]. constructor.
  - apply run_ticks_S in Hrun as (w1 & c1 & H1 & H2).
    destruct (IH _ _ H1 Hi) as (t1 & Hi1 & Hcycled).
    pose proof (tick_stepped _ _ _ _ _ _ _ H2) as Hstep.
    destruct (Forall2_lookup_l _ _ _ _ _ Hstep Hi1)
      as (tn & Hin & (sts & c & sts' & c' & Hc)).
    exists tn. split; [done|]. econstructor; eauto.
Qed.

Lemma cycled_invariant draw p (P : Truck.t -> Prop) t t' :
  (∀ sts c t1 t2 sts' c',
     Truck.cycle draw p sts t1 c = Ok (t2, sts', c') -> P t1 -> P t2) ->
  Truck.cycled draw p t t' -> P t -> P t'.
Proof.
  intros Hstep. induction 1 as [t|t t1 t2 sts sts' c c' _ IH Hc]; [done|].
  intros Ht. eapply Hstep; eauto.
Qed.

(** X5.  Whatever calls of [cycle] a truck receives, it keeps its name and
    its verbosity, its count of loads never decreases, and the minutes it
    has logged under UNLOADING, once equal to its count of loads times the
    unloading duration of the run (as at construction), remain so. *)
Theorem unloading_log_counts_loads draw p t t' :
  Truck.cycled draw p t t' ->
  Truck.name t' = Truck.name t ∧
  Truck.verbose t' = Truck.verbose t ∧
  Truck.completed_loads t ≤ Truck.completed_loads t' ∧
  ∀ unloading_time,
    MiningRun.unloading_time p = Some unloading_time ->
    Ledger.logged TruckStatus.UNLOADING t
    = Truck.completed_loads t * unloading_time ->
    Ledger.logged TruckStatus.UNLOADING t'
    = Truck.completed_loads t' * unloading_time.
Proof.
  intros Hcycled.
  apply (cycled_invariant draw p
           (fun t1 => Truck.name t1 = Truck.name t ∧
                      Truck.verbose t1 = Truck.verbose t ∧
                      Truck.completed_loads t ≤ Truck.completed_loads t1 ∧
                      ∀ u, MiningRun.unloading_time p = Some u ->
                           Ledger.logged TruckStatus.UNLOADING t
                           = Truck.completed_loads t * u ->
                           Ledger.logged TruckStatus.UNLOADING t1
                           = Truck.completed_loads t1 * u)
           t t'); [|done|repeat split; [lia|done]].
  clear. intros sts c t1 t2 sts' c' H (Hn & Hv & Hl & Hu).
  unfold Ledger.logged in *. simpl in *.
  cycle_cases H; repeat split; try done; try lia.
  all: intros u Hun Ht; specialize (Hu u Hun Ht); simpl;
    rewrite ?lookup_insert_eq, ?lookup_insert_ne by discriminate;
    try done.
  match goal with Hv : _ !! "UNLOADING" = Some _ |- _ => rewrite Hv in Hu end.
  simpl in *. simplify_eq. lia.
Qed.

Lemma unloading_log_counts_loads_witness :
  ∃ t',
    Simulate.trucks Sample.finished !! 0%nat = Some t' ∧
    Truck.name t' = Truck.name Sample.truck0 ∧
    Truck.verbose t' = Truck.verbose Sample.truck0 ∧
    Truck.completed_loads Sample.truck0 ≤ Truck.completed_loads t' ∧
    Truck.completed_loads t' = 1 ∧
    Ledger.logged TruckStatus.UNLOADING t' = Truck.completed_loads t' * 5.
Proof.
  destruct (run_ticks_cycled Example.one_hour Example.run 24 Example.start
              2%nat Sample.finished 2%nat 0%nat Sample.truck0)
    as (tn & Htn & Hcycled).
  - vm_compute. reflexivity.
  - reflexivity.
  - exists tn. split; [exact Htn|].
    destruct (unloading_log_counts_loads Example.one_hour Example.run
                Sample.truck0 tn Hcycled) as (Hn & Hv & Hl & Hu).
    split; [done|]. split; [done|]. split; [done|].
    split; [vm_compute in Htn; by injection Htn as <-|].
    apply Hu; reflexivity.
Defined.

(** X6.  With a slice that is not negative, a truck whose counter is not a
    non-negative multiple of the slice never reaches zero: whatever calls of
    [cycle] follow, it stays in its state, logs nothing and completes no
    load, while its counter only goes down. *)
Theorem off_beat_counter_never_transitions draw p t t' :
  0 ≤ MiningRun.slice_time p ->
  ¬ Truck.nonneg_multiple p (Truck.remaining_time t) ->
  Truck.cycled draw p t t' ->
  Truck.state t' = Truck.state t ∧
  Truck.time_logs t' = Truck.time_logs t ∧
  Truck.completed_loads t' = Truck.completed_loads t ∧
  Truck.remaining_time t' ≤ Truck.remaining_time t ∧
  ¬ Truck.nonneg_multiple p (Truck.remaining_time t').
Proof.
  intros Hslice Ht Hcycled.
  apply (cycled_invariant draw p
           (fun t1 => Truck.state t1 = Truck.state t ∧
                      Truck.time_logs t1 = Truck.time_logs t ∧
                      Truck.completed_loads t1 = Truck.completed_loads t ∧
                      Truck.remaining_time t1 ≤ Truck.remaining_time t ∧
                      ¬ Truck.nonneg_multiple p (Truck.remaining_time t1))
           t t'); [|done|repeat split; [lia|done]].
  clear Hcycled Ht. intros sts c t1 t2 sts' c' H (Hs & Hl & Hc & Hr & Hoff).
  assert (Truck.remaining_time t1 ≠ 0) as Hnz.
  { intros Hz. apply Hoff. rewrite Hz. split; [lia|apply Z.divide_0_r]. }
  cycle_cases H; try done.
  repeat split; try done; [lia|].
  intros [Hnn Hdiv]. apply Hoff. split; [lia|].
  replace (Truck.remaining_time t1)
    with (Truck.remaining_time t1 - MiningRun.slice_time p
          + MiningRun.slice_time p) by lia.
  apply Z.divide_add_r; [done|apply Z.divide_refl].
Qed.

Lemma off_beat_counter_never_transitions_witness :
  ∃ t',
    Truck.cycled Example.one_hour Example.run Sample.off_beat_truck t' ∧
    Truck.remaining_time t' = -3 ∧
    (Truck.state t' = Truck.state Sample.off_beat_truck ∧
     Truck.time_logs t' = Truck.time_logs Sample.off_beat_truck ∧
     Truck.completed_loads t' = Truck.completed_loads Sample.off_beat_truck ∧
     Truck.remaining_time t' ≤ Truck.remaining_time Sample.off_beat_truck ∧
     ¬ Truck.nonneg_multiple Example.run (Truck.remaining_time t')).
Proof.
  assert (Truck.cycled Example.one_hour Example.run Sample.off_beat_truck
            (Truck.with_logs Sample.off_beat_truck Truck.initial_time_logs
               TruckStatus.TRAVELING_TO_STATION (-3))) as Hc.
  { eapply (Truck.cycled_step _ _ _ _ _ [] [] 0%nat 0%nat);
      [eapply (Truck.cycled_step _ _ _ _ _ [] [] 0%nat 0%nat);
         [apply Truck.cycled_refl | reflexivity]
      | reflexivity]. }
  eexists. split; [exact Hc|]. split; [reflexivity|].
  apply (off_beat_counter_never_transitions Example.one_hour Example.run
           Sample.off_beat_truck _).
  - discriminate.
  - intros [_ [k Hk]]. simpl in Hk. lia.
  - exact Hc.
Defined.

(** ** Mining minutes *)

Lemma cycle_mining draw p sts t c t' sts' c' (bound : Z) :
  0 ≤ MiningRun.slice_time p ->
  Truck.cycle draw p sts t c = Ok (t', sts', c') ->
  0 ≤ Ledger.logged TruckStatus.MINING t ∧
  (Truck.state t = TruckStatus.MINING ->
   Truck.remaining_time t ≤ Truck.current_cycle_mining_time t) ∧
  Ledger.mining_so_far t ≤ bound ->
  0 ≤ Ledger.logged TruckStatus.MINING t' ∧
  (Truck.state t' = TruckStatus.MINING ->
   Truck.remaining_time t' ≤ Truck.current_cycle_mining_time t') ∧
  Ledger.mining_so_far t' ≤ bound + MiningRun.slice_time p.
Proof.
  intros Hslice H (Hlog & Hrem & Hsofar).
  unfold Ledger.mining_so_far, Ledger.logged in *. simpl in *.
  cycle_cases H.
  all: rewrite ?lookup_insert_eq, ?lookup_insert_ne by discriminate.
  all: repeat match goal with
       | Hv : ?m !! "MINING" = Some _ |- _ => rewrite Hv in *; clear Hv
       | Hs : Truck.state ?t = _ |- _ => rewrite Hs in *; clear Hs
       end.
  all: simpl in *; simplify_eq.
  all: repeat case_decide; try congruence; repeat split; try lia.
  all: try (intros Hm; first [discriminate Hm | specialize (Hrem Hm); lia]).
  all: specialize (Hrem eq_refl); lia.
Qed.

Lemma run_ticks_mining draw p w0 c0 i t0 :
  0 ≤ MiningRun.slice_time p ->
  Simulate.trucks w0 !! i = Some t0 ->
  Truck.fresh t0 ->
  ∀ n wn cn,
    Simulate.run_ticks draw p n w0 c0 = Ok (wn, cn) ->
    ∃ tn, Simulate.trucks wn !! i = Some tn ∧
      0 ≤ Ledger.logged TruckStatus.MINING tn ∧
      (Truck.state tn = TruckStatus.MINING ->
       Truck.remaining_time tn ≤ Truck.current_cycle_mining_time tn) ∧
      Ledger.mining_so_far tn ≤ Z.of_nat n * MiningRun.slice_time p.
Proof.
  intros Hslice Hi (Hlogs & Hstate & Hcur).
  induction n as [|n IH]; intros wn cn Hrun.
  - simpl in Hrun. inv_ok. exists t0. split; [done|].
    unfold Ledger.mining_so_far, Ledger.logged.
    rewrite Hlogs, Hstate, Hcur. simpl.
    assert (Truck.initial_time_logs !! "MINING" = Some 0) as -> by reflexivity.
    simpl. repeat split; lia.
  - apply run_ticks_S in Hrun as (w1 & c1 & H1 & H2).
    destruct (IH _ _ H1) as (t1 & Hi1 & HJ).
    pose proof (tick_stepped _ _ _ _ _ _ _ H2) as Hstep.
    destruct (Forall2_lookup_l _ _ _ _ _ Hstep Hi1)
      as (tn & Hin & (sts & c & sts' & c' & Hc)).
    exists tn. split; [done|].
    pose proof (cycle_mining _ _ _ _ _ _ _ _ _ Hslice Hc HJ) as HJ'.
    replace (Z.of_nat (S n) * MiningRun.slice_time p)
      with (Z.of_nat n * MiningRun.slice_time p + MiningRun.slice_time p) by lia.
    exact HJ'.
Qed.

(** The MINING minutes of a truck constructed at the start lie between 0
    and the ticks of the run, whatever the draws. *)
Lemma run_ticks_mining_bound draw p n w0 c0 wn cn i t0 tn :
  0 ≤ MiningRun.slice_time p ->
  Simulate.trucks w0 !! i = Some t0 ->
  Truck.fresh t0 ->
  Simulate.run_ticks draw p n w0 c0 = Ok (wn, cn) ->
  Simulate.trucks wn !! i = Some tn ->
  0 ≤ Ledger.logged TruckStatus.MINING tn
    ≤ Z.of_nat n * MiningRun.slice_time p.
Proof.
  intros Hslice Hi Hfresh Hrun Hin.
  destruct (run_ticks_mining draw p w0 c0 i t0 Hslice Hi Hfresh
              n wn cn Hrun) as (tn' & Hin' & Hlog & Hle & Hsofar).
  assert (tn' = tn) as -> by congruence.
  split; [done|]. unfold Ledger.mining_so_far in Hsofar.
  case_decide; [specialize (Hle ltac:(done))|]; lia.
Qed.

(** X7.  With a slice and draws that are not negative, the minutes a truck
    constructed at the start has logged as MINING after [n] ticks lie
    between 0 and [n] slices. *)
Theorem mining_minutes_within_run draw p n w0 c0 wn cn i t0 tn :
  0 ≤ MiningRun.slice_time p ->
  (∀ k, 0 ≤ draw k) ->
  Simulate.trucks w0 !! i = Some t0 ->
  Truck.fresh t0 ->
  0 ≤ Truck.remaining_time t0 ->
  Simulate.run_ticks draw p n w0 c0 = Ok (wn, cn) ->
  Simulate.trucks wn !! i = Some tn ->
  0 ≤ Ledger.logged TruckStatus.MINING tn
    ≤ Z.of_nat n * MiningRun.slice_time p.
Proof.
  intros Hslice _ Hi Hfresh _.
  exact (run_ticks_mining_bound draw p n w0 c0 wn cn i t0 tn Hslice Hi Hfresh).
Qed.

Lemma mining_minutes_within_run_witness :
  ∃ tn,
    Simulate.trucks Sample.finished !! 1%nat = Some tn ∧
    Ledger.logged TruckStatus.MINING tn = 60 ∧
    0 ≤ Ledger.logged TruckStatus.MINING tn
      ≤ Z.of_nat 24 * MiningRun.slice_time Example.run.
Proof.
  eexists. split; [reflexivity|]. split; [reflexivity|].
  eapply (mining_minutes_within_run Example.one_hour Example.run 24
            Example.start 2%nat Sample.finished 2%nat 1%nat).
  - discriminate.
  - intros k. discriminate.
  - reflexivity.
  - repeat split.
  - discriminate.
  - vm_compute. reflexivity.
  - reflexivity.
Defined.

(** ** Entities over a run *)

Lemma cycle_name draw p sts t c t' sts' c' :
  Truck.cycle draw p sts t c = Ok (t', sts', c') ->
  Truck.name t' = Truck.name t.
Proof. intros H. by cycle_cases H. Qed.

Lemma stepped_names draw p ts ts' :
  Forall2 (Truck.stepped draw p) ts ts' ->
  Truck.name <$> ts' = Truck.name <$> ts.
Proof.
  induction 1 as [|t t' ts ts' (sts & c & sts' & c' & Hc) _ IH]; [done|].
  rewrite !fmap_cons, IH. f_equal. eapply cycle_name, Hc.
Qed.

Lemma books_names p (l l' : list Station.t) :
  Ledger.station_books <$> l' = Ledger.station_books ∘ Station.cycle p <$> l ->
  Station.name <$> l' = Station.name <$> l.
Proof.
  revert l'. induction l as [|st l IH]; intros [|st' l'] H;
    simpl in *; try discriminate; [done|].
  injection H as Hn _ _ _ _ Hrest. f_equal; [|by apply IH].
  rewrite Hn. unfold Station.cycle. by case_decide.
Qed.

(** X8.  A run neither adds, removes nor reorders entities: after any number
    of ticks the lists hold the trucks and the stations of the same names, in
    the same order. *)
Theorem run_keeps_the_entities draw p n w0 c0 wn cn :
  Simulate.run_ticks draw p n w0 c0 = Ok (wn, cn) ->
  Truck.name <$> Simulate.trucks wn = Truck.name <$> Simulate.trucks w0 ∧
  Station.name <$> Simulate.stations wn = Station.name <$> Simulate.stations w0.
Proof.
  revert wn cn. induction n as [|n IH]; intros wn cn Hrun.
  - simpl in Hrun. by inv_ok.
  - apply run_ticks_S in Hrun as (w1 & c1 & H1 & H2).
    destruct (IH _ _ H1) as [Ht Hs]. rewrite <- Ht, <- Hs. split.
    + eapply stepped_names, tick_stepped, H2.
    + apply tick_books in H2. eapply books_names, H2.
Qed.

Lemma run_keeps_the_entities_witness :
  Truck.name <$> Simulate.trucks Sample.finished = ["truck 0"; "truck 1"] ∧
  Station.name <$> Simulate.stations Sample.finished = ["station 0"].
Proof.
  apply (run_keeps_the_entities Example.one_hour Example.run 24 Example.start
           2%nat Sample.finished 2%nat).
  vm_compute. reflexivity.
Defined.

(** ** The choice of a station *)


(** X10.  A call of [cycle] touches the station list in one case only: the
    truck, at zero in TRAVELING_TO_STATION or IDLE, finds a station.  Then
    the first idle station, and no other, changes: it is busy and holds the
    truck's name, its minutes and loads being as before, and the truck is
    UNLOADING.  Conversely a truck that was not unloading is UNLOADING after
    the call only in that case. *)
Theorem cycle_attaches_to_first_idle_station draw p sts t c t' sts' c' :
  Truck.cycle draw p sts t c = Ok (t', sts', c') ->
  (sts' = sts ∧
   (Truck.state t' = TruckStatus.UNLOADING ->
    Truck.state t = TruckStatus.UNLOADING)) ∨
  (∃ i st st',
     Truck.get_available_station sts = Some (i, st) ∧
     sts' = <[i := st']> sts ∧
     Station.state st' = StationStatus.BUSY ∧
     Station.attached_truck st' = Some (Truck.name t) ∧
     Ledger.station_books st' = Ledger.station_books st ∧
     Truck.state t' = TruckStatus.UNLOADING ∧
     Truck.remaining_time t = 0 ∧
     (Truck.state t = TruckStatus.TRAVELING_TO_STATION ∨
      Truck.state t = TruckStatus.IDLE)).
Proof.
  intros H. apply cycle_station_effect in H
    as [[-> Hu]|(i & st & Hfind & -> & Hu & Hz & Hst)].
  - left. split; [done|]. intros Hu'. by apply Hu.
  - right. exists i, st, (Station.attach st (Truck.name t)). by repeat split.
Qed.

Lemma cycle_attaches_to_first_idle_station_witness :
  ∃ t' sts',
    Truck.cycle Example.one_hour Example.run
      [Example.busy_station; Station.init "free" false] Example.idle_truck 0%nat
    = Ok (t', sts', 0%nat) ∧
    Truck.state t' = TruckStatus.UNLOADING ∧
    sts' = [Example.busy_station;
            Station.attach (Station.init "free" false) "unnamed"].
Proof.
  eexists _, _. split; [by_evaluation|]. split; [reflexivity|].
  destruct (cycle_attaches_to_first_idle_station Example.one_hour Example.run
              [Example.busy_station; Station.init "free" false]
              Example.idle_truck 0%nat
              (Truck.with_logs Example.idle_truck
                 (<["TRAVELING_TO_STATION" := 30]>
                    (<["IDLE" := 5]> Truck.initial_time_logs))
                 TruckStatus.UNLOADING 5)
              [Example.busy_station;
               Station.attach (Station.init "free" false) "unnamed"] 0%nat)
    as [[Hsame _]|_]; [by_evaluation | discriminate Hsame | reflexivity].
Defined.

(** ** The entities at the start *)

Lemma Truck_init_total draw p nm c :
  MiningRun.min_mining_hours p ≤ MiningRun.max_mining_hours p ->
  Truck.init draw p nm c
  = Ok ({| Truck.name := nm; Truck.time_logs := Truck.initial_time_logs;
           Truck.state := TruckStatus.MINING; Truck.completed_loads := 0;
           Truck.verbose := MiningRun.verbose_trucks p;
           Truck.remaining_time := draw c * 60;
           Truck.current_cycle_mining_time := draw c * 60 |}, S c).
Proof.
  intros Hrange.
  unfold Truck.init, MiningRun.generate_mining_time, MiningRun.randint,
    mbind, M_bind.
  by destruct (Z.ltb_spec (MiningRun.max_mining_hours p)
                 (MiningRun.min_mining_hours p)); [lia|].
Qed.

Lemma initialize_trucks_from_seq draw p :
  MiningRun.min_mining_hours p ≤ MiningRun.max_mining_hours p ->
  ∀ n a c,
    ∃ ts,
      Simulate.initialize_trucks_from draw p (Z.of_nat <$> seq a n) c
      = Ok (ts, (c + n)%nat) ∧
      length ts = n ∧
      ∀ k t, ts !! k = Some t ->
        Truck.fresh t ∧ Truck.logs_wf t ∧
        Truck.name t = "truck " +:+ pretty (Z.of_nat (a + k)) ∧
        Truck.remaining_time t = draw (c + k)%nat * 60 ∧
        Truck.completed_loads t = 0 ∧
        Truck.verbose t = MiningRun.verbose_trucks p.
Proof.
  intros Hrange. induction n as [|n IH]; intros a c.
  - simpl. exists []. split; [by rewrite Nat.add_0_r|]. split; [done|]. intros k t Hk.
    by rewrite lookup_nil in Hk.
  - destruct (IH (S a) (S c)) as (ts & Hts & Hlen & Hall).
    change (seq a (S n)) with (a :: seq (S a) n). rewrite fmap_cons.
    cbn [Simulate.initialize_trucks_from]. unfold mbind, M_bind.
    rewrite (Truck_init_total draw p _ c Hrange), Hts.
    eexists. split; [by rewrite Nat.add_succ_r|]. split; [simpl; lia|].
    intros [|k] t Hk; simpl in Hk.
    + injection Hk as <-. rewrite !Nat.add_0_r. repeat split; try done.
      intros s. apply initial_logs_wf.
    + replace (a + S k)%nat with (S a + k)%nat by lia.
      replace (c + S k)%nat with (S c + k)%nat by lia.
      exact (Hall k t Hk).
Qed.

Lemma initialize_trucks_Ok draw p c :
  MiningRun.min_mining_hours p ≤ MiningRun.max_mining_hours p ->
  ∃ ts,
    Simulate.initialize_trucks draw p c
    = Ok (ts, (c + Z.to_nat (MiningRun.num_trucks p))%nat) ∧
    length ts = Z.to_nat (MiningRun.num_trucks p) ∧
    ∀ k t, ts !! k = Some t ->
      Truck.fresh t ∧ Truck.logs_wf t ∧
      Truck.name t = "truck " +:+ pretty (Z.of_nat k) ∧
      Truck.remaining_time t = draw (c + k)%nat * 60 ∧
      Truck.completed_loads t = 0 ∧
      Truck.verbose t = MiningRun.verbose_trucks p.
Proof.
  intros Hrange. unfold Simulate.initialize_trucks, Simulate.range.
  apply (initialize_trucks_from_seq draw p Hrange _ 0%nat c).
Qed.

(** X11.  With a mining range that is not empty, [initialize_trucks] returns
    as many trucks as the configuration counts (none for a negative count),
    consuming one draw each: truck [k] is named ["truck k"], is as the
    constructor leaves it (MINING, logs at zero, no load) and has 60 times
    the [k]-th draw to mine. *)
Theorem initialize_trucks_in_order draw p c :
  MiningRun.min_mining_hours p ≤ MiningRun.max_mining_hours p ->
  ∃ ts,
    Simulate.initialize_trucks draw p c
    = Ok (ts, (c + Z.to_nat (MiningRun.num_trucks p))%nat) ∧
    length ts = Z.to_nat (MiningRun.num_trucks p) ∧
    ∀ k t, ts !! k = Some t ->
      Truck.fresh t ∧ Truck.logs_wf t ∧
      Truck.name t = "truck " +:+ pretty (Z.of_nat k) ∧
      Truck.remaining_time t = draw (c + k)%nat * 60 ∧
      Truck.completed_loads t = 0 ∧
      Truck.verbose t = MiningRun.verbose_trucks p.
Proof. exact (initialize_trucks_Ok draw p c). Qed.

Lemma initialize_trucks_in_order_witness :
  ∃ ts,
    Simulate.initialize_trucks Sample.rolling Example.run 3%nat
    = Ok (ts, (3 + Z.to_nat (MiningRun.num_trucks Example.run))%nat) ∧
    length ts = Z.to_nat (MiningRun.num_trucks Example.run) ∧
    ∀ k t, ts !! k = Some t ->
      Truck.fresh t ∧ Truck.logs_wf t ∧
      Truck.name t = "truck " +:+ pretty (Z.of_nat k) ∧
      Truck.remaining_time t = Sample.rolling (3 + k)%nat * 60 ∧
      Truck.completed_loads t = 0 ∧
      Truck.verbose t = MiningRun.verbose_trucks Example.run.
Proof.
  apply (initialize_trucks_in_order Sample.rolling Example.run 3%nat).
  discriminate.
Defined.

(** ** The status reports *)

Lemma run_minutes_with_totals p a b c d e :
  MiningRun.run_minutes (MiningRun.with_totals p a b c d e)
  = MiningRun.run_minutes p.
Proof. reflexivity. Qed.

Section Reports.
Variable rnd : Q -> Q.
Hypothesis rnd_rounding : Float.rounding rnd.

(** The two numbers of a status report, for minutes that lie within the
    run: [round((minutes / run_minutes) * 100)] and [round(minutes / 60)]. *)
Lemma report_numbers (minutes run_minutes : Z) :
  0 < run_minutes ≤ Float.fmax_int ->
  0 ≤ minutes ≤ run_minutes ->
  ∃ ratio product hours,
    Float.int_truediv rnd minutes run_minutes = Ok (Float.Finite ratio) ∧
    Float.mul_int rnd (Float.Finite ratio) 100 = Ok (Float.Finite product) ∧
    Float.int_truediv rnd minutes 60 = Ok (Float.Finite hours).
Proof.
  intros [Hrm Hmax] [Hm0 Hm1].
  set (m := inject_Z minutes). set (M := inject_Z run_minutes).
  assert (0 <= m)%Q as Hm0' by (rewrite (Zle_Qle 0 minutes) in Hm0; exact Hm0).
  assert (m <= M)%Q as Hm1' by (unfold m, M; by rewrite <- Zle_Qle).
  assert (1 <= M)%Q as HM.
  { assert (1 ≤ run_minutes) as H1 by lia. rewrite Zle_Qle in H1. exact H1. }
  assert (M <= Float.fmax)%Q as HMmax
    by (unfold M, Float.fmax; by rewrite <- Zle_Qle).
  pose proof fmax_ge_1 as Hf1. pose proof fmax_ge_100 as Hf100.
  change (inject_Z 100) with 100%Q in Hf100.
  assert (0 <= m / M)%Q as Hq0 by (apply Qle_shift_div_l; lra).
  assert (m / M <= 1)%Q as Hq1 by (apply Qle_shift_div_r; lra).
  destruct (nearest_in_range rnd rnd_rounding (m / M)) as (Ha & _); [done|lra|].
  destruct (rnd_between rnd rnd_rounding 0 1 (m / M)) as [Hr0 Hr1];
    [apply rnd_rounding | apply rnd_rounding | done | done |].
  destruct (of_int_in_range rnd rnd_rounding 100) as (H100 & _).
  { split; [lia|]. apply Z.leb_le. by vm_compute. }
  pose proof (Float.rounding_100 rnd rnd_rounding) as Hr100.
  destruct (nearest_in_range rnd rnd_rounding (rnd (m / M) * rnd (inject_Z 100)))
    as (Hb & _).
  { rewrite Hr100. change (0 <= rnd (m / M) * 100)%Q. lra. }
  { rewrite Hr100. change (rnd (m / M) * 100 <= Float.fmax)%Q. lra. }
  assert (0 <= m / inject_Z 60)%Q as Hh0 by (apply Qle_shift_div_l; [done|lra]).
  assert (m / inject_Z 60 <= Float.fmax)%Q as Hh1.
  { apply Qle_shift_div_r; [done|]. change (inject_Z 60) with 60%Q.
    assert (0 <= Float.fmax)%Q by lra. lra. }
  destruct (nearest_in_range rnd rnd_rounding (m / inject_Z 60)) as (Hc & _);
    [done|done|].
  eexists _, _, _. split; [|split].
  - unfold Float.int_truediv.
    destruct (Z.eqb_spec run_minutes 0) as [|_]; [lia|].
    fold m M. by rewrite Ha.
  - unfold Float.mul_int. rewrite H100. cbn [mbind result_bind mret result_ret].
    unfold Float.mul. by rewrite Hb.
  - unfold Float.int_truediv. simpl. fold m. by rewrite Hc.
Qed.

Lemma Truck_generate_report_Ok p t :
  0 < MiningRun.run_minutes p ≤ Float.fmax_int ->
  Truck.logs_wf t ->
  0 ≤ Ledger.logged TruckStatus.MINING t ≤ MiningRun.run_minutes p ->
  ∃ text, Truck.generate_report rnd p t = Ok text.
Proof.
  intros Hrm Hwf Hm. destruct (Hwf TruckStatus.MINING) as [v Hv]. simpl in Hv.
  unfold Ledger.logged in Hm. simpl in Hm. rewrite Hv in Hm. simpl in Hm.
  destruct (report_numbers v _ Hrm Hm) as (ratio & product & hours & H1 & H2 & H3).
  unfold Truck.generate_report, Truck.log_get. rewrite Hv.
  cbn [mbind result_bind]. rewrite H1. cbn [mbind result_bind].
  rewrite H2. cbn [mbind result_bind Float.round].
  rewrite H3. cbn [mbind result_bind Float.round]. by eexists.
Qed.

Lemma Station_generate_report_Ok p st :
  0 < MiningRun.run_minutes p ≤ Float.fmax_int ->
  0 ≤ Station.busy_minutes st ≤ MiningRun.run_minutes p ->
  ∃ text, Station.generate_report rnd p st = Ok text.
Proof.
  intros Hrm Hm.
  destruct (report_numbers _ _ Hrm Hm) as (ratio & product & hours & H1 & H2 & H3).
  unfold Station.generate_report. rewrite H1. cbn [mbind result_bind].
  rewrite H2. cbn [mbind result_bind Float.round].
  rewrite H3. cbn [mbind result_bind Float.round]. by eexists.
Qed.
End Reports.

(** For a run of zero minutes a status report cannot be made. *)
Lemma Truck_generate_report_zero rnd p t :
  MiningRun.run_minutes p = 0 ->
  Truck.logs_wf t ->
  Truck.generate_report rnd p t = Raise ZeroDivisionError.
Proof.
  intros Hrm Hwf. destruct (Hwf TruckStatus.MINING) as [v Hv]. simpl in Hv.
  unfold Truck.generate_report, Truck.log_get, Float.int_truediv.
  by rewrite Hv, Hrm.
Qed.

Lemma Station_generate_report_zero rnd p st :
  MiningRun.run_minutes p = 0 ->
  Station.generate_report rnd p st = Raise ZeroDivisionError.
Proof.
  intros Hrm. unfold Station.generate_report, Float.int_truediv. by rewrite Hrm.
Qed.

(** ** The summaries *)

Lemma total_cons {A} (f : A -> Z) x l :
  Ledger.total f (x :: l) = f x + Ledger.total f l.
Proof. reflexivity. Qed.

(** What the truck summary returns, when it returns. *)
Lemma summarize_truck_results_inv rnd ARGS p ts p' :
  Simulate.summarize_truck_results rnd ARGS p ts = Ok p' ->
  p' = MiningRun.with_totals p
         (MiningRun.total_load_count p + Ledger.total Truck.completed_loads ts)
         (MiningRun.total_idle_truck_time p
          + Ledger.total (Ledger.logged TruckStatus.IDLE) ts)
         (MiningRun.total_busy_truck_time p
          + Ledger.total (Ledger.logged TruckStatus.MINING) ts)
         (MiningRun.total_idle_station_time p)
         (MiningRun.total_busy_station_time p).
Proof.
  revert p. induction ts as [|t ts IH]; intros p H.
  - simpl in H. inv_ok. unfold Ledger.total. simpl.
    rewrite !Z.add_0_r. by destruct p'.
  - simpl in H. unfold Truck.log_get in H.
    destruct (Truck.time_logs t !! "IDLE") as [vi|] eqn:Hvi; [|discriminate H].
    destruct (Truck.time_logs t !! "MINING") as [vm|] eqn:Hvm; [|discriminate H].
    cbn [mbind result_bind] in H.
    apply result_bind_Ok in H as (text & _ & H).
    apply IH in H. rewrite H.
    assert (Ledger.logged TruckStatus.IDLE t = vi) as Hli
      by (unfold Ledger.logged; simpl; by rewrite Hvi).
    assert (Ledger.logged TruckStatus.MINING t = vm) as Hlm
      by (unfold Ledger.logged; simpl; by rewrite Hvm).
    rewrite !total_cons, Hli, Hlm.
    unfold MiningRun.with_totals. simpl. f_equal; lia.
Qed.

Lemma summarize_station_results_inv rnd ARGS p sts p' :
  Simulate.summarize_station_results rnd ARGS p sts = Ok p' ->
  p' = MiningRun.with_totals p
         (MiningRun.total_load_count p)
         (MiningRun.total_idle_truck_time p)
         (MiningRun.total_busy_truck_time p)
         (MiningRun.total_idle_station_time p
          + Ledger.total Station.idle_minutes sts)
         (MiningRun.total_busy_station_time p
          + Ledger.total Station.busy_minutes sts).
Proof.
  revert p. induction sts as [|st sts IH]; intros p H.
  - simpl in H. inv_ok. unfold Ledger.total. simpl.
    rewrite !Z.add_0_r. by destruct p'.
  - simpl in H. apply result_bind_Ok in H as (text & _ & H).
    apply IH in H. rewrite H, !total_cons.
    unfold MiningRun.with_totals. simpl. f_equal; lia.
Qed.

(** The truck summary returns when every truck has its five log keys and,
    should the detail reports be asked for, every report can be made. *)
Lemma summarize_truck_results_total rnd ARGS p ts :
  Forall Truck.logs_wf ts ->
  (Simulate.detail_report_trucks ARGS = true ->
   Forall (fun t => ∃ text, Truck.generate_report rnd p t = Ok text) ts) ->
  ∃ p', Simulate.summarize_truck_results rnd ARGS p ts = Ok p'.
Proof.
  intros Hwf. revert p. induction Hwf as [|t ts Ht _ IH]; intros p Hrep.
  - by eexists.
  - simpl. destruct (Ht TruckStatus.IDLE) as [vi Hvi].
    destruct (Ht TruckStatus.MINING) as [vm Hvm]. simpl in Hvi, Hvm.
    unfold Truck.log_get. rewrite Hvi, Hvm. cbn [mbind result_bind].
    set (p1 := MiningRun.with_totals p _ _ _ _ _).
    assert (∀ t', Truck.generate_report rnd p1 t' = Truck.generate_report rnd p t')
      as Hsame by reflexivity.
    destruct (Simulate.detail_report_trucks ARGS) eqn:Hflag.
    + specialize (Hrep eq_refl). apply Forall_cons in Hrep as [[text Ht1] Hrest].
      rewrite Hsame, Ht1. cbn [mbind result_bind].
      apply IH. intros _. eapply Forall_impl; [exact Hrest|].
      intros t' Ht'. by rewrite Hsame.
    + cbn [mbind result_bind mret result_ret]. apply IH. discriminate.
Qed.

Lemma summarize_station_results_total rnd ARGS p sts :
  (Simulate.detail_report_stations ARGS = true ->
   Forall (fun st => ∃ text, Station.generate_report rnd p st = Ok text) sts) ->
  ∃ p', Simulate.summarize_station_results rnd ARGS p sts = Ok p'.
Proof.
  revert p. induction sts as [|st sts IH]; intros p Hrep.
  - by eexists.
  - simpl. set (p1 := MiningRun.with_totals p _ _ _ _ _).
    assert (∀ st', Station.generate_report rnd p1 st'
                   = Station.generate_report rnd p st')
      as Hsame by reflexivity.
    destruct (Simulate.detail_report_stations ARGS) eqn:Hflag.
    + specialize (Hrep eq_refl). apply Forall_cons in Hrep as [[text Ht1] Hrest].
      rewrite Hsame, Ht1. cbn [mbind result_bind].
      apply IH. intros _. eapply Forall_impl; [exact Hrest|].
      intros st' Hst'. by rewrite Hsame.
    + cbn [mbind result_bind mret result_ret]. apply IH. discriminate.
Qed.

(** Under [--detail_report_trucks] the truck summary of a run of zero
    minutes raises at the report of the first truck, and likewise for the
    stations. *)
Lemma summarize_truck_results_zero rnd ARGS p t ts :
  Simulate.detail_report_trucks ARGS = true ->
  MiningRun.run_minutes p = 0 ->
  Truck.logs_wf t ->
  Simulate.summarize_truck_results rnd ARGS p (t :: ts) = Raise ZeroDivisionError.
Proof.
  intros Hflag Hrm Ht. simpl.
  destruct (Ht TruckStatus.IDLE) as [vi Hvi].
  destruct (Ht TruckStatus.MINING) as [vm Hvm]. simpl in Hvi, Hvm.
  unfold Truck.log_get. rewrite Hvi, Hvm, Hflag. cbn [mbind result_bind].
  by rewrite Truck_generate_report_zero.
Qed.

Lemma summarize_station_results_zero rnd ARGS p st sts :
  Simulate.detail_report_stations ARGS = true ->
  MiningRun.run_minutes p = 0 ->
  Simulate.summarize_station_results rnd ARGS p (st :: sts)
  = Raise ZeroDivisionError.
Proof.
  intros Hflag Hrm. simpl. rewrite Hflag.
  by rewrite Station_generate_report_zero.
Qed.

(** X12.  Whenever the two summaries return, they have added to the totals
    of the run, which they do not reset, the loads, the IDLE minutes and the
    MINING minutes of every truck and the idle and busy minutes of every
    station, and changed no other field.  Without detail reports, as [ARGS]
    stands unless the command line asks for them, they return whenever
    every truck has its five log keys; with [--detail_report_trucks] and a
    run of zero hours, the truck summary of one truck or more ends in
    ZeroDivisionError. *)
Theorem summaries_add_to_the_totals rnd ARGS p ts sts :
  (∀ p1 p2,
     Simulate.summarize_truck_results rnd ARGS p ts = Ok p1 ->
     Simulate.summarize_station_results rnd ARGS p1 sts = Ok p2 ->
     p2 = MiningRun.with_totals p
            (MiningRun.total_load_count p + Ledger.total Truck.completed_loads ts)
            (MiningRun.total_idle_truck_time p
             + Ledger.total (Ledger.logged TruckStatus.IDLE) ts)
            (MiningRun.total_busy_truck_time p
             + Ledger.total (Ledger.logged TruckStatus.MINING) ts)
            (MiningRun.total_idle_station_time p
             + Ledger.total Station.idle_minutes sts)
            (MiningRun.total_busy_station_time p
             + Ledger.total Station.busy_minutes sts)) ∧
  (Simulate.detail_report_trucks ARGS = false ->
   Simulate.detail_report_stations ARGS = false ->
   Forall Truck.logs_wf ts ->
   ∃ p1 p2,
     Simulate.summarize_truck_results rnd ARGS p ts = Ok p1 ∧
     Simulate.summarize_station_results rnd ARGS p1 sts = Ok p2) ∧
  (Simulate.detail_report_trucks ARGS = true ->
   MiningRun.run_hours p = 0 ->
   Forall Truck.logs_wf ts ->
   ts ≠ [] ->
   Simulate.summarize_truck_results rnd ARGS p ts = Raise ZeroDivisionError).
Proof.
  split; [|split].
  - intros p1 p2 H1 H2. apply summarize_truck_results_inv in H1.
    apply summarize_station_results_inv in H2. by rewrite H2, H1.
  - intros Hft Hfs Hwf.
    destruct (summarize_truck_results_total rnd ARGS p ts Hwf) as (p1 & Hp1);
      [by rewrite Hft|].
    destruct (summarize_station_results_total rnd ARGS p1 sts) as (p2 & Hp2);
      [by rewrite Hfs|].
    by exists p1, p2.
  - intros Hft Hrh Hwf Hne. destruct ts as [|t ts]; [done|].
    apply Forall_cons in Hwf as [Ht _].
    apply summarize_truck_results_zero; [done| |done].
    unfold MiningRun.run_minutes. by rewrite Hrh.
Qed.

Lemma finished_trucks_wf : Forall Truck.logs_wf (Simulate.trucks Sample.finished).
Proof.
  apply (run_ticks_logs_wf Example.one_hour Example.run 24 Example.start 2%nat
           Sample.finished 2%nat); [vm_compute; reflexivity|].
  repeat constructor; intros s; apply initial_logs_wf.
Qed.

Lemma summaries_add_to_the_totals_witness :
  ∃ p1,
    Simulate.summarize_truck_results Float.binary64 Simulate.ARGS Example.run
      (Simulate.trucks Sample.finished) = Ok p1 ∧
    Simulate.summarize_station_results Float.binary64 Simulate.ARGS p1
      (Simulate.stations Sample.finished) = Ok Example.summary.
Proof.
  destruct (proj1 (proj2 (summaries_add_to_the_totals Float.binary64
              Simulate.ARGS Example.run (Simulate.trucks Sample.finished)
              (Simulate.stations Sample.finished)))
              eq_refl eq_refl finished_trucks_wf)
    as (p1 & p2 & Hp1 & Hp2).
  exists p1. split; [exact Hp1|]. rewrite Hp2. f_equal.
  rewrite (proj1 (summaries_add_to_the_totals Float.binary64
             Simulate.ARGS Example.run (Simulate.trucks Sample.finished)
             (Simulate.stations Sample.finished)) p1 p2 Hp1 Hp2).
  vm_compute. reflexivity.
Defined.

(** ** The whole simulation *)

Lemma simulation_run_Ok draw p c w c' :
  Simulate.simulation_run draw p c = Ok (w, c') ->
  ∃ ts c1,
    Simulate.initialize_trucks draw p c = Ok (ts, c1) ∧
    MiningRun.slice_time p ≠ 0 ∧
    Simulate.run_ticks draw p
      (Z.to_nat (MiningRun.run_hours p * (60 ÷ MiningRun.slice_time p)))
      (Simulate.mk_world (Simulate.initialize_unloading_stations p) ts
         Simulate.initialize_time_slice_report) c1
    = Ok (w, c').
Proof.
  unfold Simulate.simulation_run. intros H.
  apply M_bind_Ok in H as (ts & c1 & Hinit & Hrun).
  apply run_simulation_Ok in Hrun as [Hslice Hrun]. eauto.
Qed.

Lemma simulation_run_total draw p c :
  MiningRun.slice_time p ≠ 0 ->
  MiningRun.has_durations p ->
  MiningRun.min_mining_hours p ≤ MiningRun.max_mining_hours p ->
  ∃ w c', Simulate.simulation_run draw p c = Ok (w, c') ∧
          Forall Truck.logs_wf (Simulate.trucks w).
Proof.
  intros Hslice Hp Hrange.
  destruct (initialize_trucks_Ok draw p c Hrange) as (ts & Hinit & _ & Hall).
  assert (Forall Truck.logs_wf ts) as Hwf.
  { apply Forall_lookup. intros k t Hk. by destruct (Hall k t Hk) as (_ & ? & _). }
  destruct (run_simulation_rows draw p (Simulate.initialize_unloading_stations p)
              ts (c + Z.to_nat (MiningRun.num_trucks p))%nat Hslice Hp Hrange Hwf)
    as (w & c' & Hrun & _).
  exists w, c'. split.
  - unfold Simulate.simulation_run, mbind, M_bind. by rewrite Hinit.
  - apply run_simulation_Ok in Hrun as [_ Hrun].
    by apply (run_ticks_logs_wf _ _ _ _ _ _ _ Hrun).
Qed.

Lemma simulation_Ok draw rnd ARGS p c p' table c' :
  Simulate.simulation draw rnd ARGS p c = Ok (p', table, c') ->
  ∃ w p1,
    Simulate.simulation_run draw p c = Ok (w, c') ∧
    Simulate.summarize_truck_results rnd ARGS p (Simulate.trucks w) = Ok p1 ∧
    Simulate.summarize_station_results rnd ARGS p1 (Simulate.stations w) = Ok p' ∧
    table = Simulate.time_slice_report w ∧
    ∃ text, MiningRun.generate_csv_report rnd p' = Ok text.
Proof.
  unfold Simulate.simulation. intros H.
  apply M_bind_Ok in H as (w & c1 & Hrun & H).
  apply M_bind_Ok in H as (p1 & c2 & Hp1 & H).
  apply M_bind_Ok in H as (p2 & c3 & Hp2 & H).
  apply M_bind_Ok in H as (text & c4 & Htext & H).
  apply lift_Ok in Hp1 as (? & Hp1 & [= <- <-]).
  apply lift_Ok in Hp2 as (? & Hp2 & [= <- <-]).
  apply lift_Ok in Htext as (? & Htext & [= <- <-]).
  apply M_ret_Ok in H as [= -> -> ->].
  exists w, p1. repeat split; try done. by exists text.
Qed.

Lemma ticks_fill_the_run p :
  0 < MiningRun.slice_time p ->
  (MiningRun.slice_time p | 60) ->
  0 ≤ MiningRun.run_hours p ->
  Z.of_nat (Z.to_nat (MiningRun.run_hours p * (60 ÷ MiningRun.slice_time p)))
  * MiningRun.slice_time p
  = MiningRun.run_minutes p.
Proof.
  intros Hpos [k Hk] Hhours. unfold MiningRun.run_minutes.
  rewrite Z.quot_div_nonneg by lia.
  rewrite Hk, Z.div_mul by lia.
  assert (0 ≤ k) by nia. rewrite Z2Nat.id by nia. lia.
Qed.

(** The ticks of a run never last longer than the run. *)
Lemma ticks_within_the_run p :
  0 < MiningRun.slice_time p ->
  0 ≤ MiningRun.run_hours p ->
  0 ≤ Z.of_nat (Z.to_nat (MiningRun.run_hours p * (60 ÷ MiningRun.slice_time p)))
      * MiningRun.slice_time p
    ≤ MiningRun.run_minutes p.
Proof.
  intros Hpos Hhours. unfold MiningRun.run_minutes.
  rewrite Z.quot_div_nonneg by lia.
  assert (0 ≤ 60 / MiningRun.slice_time p) by (apply Z.div_pos; lia).
  pose proof (Z.mul_div_le 60 (MiningRun.slice_time p) Hpos).
  rewrite Z2Nat.id by nia. nia.
Qed.

Lemma total_app {A} (f : A -> Z) l1 l2 :
  Ledger.total f (l1 ++ l2) = Ledger.total f l1 + Ledger.total f l2.
Proof.
  induction l1 as [|x l1 IH]; [reflexivity|].
  rewrite <- app_comm_cons, !total_cons, IH. lia.
Qed.

Lemma total_bounds {A} (f : A -> Z) (lo hi : Z) l :
  Forall (fun x => lo ≤ f x ≤ hi) l ->
  Z.of_nat (length l) * lo ≤ Ledger.total f l ≤ Z.of_nat (length l) * hi.
Proof.
  induction 1 as [|x l Hx _ IH]; [unfold Ledger.total; simpl; lia|].
  rewrite total_cons. simpl length. lia.
Qed.

Lemma total_sum {A} (f g : A -> Z) (v : Z) l :
  Forall (fun x => f x + g x = v) l ->
  Ledger.total f l + Ledger.total g l = Z.of_nat (length l) * v.
Proof.
  induction 1 as [|x l Hx _ IH]; [unfold Ledger.total; simpl; lia|].
  rewrite !total_cons. simpl length. lia.
Qed.

Lemma initial_stations_length p :
  length (Simulate.initialize_unloading_stations p)
  = Z.to_nat (MiningRun.num_stations p).
Proof.
  unfold Simulate.initialize_unloading_stations, Simulate.range.
  by rewrite !length_fmap, length_seq.
Qed.

Lemma initial_stations_books p :
  Forall (fun st => Station.busy_minutes st = 0 ∧ Station.idle_minutes st = 0)
         (Simulate.initialize_unloading_stations p).
Proof.
  unfold Simulate.initialize_unloading_stations.
  apply Forall_fmap, Forall_true. by intros k.
Qed.

Lemma run_ticks_station_nonneg draw p n w0 c0 wn cn :
  0 ≤ MiningRun.slice_time p ->
  Simulate.run_ticks draw p n w0 c0 = Ok (wn, cn) ->
  Forall (fun st => 0 ≤ Station.busy_minutes st ∧ 0 ≤ Station.idle_minutes st)
         (Simulate.stations w0) ->
  Forall (fun st => 0 ≤ Station.busy_minutes st ∧ 0 ≤ Station.idle_minutes st)
         (Simulate.stations wn).
Proof.
  intros Hslice. revert wn cn. induction n as [|n IH]; intros wn cn Hrun H0.
  - simpl in Hrun. by inv_ok.
  - apply run_ticks_S in Hrun as (w1 & c1 & H1 & H2).
    specialize (IH _ _ H1 H0). apply Forall_lookup. intros i sn Hi.
    pose proof (tick_lengths _ _ _ _ _ _ _ H2) as [_ Hlen].
    destruct (lookup_lt_is_Some_2 (Simulate.stations w1) i) as [s1 Hi1].
    { rewrite <- Hlen. by eapply lookup_lt_Some. }
    destruct (tick_station _ _ _ _ _ _ _ _ _ H2 Hi1) as (sn' & Hin & Hbooks).
    assert (sn' = sn) as -> by congruence.
    rewrite Station_cycle_books in Hbooks. unfold Ledger.station_books in Hbooks.
    injection Hbooks as _ Hb Hidle _ _.
    pose proof (proj1 (Forall_lookup _ _) IH i s1 Hi1) as [? ?].
    case_decide; lia.
Qed.

(** The stations of a finished run: minutes that are not negative and that
    add up, for each station, to the ticks of the run. *)
Lemma simulation_run_stations draw p c w c' :
  0 ≤ MiningRun.slice_time p ->
  Simulate.simulation_run draw p c = Ok (w, c') ->
  length (Simulate.stations w) = Z.to_nat (MiningRun.num_stations p) ∧
  Forall (fun st =>
            0 ≤ Station.busy_minutes st ∧ 0 ≤ Station.idle_minutes st ∧
            Station.busy_minutes st + Station.idle_minutes st
            = Z.of_nat (Z.to_nat (MiningRun.run_hours p
                                  * (60 ÷ MiningRun.slice_time p)))
              * MiningRun.slice_time p)
         (Simulate.stations w).
Proof.
  intros Hslice H. apply simulation_run_Ok in H as (ts & c1 & _ & _ & Hrun).
  pose proof (run_ticks_lengths _ _ _ _ _ _ _ Hrun) as [_ Hlen]. simpl in Hlen.
  split; [by rewrite Hlen, initial_stations_length|].
  pose proof (run_ticks_station_nonneg _ _ _ _ _ _ _ Hslice Hrun) as Hnn.
  simpl in Hnn. apply Forall_lookup. intros i sn Hi.
  destruct (lookup_lt_is_Some_2 (Simulate.initialize_unloading_stations p) i)
    as [s0 Hi0].
  { rewrite <- Hlen. by eapply lookup_lt_Some. }
  destruct (run_ticks_station_ledger _ _ _ _ _ _ _ i s0 Hrun Hi0)
    as (sn' & Hin & _ & Hsum & _).
  assert (sn' = sn) as -> by congruence.
  pose proof (proj1 (Forall_lookup _ _) (initial_stations_books p) i s0 Hi0)
    as [Hb0 Hi00].
  assert (Forall (fun st => 0 ≤ Station.busy_minutes st
                            ∧ 0 ≤ Station.idle_minutes st)
                 (Simulate.initialize_unloading_stations p)) as Hnn0.
  { eapply Forall_impl; [apply initial_stations_books|]. intros st [-> ->]. lia. }
  pose proof (proj1 (Forall_lookup _ _) (Hnn Hnn0) i sn Hi) as [? ?].
  repeat split; try done. lia.
Qed.

(** The trucks of a finished run: MINING minutes between 0 and the ticks of
    the run. *)
Lemma simulation_run_trucks draw p c w c' :
  0 ≤ MiningRun.slice_time p ->
  Simulate.simulation_run draw p c = Ok (w, c') ->
  length (Simulate.trucks w) = Z.to_nat (MiningRun.num_trucks p) ∧
  Forall Truck.logs_wf (Simulate.trucks w) ∧
  Forall (fun t =>
            0 ≤ Ledger.logged TruckStatus.MINING t
              ≤ Z.of_nat (Z.to_nat (MiningRun.run_hours p
                                    * (60 ÷ MiningRun.slice_time p)))
                * MiningRun.slice_time p)
         (Simulate.trucks w).
Proof.
  intros Hslice H. apply simulation_run_Ok in H as (ts & c1 & Hinit & _ & Hrun).
  pose proof (run_ticks_lengths _ _ _ _ _ _ _ Hrun) as [Hlen _]. simpl in Hlen.
  destruct (Z.le_gt_cases (MiningRun.num_trucks p) 0) as [Hn|Hn].
  { rewrite initialize_trucks_none in Hinit by done. injection Hinit as <- _.
    simpl in Hlen. apply nil_length_inv in Hlen. rewrite Hlen.
    split; [simpl; lia|]. split; constructor. }
  assert (MiningRun.min_mining_hours p ≤ MiningRun.max_mining_hours p) as Hrange.
  { destruct (Z.le_gt_cases (MiningRun.min_mining_hours p)
                (MiningRun.max_mining_hours p)) as [|Hgt]; [done|].
    rewrite initialize_trucks_empty_range in Hinit by lia. discriminate. }
  destruct (initialize_trucks_Ok draw p c Hrange) as (ts' & Hinit' & Hlen0 & Hall).
  rewrite Hinit in Hinit'. injection Hinit' as <- _.
  split; [congruence|]. split.
  - apply (run_ticks_logs_wf _ _ _ _ _ _ _ Hrun). simpl.
    apply Forall_lookup. intros k t Hk. by destruct (Hall k t Hk) as (_ & ? & _).
  - apply Forall_lookup. intros i tn Hi.
    destruct (lookup_lt_is_Some_2 ts i) as [t0 Hi0].
    { rewrite <- Hlen. by eapply lookup_lt_Some. }
    destruct (Hall i t0 Hi0) as (Hfresh & _).
    exact (run_ticks_mining_bound draw p _
             (Simulate.mk_world (Simulate.initialize_unloading_stations p) ts
                Simulate.initialize_time_slice_report)
             c1 w c' i t0 tn Hslice Hi0 Hfresh Hrun Hi).
Qed.

(** X13.  When the slice is a positive divisor of 60 and the run length is
    not negative, a simulation that completes has shared the whole run
    between the busy and the idle minutes of its stations: the two totals
    have grown together by the number of stations times the run minutes. *)
Theorem station_minutes_fill_the_run draw rnd ARGS p c p' table c' :
  0 < MiningRun.slice_time p ->
  (MiningRun.slice_time p | 60) ->
  0 ≤ MiningRun.run_hours p ->
  Simulate.simulation draw rnd ARGS p c = Ok (p', table, c') ->
  MiningRun.total_busy_station_time p' + MiningRun.total_idle_station_time p'
  = MiningRun.total_busy_station_time p + MiningRun.total_idle_station_time p
    + Z.max 0 (MiningRun.num_stations p) * MiningRun.run_minutes p.
Proof.
  intros Hpos Hdiv Hhours H.
  apply simulation_Ok in H as (w & p1 & Hrun & Hp1 & Hp2 & _ & _).
  apply summarize_truck_results_inv in Hp1. subst p1.
  apply summarize_station_results_inv in Hp2. subst p'. simpl.
  destruct (simulation_run_stations draw p c w c') as [Hlen Hall];
    [lia | done |].
  rewrite (ticks_fill_the_run p Hpos Hdiv Hhours) in Hall.
  pose proof (total_sum Station.busy_minutes Station.idle_minutes
                (MiningRun.run_minutes p) (Simulate.stations w)) as Hsum.
  rewrite Hlen in Hsum.
  replace (Z.of_nat (Z.to_nat (MiningRun.num_stations p)))
    with (Z.max 0 (MiningRun.num_stations p)) in Hsum by lia.
  rewrite <- Hsum; [lia|].
  eapply Forall_impl; [exact Hall|]. by intros st (_ & _ & ?).
Qed.

Lemma station_minutes_fill_the_run_witness :
  MiningRun.total_busy_station_time Example.summary
  + MiningRun.total_idle_station_time Example.summary
  = MiningRun.total_busy_station_time Example.run
    + MiningRun.total_idle_station_time Example.run
    + Z.max 0 (MiningRun.num_stations Example.run)
      * MiningRun.run_minutes Example.run.
Proof.
  apply (station_minutes_fill_the_run Example.one_hour Float.binary64
           Simulate.ARGS Example.run 0%nat Example.summary
           (Simulate.time_slice_report Sample.finished) 2%nat).
  - reflexivity.
  - by exists 12.
  - discriminate.
  - vm_compute. reflexivity.
Defined.


(** A run of positive length, summarised: both summaries return, with or
    without detail reports, and the busy minutes they add lie between 0 and
    count times run minutes. *)
Lemma simulation_summarised draw rnd ARGS p c :
  Float.rounding rnd ->
  MiningRun.has_durations p ->
  0 < MiningRun.slice_time p ->
  0 < MiningRun.run_hours p ->
  MiningRun.run_minutes p ≤ Float.fmax_int ->
  MiningRun.min_mining_hours p ≤ MiningRun.max_mining_hours p ->
  ∃ w c' p1 p2,
    Simulate.simulation_run draw p c = Ok (w, c') ∧
    Simulate.summarize_truck_results rnd ARGS p (Simulate.trucks w) = Ok p1 ∧
    Simulate.summarize_station_results rnd ARGS p1 (Simulate.stations w) = Ok p2 ∧
    MiningRun.num_trucks p2 = MiningRun.num_trucks p ∧
    MiningRun.num_stations p2 = MiningRun.num_stations p ∧
    MiningRun.run_minutes p2 = MiningRun.run_minutes p ∧
    0 ≤ MiningRun.total_busy_truck_time p2 - MiningRun.total_busy_truck_time p
      ≤ Z.max 0 (MiningRun.num_trucks p) * MiningRun.run_minutes p ∧
    0 ≤ MiningRun.total_busy_station_time p2
        - MiningRun.total_busy_station_time p
      ≤ Z.max 0 (MiningRun.num_stations p) * MiningRun.run_minutes p.
Proof.
  intros Hrnd Hp Hpos Hhours Hmax Hrange.
  assert (0 < MiningRun.run_minutes p) as Hrm
    by (unfold MiningRun.run_minutes; lia).
  destruct (simulation_run_total draw p c) as (w & c' & Hrun & Hwf);
    [lia | done | done |].
  destruct (simulation_run_trucks draw p c w c') as (Hlt & _ & Htrucks);
    [lia | done |].
  destruct (simulation_run_stations draw p c w c') as [Hls Hstations];
    [lia | done |].
  pose proof (ticks_within_the_run p Hpos ltac:(lia)) as Hticks.
  assert (Forall (fun t => 0 ≤ Ledger.logged TruckStatus.MINING t
                           ≤ MiningRun.run_minutes p) (Simulate.trucks w))
    as Htb.
  { eapply Forall_impl; [exact Htrucks|]. intros t ?. simpl in *. lia. }
  assert (Forall (fun st => 0 ≤ Station.busy_minutes st ≤ MiningRun.run_minutes p)
                 (Simulate.stations w)) as Hsb.
  { eapply Forall_impl; [exact Hstations|]. intros st (? & ? & ?). lia. }
  destruct (summarize_truck_results_total rnd ARGS p (Simulate.trucks w) Hwf)
    as (p1 & Hp1).
  { intros _. apply Forall_lookup. intros i t Hi.
    apply (Truck_generate_report_Ok rnd Hrnd); [lia| |].
    - exact (proj1 (Forall_lookup _ _) Hwf i t Hi).
    - exact (proj1 (Forall_lookup _ _) Htb i t Hi). }
  destruct (summarize_station_results_total rnd ARGS p1 (Simulate.stations w))
    as (p2 & Hp2).
  { intros _. apply Forall_lookup. intros i st Hi.
    pose proof (summarize_truck_results_inv _ _ _ _ _ Hp1) as Heq.
    apply (Station_generate_report_Ok rnd Hrnd).
    - rewrite Heq, run_minutes_with_totals. lia.
    - rewrite Heq, run_minutes_with_totals.
      exact (proj1 (Forall_lookup _ _) Hsb i st Hi). }
  exists w, c', p1, p2. split; [done|]. split; [done|]. split; [done|].
  pose proof (summarize_truck_results_inv _ _ _ _ _ Hp1) as Heq1.
  pose proof (summarize_station_results_inv _ _ _ _ _ Hp2) as Heq2.
  apply (total_bounds (Ledger.logged TruckStatus.MINING) 0
           (MiningRun.run_minutes p)) in Htb.
  apply (total_bounds Station.busy_minutes 0 (MiningRun.run_minutes p)) in Hsb.
  rewrite Hlt in Htb. rewrite Hls in Hsb.
  rewrite Heq2, Heq1. unfold MiningRun.run_minutes in *. simpl.
  repeat split; lia.
Qed.



Lemma fmax_int_pos : 0 < Float.fmax_int.
Proof. by vm_compute. Qed.

(** A simulation in which a count or the run length is zero. *)
Lemma simulation_zero_count draw rnd ARGS p c :
  Float.rounding rnd ->
  MiningRun.has_durations p ->
  0 < MiningRun.slice_time p ->
  0 ≤ MiningRun.run_hours p ->
  MiningRun.run_minutes p ≤ Float.fmax_int ->
  0 ≤ MiningRun.num_trucks p ->
  0 ≤ MiningRun.num_stations p ->
  MiningRun.min_mining_hours p ≤ MiningRun.max_mining_hours p ->
  MiningRun.total_busy_truck_time p = 0 ->
  MiningRun.total_busy_station_time p = 0 ->
  MiningRun.num_trucks p = 0 ∨ MiningRun.num_stations p = 0
  ∨ MiningRun.run_hours p = 0 ->
  Simulate.simulation draw rnd ARGS p c = Raise ZeroDivisionError.
Proof.
  intros Hrnd Hp Hpos Hhours Hmax Hnt Hns Hrange Hbt Hbs Hzero.
  destruct (Z.eq_dec (MiningRun.run_hours p) 0) as [Hrh|Hrh].
  - (* no tick is run *)
    assert (MiningRun.run_minutes p = 0) as Hrm
      by (unfold MiningRun.run_minutes; lia).
    destruct (simulation_run_total draw p c) as (w & c' & Hrun & Hwf);
      [lia | done | done |].
    destruct (simulation_run_trucks draw p c w c') as (Hlt & _ & Htrucks);
      [lia | done |].
    rewrite Hrh in Htrucks. simpl in Htrucks.
    unfold Simulate.simulation, mbind, M_bind. rewrite Hrun. unfold lift.
    destruct (Simulate.summarize_truck_results rnd ARGS p (Simulate.trucks w))
      as [p1|e] eqn:Hp1.
    2:{ destruct (Simulate.detail_report_trucks ARGS) eqn:Hft.
        - destruct (Simulate.trucks w) as [|t ts]; [discriminate Hp1|].
          apply Forall_cons in Hwf as [Ht _].
          rewrite (summarize_truck_results_zero rnd ARGS p t ts Hft Hrm Ht)
            in Hp1. congruence.
        - destruct (summarize_truck_results_total rnd ARGS p
                      (Simulate.trucks w) Hwf) as (p1 & Hp1');
            [by rewrite Hft|congruence]. }
    pose proof (summarize_truck_results_inv _ _ _ _ _ Hp1) as Heq1.
    destruct (Simulate.summarize_station_results rnd ARGS p1 (Simulate.stations w))
      as [p2|e] eqn:Hp2.
    2:{ destruct (Simulate.detail_report_stations ARGS) eqn:Hfs.
        - destruct (Simulate.stations w) as [|st sts]; [discriminate Hp2|].
          rewrite (summarize_station_results_zero rnd ARGS p1 st sts Hfs) in Hp2;
            [congruence|]. by rewrite Heq1, run_minutes_with_totals.
        - destruct (summarize_station_results_total rnd ARGS p1
                      (Simulate.stations w)) as (p2 & Hp2');
            [by rewrite Hfs|congruence]. }
    pose proof (summarize_station_results_inv _ _ _ _ _ Hp2) as Heq2.
    assert (Ledger.total (Ledger.logged TruckStatus.MINING) (Simulate.trucks w)
            = 0) as Hmining.
    { apply (total_bounds (Ledger.logged TruckStatus.MINING) 0 0) in Htrucks.
      lia. }
    assert (MiningRun.generate_truck_efficiency rnd p2 = Raise ZeroDivisionError)
      as Heff.
    { unfold MiningRun.generate_truck_efficiency.
      replace (MiningRun.run_minutes p2) with 0
        by (by rewrite Heq2, Heq1, !run_minutes_with_totals).
      replace (MiningRun.total_busy_truck_time p2) with 0
        by (rewrite Heq2, Heq1; simpl; lia).
      replace (MiningRun.num_trucks p2) with (MiningRun.num_trucks p)
        by (by rewrite Heq2, Heq1).
      destruct (Z.eq_dec (MiningRun.num_trucks p) 0) as [->|Hnt0]; [done|].
      apply (percent_zero_minutes rnd Hrnd); [lia|].
      pose proof fmax_int_pos. nia. }
    unfold MiningRun.generate_csv_report. by rewrite Heff.
  - (* the run has ticks *)
    destruct (simulation_summarised draw rnd ARGS p c Hrnd Hp Hpos
                ltac:(lia) Hmax Hrange)
      as (w & c' & p1 & p2 & Hrun & Hp1 & Hp2 & Hnt' & Hns' & Hrm' & Hbt' & Hbs').
    unfold Simulate.simulation, mbind, M_bind. rewrite Hrun. unfold lift.
    rewrite Hp1, Hp2. unfold MiningRun.generate_csv_report.
    destruct (Z.eq_dec (MiningRun.num_trucks p) 0) as [Hnt0|Hnt0].
    + unfold MiningRun.generate_truck_efficiency, Float.int_truediv.
      by rewrite Hnt', Hnt0.
    + assert (MiningRun.num_stations p = 0) as Hns0 by lia.
      assert (0 < MiningRun.run_minutes p) as Hrm
        by (unfold MiningRun.run_minutes; lia).
      destruct (percent_in_range rnd Hrnd
                  (MiningRun.total_busy_truck_time p2) (MiningRun.num_trucks p2)
                  (MiningRun.run_minutes p2)) as (tp & Htp & _);
        [lia | lia | lia | rewrite Hnt', Hrm'; lia |].
      unfold MiningRun.generate_truck_efficiency at 1. rewrite Htp.
      unfold MiningRun.generate_station_efficiency, Float.int_truediv.
      by rewrite Hns', Hns0.
Qed.



(** ** The web front end *)

Lemma RunReport_init_Ok form_int form_has r :
  Frontend.RunReport_init form_int form_has = Ok r ->
  ∃ nt ns rh mn mx ut tt,
    form_int "num_trucks" = Ok nt ∧ form_int "num_stations" = Ok ns ∧
    form_int "run_hours" = Ok rh ∧ form_int "min_mining_hours" = Ok mn ∧
    form_int "max_mining_hours" = Ok mx ∧ form_int "unloading_time" = Ok ut ∧
    form_int "transit_time" = Ok tt ∧
    r = {| Frontend.base :=
             MiningRun.mk (Z.min (Z.max ns 0) 100) (Z.min (Z.max nt 0) 1000)
               (Z.min (Z.max rh 0) 1000) 0 0 0 0 0 0 false false mn mx 5
               (Some tt) (Some tt) (Some ut) (Some ut);
           Frontend.max_trucks := 1000; Frontend.max_stations := 100;
           Frontend.max_hours := 1000;
           Frontend.report_as_percent := form_has "report_as_percent";
           Frontend.columns_to_exclude := [] |}.
Proof.
  unfold Frontend.RunReport_init. intros H.
  apply result_bind_Ok in H as (self & Hself & H).
  apply result_bind_Ok in H as (nt & Hnt & H).
  apply result_bind_Ok in H as (ns & Hns & H).
  apply result_bind_Ok in H as (rh & Hrh & H).
  apply result_bind_Ok in H as (mn & Hmn & H).
  apply result_bind_Ok in H as (mx & Hmx & H).
  apply result_bind_Ok in H as (ut & Hut & H).
  apply result_bind_Ok in H as (ut' & Hut' & H).
  apply result_bind_Ok in H as (tt & Htt & H).
  apply result_bind_Ok in H as (tt' & Htt' & H).
  assert (ut' = ut) as -> by congruence.
  assert (tt' = tt) as -> by congruence.
  unfold MiningRun.new in Hself. injection Hself as <-.
  injection H as <-. exists nt, ns, rh, mn, mx, ut, tt. by repeat split.
Qed.

(** X16.  Whatever numbers the form holds, the run that the front end
    builds has between 0 and 1000 trucks, between 0 and 100 stations and
    between 0 and 1000 hours, a count within its limits being kept as given;
    the slice is 5 minutes, the idle wait is the unloading time and the two
    travel times are the transit time of the form, all three taken
    unchecked like the mining range; the totals start at zero. *)
Theorem front_end_run_is_clamped form_int form_has r :
  Frontend.RunReport_init form_int form_has = Ok r ->
  let p := Frontend.base r in
  0 ≤ MiningRun.num_trucks p ≤ 1000 ∧
  0 ≤ MiningRun.num_stations p ≤ 100 ∧
  0 ≤ MiningRun.run_hours p ≤ 1000 ∧
  (∀ v, form_int "num_trucks" = Ok v -> 0 ≤ v ≤ 1000 ->
        MiningRun.num_trucks p = v) ∧
  (∀ v, form_int "num_stations" = Ok v -> 0 ≤ v ≤ 100 ->
        MiningRun.num_stations p = v) ∧
  (∀ v, form_int "run_hours" = Ok v -> 0 ≤ v ≤ 1000 ->
        MiningRun.run_hours p = v) ∧
  MiningRun.slice_time p = 5 ∧
  form_int "min_mining_hours" = Ok (MiningRun.min_mining_hours p) ∧
  form_int "max_mining_hours" = Ok (MiningRun.max_mining_hours p) ∧
  (∃ unloading_time,
     form_int "unloading_time" = Ok unloading_time ∧
     MiningRun.unloading_time p = Some unloading_time ∧
     MiningRun.idle_wait_time p = Some unloading_time) ∧
  (∃ transit_time,
     form_int "transit_time" = Ok transit_time ∧
     MiningRun.inbound_travel_time p = Some transit_time ∧
     MiningRun.outbound_travel_time p = Some transit_time) ∧
  MiningRun.total_load_count p = 0 ∧
  MiningRun.total_busy_truck_time p = 0 ∧
  MiningRun.total_busy_station_time p = 0.
Proof.
  intros H. apply RunReport_init_Ok in H
    as (nt & ns & rh & mn & mx & ut & tt & Hnt & Hns & Hrh & Hmn & Hmx & Hut
        & Htt & ->).
  simpl. repeat split; try done; try lia.
  - intros v Hv Hr. rewrite Hnt in Hv. injection Hv as ->. lia.
  - intros v Hv Hr. rewrite Hns in Hv. injection Hv as ->. lia.
  - intros v Hv Hr. rewrite Hrh in Hv. injection Hv as ->. lia.
  - by exists ut.
  - by exists tt.
Qed.

Lemma front_end_run_is_clamped_witness :
  ∃ r,
    Frontend.RunReport_init Sample.form_no_truck (fun _ => false) = Ok r ∧
    MiningRun.num_trucks (Frontend.base r) = 0 ∧
    MiningRun.num_stations (Frontend.base r) = 3 ∧
    0 ≤ MiningRun.num_trucks (Frontend.base r) ≤ 1000.
Proof.
  eexists. split; [reflexivity|]. split; [reflexivity|]. split; [reflexivity|].
  eapply (front_end_run_is_clamped Sample.form_no_truck (fun _ => false)).
  reflexivity.
Defined.

(** X17.  The front end lets a count of zero through: a request whose
    number of trucks, of stations or of hours is zero or negative, with a
    mining range that is not empty, is accepted, and the simulation run on
    it in binary64 arithmetic ends in ZeroDivisionError, whatever the two
    detail flags of [ARGS]. *)
Theorem front_end_zero_request_raises form_int form_has r draw ARGS c v :
  Frontend.RunReport_init form_int form_has = Ok r ->
  form_int "num_trucks" = Ok v ∨ form_int "num_stations" = Ok v
  ∨ form_int "run_hours" = Ok v ->
  v ≤ 0 ->
  MiningRun.min_mining_hours (Frontend.base r)
  ≤ MiningRun.max_mining_hours (Frontend.base r) ->
  Simulate.simulation draw Float.binary64 ARGS (Frontend.base r) c
  = Raise ZeroDivisionError.
Proof.
  intros H Hv Hle Hrange. apply RunReport_init_Ok in H
    as (nt & ns & rh & mn & mx & ut & tt & Hnt & Hns & Hrh & Hmn & Hmx & Hut
        & Htt & ->).
  simpl in Hrange. apply simulation_zero_count; simpl.
  - apply binary64_rounding.
  - repeat split; by eexists.
  - done.
  - lia.
  - unfold MiningRun.run_minutes. simpl.
    assert (60000 ≤ Float.fmax_int) by (by vm_compute). lia.
  - lia.
  - lia.
  - done.
  - done.
  - done.
  - destruct Hv as [Hv|[Hv|Hv]].
    + left. rewrite Hnt in Hv. injection Hv as ->. lia.
    + right. left. rewrite Hns in Hv. injection Hv as ->. lia.
    + right. right. rewrite Hrh in Hv. injection Hv as ->. lia.
Qed.

Lemma front_end_zero_request_raises_witness :
  ∃ r,
    Frontend.RunReport_init Sample.form_no_truck (fun _ => false) = Ok r ∧
    Simulate.simulation Example.one_hour Float.binary64 Simulate.ARGS
      (Frontend.base r) 0%nat
    = Raise ZeroDivisionError.
Proof.
  eexists. split; [reflexivity|].
  apply (front_end_zero_request_raises Sample.form_no_truck (fun _ => false)
           _ Example.one_hour Simulate.ARGS 0%nat (-4)).
  - reflexivity.
  - left. reflexivity.
  - discriminate.
  - discriminate.
Defined.

(** ** Names *)

Lemma numbered_name_inj (prefix : string) (i j : nat) :
  prefix +:+ pretty (Z.of_nat i) = prefix +:+ pretty (Z.of_nat j) -> i = j.
Proof.
  intros H. apply (inj (String.app prefix)) in H.
  apply (inj pretty) in H. lia.
Qed.

(** X18.  The entities of a simulation are told apart by their names: the
    trucks that [initialize_trucks] returns have names that differ pairwise,
    and so have the stations of [initialize_unloading_stations]. *)
Theorem initial_names_are_distinct draw p c ts c' :
  Simulate.initialize_trucks draw p c = Ok (ts, c') ->
  NoDup (Truck.name <$> ts) ∧
  NoDup (Station.name <$> Simulate.initialize_unloading_stations p).
Proof.
  intros Hinit. split.
  - destruct (Z.le_gt_cases (MiningRun.num_trucks p) 0) as [Hn|Hn].
    { rewrite initialize_trucks_none in Hinit by done. injection Hinit as <- _.
      constructor. }
    assert (MiningRun.min_mining_hours p ≤ MiningRun.max_mining_hours p) as Hrange.
    { destruct (Z.le_gt_cases (MiningRun.min_mining_hours p)
                  (MiningRun.max_mining_hours p)) as [|Hgt]; [done|].
      rewrite initialize_trucks_empty_range in Hinit by lia. discriminate. }
    destruct (initialize_trucks_Ok draw p c Hrange) as (ts' & Hinit' & _ & Hall).
    rewrite Hinit in Hinit'. injection Hinit' as <- _.
    apply NoDup_alt. intros i j x Hi Hj.
    rewrite list_lookup_fmap in Hi, Hj.
    destruct (ts !! i) as [ti|] eqn:Hti; [|discriminate].
    destruct (ts !! j) as [tj|] eqn:Htj; [|discriminate].
    destruct (Hall i ti Hti) as (_ & _ & Hni & _).
    destruct (Hall j tj Htj) as (_ & _ & Hnj & _).
    simpl in Hi, Hj. apply (numbered_name_inj "truck "). congruence.
  - unfold Simulate.initialize_unloading_stations, Simulate.range.
    rewrite <- !list_fmap_compose. apply NoDup_fmap_2_strong; [|apply NoDup_seq].
    intros i j _ _ H. simpl in H. by apply (numbered_name_inj "station ").
Qed.

Lemma initial_names_are_distinct_witness :
  NoDup (Truck.name <$> Simulate.trucks Example.start) ∧
  NoDup (Station.name <$> Simulate.initialize_unloading_stations Example.run).
Proof.
  apply (initial_names_are_distinct Example.one_hour Example.run 0%nat
           (Simulate.trucks Example.start) 2%nat).
  reflexivity.
Defined.

(** ** Loads, seen from both sides *)

Lemma total_insert_same {A} (f : A -> Z) (l : list A) i x y :
  l !! i = Some x -> f y = f x ->
  Ledger.total f (<[i := y]> l) = Ledger.total f l.
Proof.
  revert i. induction l as [|z l IH]; intros [|i] Hi Hf; simpl in Hi;
    try discriminate.
  - injection Hi as ->. simpl. rewrite !total_cons. lia.
  - simpl. rewrite !total_cons, (IH i Hi Hf). lia.
Qed.

(** Loads a truck has delivered or is unloading. *)
Lemma cycle_loads draw p sts t c t' sts' c' :
  Truck.cycle draw p sts t c = Ok (t', sts', c') ->
  (Truck.completed_loads t'
   + (if decide (Truck.state t' = TruckStatus.UNLOADING) then 1 else 0))
  - (Truck.completed_loads t
     + (if decide (Truck.state t = TruckStatus.UNLOADING) then 1 else 0))
  = (Ledger.total Station.completed_loads sts'
     + Census.stations_in StationStatus.BUSY sts')
    - (Ledger.total Station.completed_loads sts
       + Census.stations_in StationStatus.BUSY sts).
Proof.
  intros H. cycle_cases H.
  all: repeat match goal with
       | Hs : Truck.state ?t = _ |- _ => rewrite Hs; clear Hs
       | Hf : Truck.get_available_station _ = Some _ |- _ =>
           apply get_available_station_Some in Hf as (Hi & Hidle & _);
           rewrite (stations_in_busy_attach _ _ _ _ Hi Hidle);
           rewrite (total_insert_same Station.completed_loads _ _ _ _ Hi)
             by reflexivity
       end.
  all: repeat case_decide; try congruence; lia.
Qed.

Lemma cycle_trucks_loads draw p ts :
  ∀ sts rep c ts' sts' rep' c',
    Simulate.cycle_trucks draw p sts rep ts c = Ok (ts', sts', rep', c') ->
    (Ledger.total Truck.completed_loads ts'
     + Census.trucks_in TruckStatus.UNLOADING ts')
    - (Ledger.total Truck.completed_loads ts
       + Census.trucks_in TruckStatus.UNLOADING ts)
    = (Ledger.total Station.completed_loads sts'
       + Census.stations_in StationStatus.BUSY sts')
      - (Ledger.total Station.completed_loads sts
         + Census.stations_in StationStatus.BUSY sts).
Proof.
  induction ts as [|t ts IH]; simpl; intros sts rep c ts' sts' rep' c' H.
  - inv_ok. lia.
  - apply M_bind_Ok in H as ([t1 sts1] & c1 & Hc & H).
    apply M_bind_Ok in H as ([[rest1 sts2] rep2] & c2 & Hrest & H).
    inv_ok. specialize (IH _ _ _ _ _ _ _ Hrest). apply cycle_loads in Hc.
    rewrite !total_cons, !trucks_in_cons. lia.
Qed.

Lemma station_pass_loads p (sts : list Station.t) :
  Ledger.total Station.completed_loads (Station.cycle p <$> sts)
  + Census.stations_in StationStatus.BUSY (Station.cycle p <$> sts)
  = Ledger.total Station.completed_loads sts
    + Census.stations_in StationStatus.BUSY sts.
Proof.
  rewrite stations_in_busy_after_pass.
  induction sts as [|st sts IH]; [reflexivity|].
  rewrite fmap_cons, !total_cons, stations_in_cons.
  pose proof (Station_cycle_books p st) as Hb.
  unfold Ledger.station_books in Hb. injection Hb as _ _ _ _ Hl.
  rewrite Hl. case_decide; lia.
Qed.

(** X19.  Trucks and stations agree on the loads: over a run of any number
    of ticks, the loads the trucks have delivered or are unloading grow by
    exactly as much as the unloads the stations have completed or are
    serving. *)
Theorem loads_are_conserved draw p n w0 c0 wn cn :
  Simulate.run_ticks draw p n w0 c0 = Ok (wn, cn) ->
  (Ledger.total Truck.completed_loads (Simulate.trucks wn)
   + Census.trucks_in TruckStatus.UNLOADING (Simulate.trucks wn))
  - (Ledger.total Truck.completed_loads (Simulate.trucks w0)
     + Census.trucks_in TruckStatus.UNLOADING (Simulate.trucks w0))
  = (Ledger.total Station.completed_loads (Simulate.stations wn)
     + Census.stations_in StationStatus.BUSY (Simulate.stations wn))
    - (Ledger.total Station.completed_loads (Simulate.stations w0)
       + Census.stations_in StationStatus.BUSY (Simulate.stations w0)).
Proof.
  revert wn cn. induction n as [|n IH]; intros wn cn Hrun.
  - simpl in Hrun. inv_ok. lia.
  - apply run_ticks_S in Hrun as (w1 & c1 & H1 & H2).
    specialize (IH _ _ H1). apply tick_Ok in H2 as (rep & Hc & _).
    apply cycle_trucks_loads in Hc. rewrite station_pass_loads in Hc. lia.
Qed.

Lemma loads_are_conserved_witness :
  (Ledger.total Truck.completed_loads (Simulate.trucks Sample.after20)
   + Census.trucks_in TruckStatus.UNLOADING (Simulate.trucks Sample.after20))
  - (Ledger.total Truck.completed_loads (Simulate.trucks Example.start)
     + Census.trucks_in TruckStatus.UNLOADING (Simulate.trucks Example.start))
  = (Ledger.total Station.completed_loads (Simulate.stations Sample.after20)
     + Census.stations_in StationStatus.BUSY (Simulate.stations Sample.after20))
    - (Ledger.total Station.completed_loads (Simulate.stations Example.start)
       + Census.stations_in StationStatus.BUSY (Simulate.stations Example.start)).
Proof.
  apply (loads_are_conserved Example.one_hour Example.run 20 Example.start
           2%nat Sample.after20 2%nat).
  vm_compute. reflexivity.
Defined.

(** ** How long a state lasts *)

Lemma cycle_nonzero draw p sts t c :
  Truck.remaining_time t ≠ 0 ->
  Truck.cycle draw p sts t c
  = Ok (Truck.with_logs t (Truck.time_logs t) (Truck.state t)
          (Truck.remaining_time t - MiningRun.slice_time p), sts, c).
Proof.
  intros Hnz. unfold Truck.cycle.
  by destruct (Z.eqb_spec (Truck.remaining_time t) 0).
Qed.

(** X20.  A state outlasts its duration by a tick: a truck found with [m]
    slices left on its counter (the slice being positive) is found in the
    same state, with the same logs and loads and [m - j] slices left, [j]
    ticks later, for every [j] up to [m].  So [m] ticks later it is still in
    that state, with its counter at zero. *)
Theorem state_lasts_its_slices_and_one_tick draw p n w0 c0 wn cn i t m j wj cj :
  0 < MiningRun.slice_time p ->
  Simulate.run_ticks draw p n w0 c0 = Ok (wn, cn) ->
  Simulate.trucks wn !! i = Some t ->
  Truck.remaining_time t = Z.of_nat m * MiningRun.slice_time p ->
  (j ≤ m)%nat ->
  Simulate.run_ticks draw p (n + j) w0 c0 = Ok (wj, cj) ->
  ∃ t',
    Simulate.trucks wj !! i = Some t' ∧
    Truck.state t' = Truck.state t ∧
    Truck.time_logs t' = Truck.time_logs t ∧
    Truck.completed_loads t' = Truck.completed_loads t ∧
    Truck.remaining_time t' = Z.of_nat (m - j) * MiningRun.slice_time p.
Proof.
  intros Hslice Hn Hi Hrem. revert wj cj.
  induction j as [|j IH]; intros wj cj Hj Hrun.
  - rewrite Nat.add_0_r, Hn in Hrun. injection Hrun as <- <-.
    exists t. rewrite Nat.sub_0_r. by repeat split.
  - rewrite Nat.add_succ_r in Hrun.
    apply run_ticks_S in Hrun as (w1 & c1 & H1 & H2).
    destruct (IH w1 c1) as (t1 & Hi1 & Hs & Hl & Hc & Hr); [lia|done|].
    pose proof (tick_stepped _ _ _ _ _ _ _ H2) as Hstep.
    destruct (Forall2_lookup_l _ _ _ _ _ Hstep Hi1)
      as (t' & Hi' & (sts & c & sts' & c' & Hcyc)).
    rewrite cycle_nonzero in Hcyc by nia. injection Hcyc as <- _ _.
    exists (Truck.with_logs t1 (Truck.time_logs t1) (Truck.state t1)
              (Truck.remaining_time t1 - MiningRun.slice_time p)).
    split; [done|]. simpl. repeat split; try done. nia.
Qed.

Lemma state_lasts_its_slices_and_one_tick_witness :
  ∃ t',
    Simulate.trucks (Sample.after 12) !! 0%nat = Some t' ∧
    Truck.state t' = Truck.state Sample.truck0 ∧
    Truck.time_logs t' = Truck.time_logs Sample.truck0 ∧
    Truck.completed_loads t' = Truck.completed_loads Sample.truck0 ∧
    Truck.remaining_time t'
    = Z.of_nat (12 - 12) * MiningRun.slice_time Example.run.
Proof.
  apply (state_lasts_its_slices_and_one_tick Example.one_hour Example.run
           0 Example.start 2%nat Example.start 2%nat 0%nat Sample.truck0
           12 12 (Sample.after 12) 2%nat).
  - reflexivity.
  - reflexivity.
  - reflexivity.
  - reflexivity.
  - lia.
  - vm_compute. reflexivity.
Defined.

(** ** A run without its durations *)

(** The constructor leaves the run without the four durations. *)
Lemma new_has_no_duration a b c d e f g h i vt vs mn mx sl p :
  MiningRun.new a b c d e f g h i vt vs mn mx sl = Ok p ->
  MiningRun.inbound_travel_time p = None ∧
  MiningRun.outbound_travel_time p = None ∧
  MiningRun.unloading_time p = None ∧
  MiningRun.idle_wait_time p = None.
Proof. intros H. injection H as <-. by repeat split. Qed.

(** X21.  The transitions need the four durations, which the constructor
    does not set: against a run as [MiningRun(...)] returns it, a truck that
    has its five log entries and whose counter is at zero ends its next
    [cycle] in AttributeError, whatever its state and whatever the
    stations. *)
Theorem transitions_need_the_durations draw a b c d e f g h i vt vs mn mx sl
    p sts t cur :
  MiningRun.new a b c d e f g h i vt vs mn mx sl = Ok p ->
  Truck.logs_wf t ->
  Truck.remaining_time t = 0 ->
  Truck.cycle draw p sts t cur = Raise AttributeError.
Proof.
  intros Hnew Hwf Hzero.
  apply new_has_no_duration in Hnew as (Hin & Hout & Hun & Hidle).
  unfold Truck.cycle. rewrite Hzero. simpl.
  pose proof (Hwf (Truck.state t)) as [v Hv].
  destruct (Truck.state t); simpl in Hv;
    unfold Truck.transition_from_mining, Truck.transition_from_inbound,
      Truck.transition_from_unloading, Truck.transition_from_idle,
      Truck.transition_from_outbound, Truck.log_add, Truck.log_get,
      lift, mbind, M_bind, result_bind;
    rewrite Hv, ?Hin, ?Hout, ?Hun, ?Hidle; reflexivity.
Qed.

Lemma transitions_need_the_durations_witness :
  Truck.cycle Example.one_hour Example.bare_run
    (Simulate.initialize_unloading_stations Example.bare_run)
    Example.test_truck 1%nat
  = Raise AttributeError.
Proof.
  apply (transitions_need_the_durations Example.one_hour
           1 1 2 0 0 0 0 0 0 false false 1 1 5).
  - reflexivity.
  - intros []; by eexists.
  - reflexivity.
Defined.

(** So does the simulation of such a run end: the truck has mined its hour
    after twelve ticks, and the thirteenth reads [inbound_travel_time]. *)
Lemma bare_run_raises :
  ∃ ts c,
    Simulate.initialize_trucks Example.one_hour Example.bare_run 0%nat
    = Ok (ts, c) ∧
    let w0 := {| Simulate.stations :=
                   Simulate.initialize_unloading_stations Example.bare_run;
                 Simulate.trucks := ts;
                 Simulate.time_slice_report :=
                   Simulate.initialize_time_slice_report |} in
    (∃ w c', Simulate.run_ticks Example.one_hour Example.bare_run 12 w0 c
             = Ok (w, c')) ∧
    Simulate.run_ticks Example.one_hour Example.bare_run 13 w0 c
    = Raise AttributeError ∧
    Simulate.simulation_run Example.one_hour Example.bare_run 0%nat
    = Raise AttributeError.
Proof.
  eexists _, _. split; [by vm_compute|]. split; [|split].
  - eexists _, _. by vm_compute.
  - by vm_compute.
  - by vm_compute.
Qed.
